(** * sessionprocess: the moderation and analytics pipeline

    A shallow embedding of the classification, flag review, ban and
    analytics routines of
      - src/utils/messageModerator.ts  (MessageModerator),
      - src/utils/userManager.ts       (UserManager),
      - the analytics module           (AnalyticsManager),
    and the properties the specification states about them.

    Conventions of the embedding.
      - A JavaScript string is a [string]: a sequence of code units, here
        restricted to the code units below 256 (Latin-1).
      - A JavaScript number is a binary64 float ([float]); time stamps,
        lengths and counts, which the code keeps integral and far below
        2^53, are [Z] or [nat] and converted where the code divides.
      - A regular expression is a syntax tree run by the backtracking
        matcher of the language specification; the [lastIndex] of the
        module-level patterns is state that the classifier threads.
      - A database node with children is an association list in the store's
        child order (keys ascending).  A property that a stored record
        does not have is [None].
      - Functions that read or write the database take it and return the
        new one; [Date.now()] and a key generated by [push] are arguments.
      - The store refuses a value that holds an [undefined] property:
        [update] and [push] throw before anything is written, and the
        [catch] branch of the caller is taken.  An optional argument that
        the caller left out is [None], and a record built from it holds
        [undefined] there.  Apart from that the store's calls are taken
        to succeed, and the ids that make up a path are taken to be valid
        keys.
      - An object literal used as a map inherits the properties of
        [Object.prototype].  The keyword tallies, whose keys are words of
        the messages, are modelled with them ([JSObject.count_up]).  The
        keys of the other maps are hours, ISO dates, rule names and the
        uids of the authentication service, none of which is a property
        name of [Object.prototype]: these objects are read for their own
        properties only. *)

From Stdlib Require Import Bool Arith ZArith List String Ascii Lia.
From Stdlib Require Import Floats.
Import ListNotations.

(** ** JavaScript strings *)

Module JS.

Definition code (a : ascii) : N := N_of_ascii a.

Definition in_range (lo hi : N) (a : ascii) : bool :=
  (N.leb lo (code a) && N.leb (code a) hi)%bool.

Definition shift_code (a : ascii) (f : N -> N) : ascii := ascii_of_N (f (code a)).

(** [String.prototype.toLowerCase] on one code unit below 256:
    A-Z and the Latin-1 capitals U+00C0-U+00DE (without the multiplication
    sign U+00D7) move up by 32, every other code unit stays. *)
Definition lower_char (a : ascii) : ascii :=
  if in_range 65 90 a then shift_code a (fun n => n + 32)%N
  else if (in_range 192 222 a && negb (N.eqb (code a) 215))%bool
       then shift_code a (fun n => n + 32)%N
  else a.

Fixpoint toLowerCase (s : string) : string :=
  match s with
  | EmptyString => EmptyString
  | String a s' => String (lower_char a) (toLowerCase s')
  end.

(** [s.includes(w)]: [w] occurs in [s] as a contiguous substring. *)
Fixpoint includes (s w : string) : bool :=
  if String.prefix w s then true
  else match s with
       | EmptyString => false
       | String _ s' => includes s' w
       end.

(** The regular expression engine's [Canonicalize] for a pattern with the
    [i] flag and without the [u] flag: the code unit's upper case when that
    is a single code unit (and not an ASCII one for a non-ASCII input).
    Below 256 two code units have the same canonical form exactly when
    they are the two cases of one letter; y-diaeresis and the micro sign,
    whose upper cases lie above 255, are alone in their classes. *)
Definition canonicalize (ignoreCase : bool) (a : ascii) : ascii :=
  if negb ignoreCase then a
  else if in_range 97 122 a then shift_code a (fun n => n - 32)%N
  else if (in_range 224 254 a && negb (N.eqb (code a) 247))%bool
       then shift_code a (fun n => n - 32)%N
  else a.

(** Character classes of the pattern syntax. *)
Definition isWhiteSpace (a : ascii) : bool :=
  (in_range 9 13 a || N.eqb (code a) 32 || N.eqb (code a) 160)%bool.

Definition isDigit (a : ascii) : bool := in_range 48 57 a.

Definition isWordChar (a : ascii) : bool :=
  (in_range 97 122 a || in_range 65 90 a || isDigit a || N.eqb (code a) 95)%bool.

Definition isLineTerminator (a : ascii) : bool :=
  (N.eqb (code a) 10 || N.eqb (code a) 13)%bool.

End JS.

(** ** JavaScript arrays and objects *)

Module JSArray.

(** [Array.prototype.sort] with a comparator, which is stable: [before a b]
    says that the comparator does not put [b] first. *)
Fixpoint insert {A} (before : A -> A -> bool) (x : A) (l : list A) : list A :=
  match l with
  | [] => [x]
  | y :: l' => if before x y then x :: y :: l' else y :: insert before x l'
  end.

Definition sort {A} (before : A -> A -> bool) (l : list A) : list A :=
  fold_right (insert before) [] l.

Definition slice_to {A} (n : nat) (l : list A) : list A := firstn n l.

(** [s.split(/\s+/)].  [skipping] is true inside a run of white space
    whose piece has been closed already. *)
Fixpoint split_ws_from (s : string) (skipping : bool) : list string :=
  match s with
  | EmptyString => [EmptyString]
  | String a s' =>
      if JS.isWhiteSpace a then
        if skipping then split_ws_from s' true
        else EmptyString :: split_ws_from s' true
      else
        match split_ws_from s' false with
        | piece :: pieces => String a piece :: pieces
        | [] => [String a EmptyString]
        end
  end.

Definition split_ws (s : string) : list string := split_ws_from s false.

Definition includes (l : list string) (w : string) : bool :=
  existsb (String.eqb w) l.

End JSArray.

Module JSObject.

(** An object used as a map from strings: its own properties in creation
    order. *)
Definition t (A : Type) : Type := list (string * A).

Fixpoint get {A} (o : t A) (k : string) : option A :=
  match o with
  | [] => None
  | (k', v) :: o' => if String.eqb k' k then Some v else get o' k
  end.

Fixpoint set {A} (o : t A) (k : string) (v : A) : t A :=
  match o with
  | [] => [(k, v)]
  | (k', v') :: o' =>
      if String.eqb k' k then (k', v) :: o' else (k', v') :: set o' k v
  end.

Fixpoint digits_value (s : string) (acc : N) : option N :=
  match s with
  | EmptyString => Some acc
  | String a s' =>
      if JS.isDigit a then digits_value s' (acc * 10 + (JS.code a - 48))%N
      else None
  end.

(** The array index that a property key denotes, if any: a canonical
    decimal numeral below 2^32 - 1. *)
Definition array_index (k : string) : option N :=
  match k with
  | EmptyString => None
  | String a rest =>
      if (Ascii.eqb a "0" && negb (String.eqb rest EmptyString))%bool then None
      else match digits_value k 0 with
           | Some v => if (v <=? 4294967294)%N then Some v else None
           | None => None
           end
  end.

Definition index_before {A} (a b : string * A) : bool :=
  match array_index (fst a), array_index (fst b) with
  | Some x, Some y => (x <=? y)%N
  | _, _ => true
  end.

(** [Object.entries]: the array indices in ascending order, then the other
    keys in creation order. *)
Definition entries {A} (o : t A) : list (string * A) :=
  let is_index (e : string * A) :=
    match array_index (fst e) with Some _ => true | None => false end in
  JSArray.sort index_before (filter is_index o)
  ++ filter (fun e => negb (is_index e)) o.

(** *** A plain object as a tally

    The keyword tallies are kept by [counts[k] = (counts[k] || 0) + 1] in
    an object literal, whose prototype is [Object.prototype]: the read
    [counts[k]] of a key that is no own property finds what the prototype
    holds under that name.  For every name but [__proto__] that is a
    function, and the sum of a function and 1 is a string, the source
    text of the function followed by the digit 1; the string is stored,
    and every later count appends one digit more.  For [__proto__] the
    read gives the prototype object and the write runs the setter of the
    prototype, which ignores a string: nothing is stored. *)

Definition prototype_names : list string :=
  ["constructor"; "__defineGetter__"; "__defineSetter__"; "hasOwnProperty";
   "__lookupGetter__"; "__lookupSetter__"; "isPrototypeOf"; "propertyIsEnumerable";
   "toString"; "valueOf"; "__proto__"; "toLocaleString"]%string.

Definition inherited (k : string) : bool := JSArray.includes prototype_names k.

(** The value of a tally: a number, or the source text of the inherited
    function [name] followed by [ones] digits 1. *)
Inductive Count : Type :=
| Times (n : nat)
| Text (name : string) (ones : nat).

(** [counts[k] = (counts[k] || 0) + 1] *)
Definition count_up (counts : t Count) (k : string) : t Count :=
  match get counts k with
  | Some (Times n) => set counts k (Times (S n))
  | Some (Text name ones) => set counts k (Text name (S ones))
  | None =>
      if String.eqb k "__proto__" then counts
      else if inherited k then set counts k (Text k 1)
      else set counts k (Times 1)
  end.

(** The comparator [([, a], [, b]) => b - a] does not put [b] first.  With
    a text on either side the difference is [NaN], which [sort] takes for
    zero.  The comparator is then consistent only if all the numbers are
    equal; otherwise the language leaves the order of the sorted array to
    the implementation, and [JSArray.sort] gives one such order. *)
Definition by_tally_desc {K} (a b : K * Count) : bool :=
  match snd a, snd b with
  | Times x, Times y => (y <=? x)%nat
  | _, _ => true
  end.

End JSObject.

(** ** JavaScript numbers *)

Module Number.

Open Scope float_scope.

(** The number of an integer below 2^63 in size (exact below 2^53,
    rounded to nearest above). *)
Definition of_Z (z : Z) : float :=
  match z with
  | Z0 => 0
  | Zpos _ => PrimFloat.of_uint63 (Uint63.of_Z z)
  | Zneg _ => - PrimFloat.of_uint63 (Uint63.of_Z (Z.opp z))
  end.

Definition of_nat (n : nat) : float := of_Z (Z.of_nat n).

(** [ToBoolean] of a number: false for +0, -0 and NaN. *)
Definition truthy (x : float) : bool :=
  (negb (x =? 0) && negb (PrimFloat.is_nan x))%bool.

(** [x && c] where [x] is an optional number property and [c] a
    comparison on it: false when the property is absent or falsy. *)
Definition guarded (x : option float) (c : float -> bool) : bool :=
  match x with
  | Some v => (truthy v && c v)%bool
  | None => false
  end.

(** [Math.min] of two numbers. *)
Definition Math_min (x y : float) : float :=
  if PrimFloat.is_nan x then x
  else if PrimFloat.is_nan y then y
  else if x <? y then x
  else if y <? x then y
  else match PrimFloat.classify x with
       | NZero => x
       | _ => y
       end.

(** The double nearest to the literal 0.1. *)
Definition one_tenth : float := 0x1.999999999999ap-4.

(** The integers from 0 to [n]. *)
Fixpoint range (n : nat) : list Z :=
  match n with
  | O => [0%Z]
  | S n' => range n' ++ [Z.of_nat n]
  end.

End Number.

(** ** Regular expressions

    The fragment of the ECMAScript pattern language that the module-level
    pattern tables use, with the backtracking semantics of the language
    specification: a matcher takes a match state (end index and captures)
    and a continuation, and returns the first successful state or
    failure. *)

Module RegExp.

Inductive ClassAtom : Type :=
| CChar (c : ascii)
| CRange (lo hi : ascii)
| CSpace                      (* \s *)
| CWord                       (* \w *)
| CDigit.                     (* \d *)

Inductive regex : Type :=
| REmpty
| RChar (c : ascii)
| RDot
| RClass (negated : bool) (atoms : list ClassAtom)
| RSeq (r1 r2 : regex)
| RAlt (r1 r2 : regex)
| RQuant (r : regex) (min : nat) (max : option nat) (greedy : bool)
| RGroup (n : nat) (r : regex)
| RBackref (n : nat)
| RWordBoundary               (* \b *)
| RBegin                      (* ^ *)
| REnd.                       (* $ *)

(** A pattern object: its source, its flags and nothing else; the mutable
    [lastIndex] property is threaded by the callers. *)
Record RegExp : Type := mkRegExp {
  source : regex;
  ignoreCase : bool;
  global : bool
}.

Definition Captures : Type := list (option (nat * nat)).
Definition MatchState : Type := (nat * Captures)%type.
Definition Continuation : Type := MatchState -> option MatchState.
Definition Matcher : Type := MatchState -> Continuation -> option MatchState.

Definition endIndex (x : MatchState) : nat := fst x.
Definition captures (x : MatchState) : Captures := snd x.

Fixpoint set_capture (n : nat) (v : option (nat * nat)) (cap : Captures) : Captures :=
  match n, cap with
  | O, [] => [v]
  | O, _ :: cap' => v :: cap'
  | S n', [] => None :: set_capture n' v []
  | S n', c :: cap' => c :: set_capture n' v cap'
  end.

Definition get_capture (n : nat) (cap : Captures) : option (nat * nat) :=
  nth n cap None.

(** The capture groups that occur in a pattern: a quantifier resets them at
    the start of each iteration. *)
Fixpoint groups (r : regex) : list nat :=
  match r with
  | RSeq r1 r2 | RAlt r1 r2 => groups r1 ++ groups r2
  | RQuant r' _ _ _ => groups r'
  | RGroup n r' => n :: groups r'
  | _ => []
  end.

Definition clear_captures (gs : list nat) (cap : Captures) : Captures :=
  fold_left (fun acc g => set_capture g None acc) gs cap.

Definition class_atom_has (at_ : ClassAtom) (a : ascii) : bool :=
  match at_ with
  | CChar c => Ascii.eqb a c
  | CRange lo hi => JS.in_range (JS.code lo) (JS.code hi) a
  | CSpace => JS.isWhiteSpace a
  | CWord => JS.isWordChar a
  | CDigit => JS.isDigit a
  end.

Definition class_has (atoms : list ClassAtom) (a : ascii) : bool :=
  existsb (fun at_ => class_atom_has at_ a) atoms.

(** Every code unit of the model. *)
Definition all_chars : list ascii :=
  Eval vm_compute in map ascii_of_nat (seq 0 256).

Section Matching.

Variable input : list ascii.
Variable icase : bool.

Definition canon (a : ascii) : ascii := JS.canonicalize icase a.

(** [CharacterSetMatcher]: the input character matches when some member of
    the set has its canonical form. *)
Definition set_matches (atoms : list ClassAtom) (a : ascii) : bool :=
  existsb (fun m => class_has atoms m && Ascii.eqb (canon m) (canon a))%bool all_chars.

Definition char_matcher (p : ascii -> bool) : Matcher :=
  fun x c =>
    match nth_error input (endIndex x) with
    | Some a => if p a then c (S (endIndex x), captures x) else None
    | None => None
    end.

(** [IsWordChar(e)], with [e] given as the number of characters before it;
    [is_word_before] looks at position [e - 1]. *)
Definition is_word_at (e : nat) : bool :=
  match nth_error input e with
  | Some a => JS.isWordChar a
  | None => false
  end.

Definition is_word_before (e : nat) : bool :=
  match e with
  | O => false
  | S e' => is_word_at e'
  end.

(** The characters [input[from .. from+len)] against the capture
    [input[s .. s+len)], compared in canonical form. *)
Fixpoint same_span (len s from : nat) : bool :=
  match len with
  | O => true
  | S len' =>
      match nth_error input s, nth_error input from with
      | Some a, Some b =>
          (Ascii.eqb (canon a) (canon b) && same_span len' (S s) (S from))%bool
      | _, _ => false
      end
  end.

Definition backref_matcher (n : nat) : Matcher :=
  fun x c =>
    match get_capture n (captures x) with
    | None => c x
    | Some (s, e) =>
        let len := e - s in
        if (endIndex x + len <=? List.length input) && same_span len s (endIndex x)
        then c (endIndex x + len, captures x)
        else None
    end%bool.

(** [RepeatMatcher].  An iteration that is not one of the [min] required
    ones and consumes nothing is rejected, so at most
    [min + List.length input] iterations run; [fuel] counts them. *)
Fixpoint repeat_matcher (fuel : nat) (m : Matcher) (gs : list nat)
    (min : nat) (max : option nat) (greedy : bool) : Matcher :=
  fun x c =>
    match fuel with
    | O => None
    | S fuel' =>
        match max with
        | Some O => c x
        | _ =>
            let d : Continuation := fun y =>
              if ((min =? 0) && (endIndex y =? endIndex x))%bool then None
              else repeat_matcher fuel' m gs (pred min) (option_map pred max) greedy y c in
            let xr : MatchState := (endIndex x, clear_captures gs (captures x)) in
            if negb (min =? 0) then m xr d
            else if negb greedy then
              match c x with
              | Some z => Some z
              | None => m xr d
              end
            else
              match m xr d with
              | Some z => Some z
              | None => c x
              end
        end
    end.

Fixpoint compile (r : regex) : Matcher :=
  match r with
  | REmpty => fun x c => c x
  | RChar ch => char_matcher (fun a => Ascii.eqb (canon a) (canon ch))
  | RDot => char_matcher (fun a => negb (JS.isLineTerminator a))
  | RClass negated atoms =>
      char_matcher (fun a => xorb negated (set_matches atoms a))
  | RSeq r1 r2 => fun x c => compile r1 x (fun y => compile r2 y c)
  | RAlt r1 r2 => fun x c =>
      match compile r1 x c with
      | Some z => Some z
      | None => compile r2 x c
      end
  | RQuant r' min max greedy =>
      repeat_matcher (S (min + List.length input)) (compile r') (groups r') min max greedy
  | RGroup n r' => fun x c =>
      compile r' x (fun y =>
        c (endIndex y, set_capture n (Some (endIndex x, endIndex y)) (captures y)))
  | RBackref n => backref_matcher n
  | RWordBoundary => fun x c =>
      if xorb (is_word_before (endIndex x)) (is_word_at (endIndex x)) then c x else None
  | RBegin => fun x c => if endIndex x =? 0 then c x else None
  | REnd => fun x c => if endIndex x =? List.length input then c x else None
  end.

(** A match that starts at index [i]. *)
Definition match_at (r : regex) (i : nat) : option MatchState :=
  compile r (i, []) (fun y => Some y).

(** The first index among [i, i+1, ..., i+n-1] at which the pattern
    matches, with the match found there. *)
Fixpoint search (r : regex) (n i : nat) : option MatchState :=
  match n with
  | O => None
  | S n' =>
      match match_at r i with
      | Some y => Some y
      | None => search r n' (S i)
      end
  end.

(** A state that lies in the input. *)
Definition in_input (x : MatchState) : Prop := endIndex x <= List.length input.

(** A matcher only calls its continuation on states further on in the
    input: continuations that agree there give the same result. *)
Definition forward (m : Matcher) : Prop :=
  forall (x : MatchState) (c c' : Continuation),
    in_input x ->
    (forall y, endIndex x <= endIndex y -> in_input y -> c y = c' y) ->
    m x c = m x c'.

End Matching.

(** [RegExpBuiltinExec] as far as [test] observes it: whether there is a
    match at or after the start index, and the new value of [lastIndex].
    A pattern without the [g] flag starts at 0 and leaves [lastIndex]
    alone; a global one starts at [lastIndex], stores the end of the match
    there, and stores 0 when there is none. *)
Definition test (re : RegExp) (lastIndex : nat) (s : string) : bool * nat :=
  let input := list_ascii_of_string s in
  let start := if global re then lastIndex else 0 in
  match search input (ignoreCase re) (source re) (S (List.length input) - start) start with
  | Some y => (true, if global re then endIndex y else lastIndex)
  | None => (false, if global re then 0 else lastIndex)
  end.

(** The pattern matches somewhere in the text. *)
Definition matches (re : RegExp) (s : string) : Prop :=
  exists i, i <= String.length s /\
    match_at (list_ascii_of_string s) (ignoreCase re) (source re) i <> None.

(** Pattern syntax helpers. *)
Fixpoint lit (s : string) : regex :=
  match s with
  | EmptyString => REmpty
  | String a EmptyString => RChar a
  | String a s' => RSeq (RChar a) (lit s')
  end.

Fixpoint seq_of (rs : list regex) : regex :=
  match rs with
  | [] => REmpty
  | [r] => r
  | r :: rs' => RSeq r (seq_of rs')
  end.

Definition plus (r : regex) : regex := RQuant r 1 None true.
Definition at_least (n : nat) (r : regex) : regex := RQuant r n None true.
Definition space : regex := RClass false [CSpace].

End RegExp.

(** ** The record store

    A database node with children, as the hosted store keeps it: the
    children in key order.  [update] on a child path merges into the child
    (and creates it), [remove] deletes it, a read of a missing child is
    absent. *)

Module Store.

Definition Node (A : Type) : Type := list (string * A).

Fixpoint read {A} (n : Node A) (key : string) : option A :=
  match n with
  | [] => None
  | (k, v) :: n' => if String.eqb k key then Some v else read n' key
  end.

(** [g] applied to the child at [key]. *)
Fixpoint replace {A} (n : Node A) (key : string) (g : A -> A) : Node A :=
  match n with
  | [] => []
  | (k, v) :: n' =>
      if String.eqb k key then (k, g v) :: n' else (k, v) :: replace n' key g
  end.

(** A new child, at its place in key order. *)
Fixpoint insert {A} (n : Node A) (key : string) (v : A) : Node A :=
  match n with
  | [] => [(key, v)]
  | (k, v') :: n' =>
      if String.ltb key k then (key, v) :: (k, v') :: n'
      else (k, v') :: insert n' key v
  end.

(** Write [f old] at [key], where [old] is the child's present value: in
    place when the child exists, as a new child otherwise. *)
Definition write {A} (n : Node A) (key : string) (f : option A -> A) : Node A :=
  match read n key with
  | Some _ => replace n key (fun v => f (Some v))
  | None => insert n key (f None)
  end.

Fixpoint remove {A} (n : Node A) (key : string) : Node A :=
  match n with
  | [] => []
  | (k, v) :: n' => if String.eqb k key then remove n' key else (k, v) :: remove n' key
  end.

(** [Object.values] and [Object.entries] of a snapshot. *)
Definition values {A} (n : Node A) : list A := map snd n.
Definition entries {A} (n : Node A) : list (string * A) := n.

(** The number of children whose value satisfies [P]. *)
Definition count {A} (P : A -> bool) (n : Node A) : nat :=
  List.length (filter P (values n)).

End Store.

(** ** The stored records

    The interfaces of the three modules and the children of the database
    paths [messages], [flaggedMessages], [users], [bans] and
    [userActivity].  A property that an interface marks optional, or that a
    merge update may leave out, is an [option]. *)

Module Model.

Inductive FlagReason : Type := Profanity | Spam | Harassment | Inappropriate | Manual.
Inductive Severity : Type := Low | Medium | High.
Inductive ReviewAction : Type := Approved | Deleted | Edited.
Inductive BanType : Type := Temporary | Permanent.
Inductive Role : Type := RoleUser | RoleModerator | RoleAdmin.
Inductive Status : Type := Active | Banned | Suspended.

Definition FlagReason_eqb (a b : FlagReason) : bool :=
  match a, b with
  | Profanity, Profanity | Spam, Spam | Harassment, Harassment
  | Inappropriate, Inappropriate | Manual, Manual => true
  | _, _ => false
  end.

Definition Severity_eqb (a b : Severity) : bool :=
  match a, b with
  | Low, Low | Medium, Medium | High, High => true
  | _, _ => false
  end.

Definition ReviewAction_eqb (a b : ReviewAction) : bool :=
  match a, b with
  | Approved, Approved | Deleted, Deleted | Edited, Edited => true
  | _, _ => false
  end.

(** [x === v] for an optional property [x]. *)
Definition is_value {A} (eqb : A -> A -> bool) (x : option A) (v : A) : bool :=
  match x with
  | Some y => eqb y v
  | None => false
  end.

(** Truthiness of an optional boolean and of an optional time stamp. *)
Definition truthy_bool (x : option bool) : bool :=
  match x with Some b => b | None => false end.

Definition truthy_Z (x : option Z) : bool :=
  match x with Some z => negb (Z.eqb z 0) | None => false end.

(** A child of [messages], as the chat room writes it. *)
Module Message.
Record t : Type := mk {
  text : string;
  user : string;
  userId : string;
  timestamp : Z
}.
End Message.

(** [interface FlaggedMessage]. *)
Module FlaggedMessage.
Record t : Type := mk {
  id : string;
  text : string;
  user : string;
  userId : option string;
  timestamp : Z;
  flagReason : FlagReason;
  flaggedAt : Z;
  flaggedBy : option string;
  autoFlagged : bool;
  severity : Severity;
  reviewed : bool;
  reviewedBy : option string;
  reviewedAt : option Z;
  action : option ReviewAction
}.
End FlaggedMessage.

(** A child of [flaggedMessages]: the properties of a [FlaggedMessage]
    that the merge updates have written so far. *)
Module FlaggedNode.
Record t : Type := mk {
  id : option string;
  text : option string;
  user : option string;
  userId : option string;
  timestamp : option Z;
  flagReason : option FlagReason;
  flaggedAt : option Z;
  flaggedBy : option string;
  autoFlagged : option bool;
  severity : option Severity;
  reviewed : option bool;
  reviewedBy : option string;
  reviewedAt : option Z;
  action : option ReviewAction
}.

Definition empty : t :=
  mk None None None None None None None None None None None None None None.

Definition of_flagged (f : FlaggedMessage.t) : t :=
  mk (Some (FlaggedMessage.id f)) (Some (FlaggedMessage.text f))
     (Some (FlaggedMessage.user f)) (FlaggedMessage.userId f)
     (Some (FlaggedMessage.timestamp f)) (Some (FlaggedMessage.flagReason f))
     (Some (FlaggedMessage.flaggedAt f)) (FlaggedMessage.flaggedBy f)
     (Some (FlaggedMessage.autoFlagged f)) (Some (FlaggedMessage.severity f))
     (Some (FlaggedMessage.reviewed f)) (FlaggedMessage.reviewedBy f)
     (FlaggedMessage.reviewedAt f) (FlaggedMessage.action f).

(** The value after a merge update: a property of [new] that is present
    replaces the old one, the others stay. *)
Definition over {A} (new old : option A) : option A :=
  match new with Some _ => new | None => old end.

Definition merge (old new : t) : t :=
  mk (over (id new) (id old)) (over (text new) (text old))
     (over (user new) (user old)) (over (userId new) (userId old))
     (over (timestamp new) (timestamp old)) (over (flagReason new) (flagReason old))
     (over (flaggedAt new) (flaggedAt old)) (over (flaggedBy new) (flaggedBy old))
     (over (autoFlagged new) (autoFlagged old)) (over (severity new) (severity old))
     (over (reviewed new) (reviewed old)) (over (reviewedBy new) (reviewedBy old))
     (over (reviewedAt new) (reviewedAt old)) (over (action new) (action old)).
End FlaggedNode.

(** [interface BanRecord]; every child of [bans] is written whole by
    [banUser] before [unbanUser] merges into it. *)
Module BanRecord.
Record t : Type := mk {
  id : string;
  userId : string;
  bannedBy : string;
  reason : string;
  type : BanType;
  startDate : Z;
  endDate : option Z;
  isActive : bool;
  revokedBy : option string;
  revokedAt : option Z;
  revokeReason : option string
}.
End BanRecord.

(** [interface UserPermissions]. *)
Record UserPermissions : Type := mkPermissions {
  canSendMessages : bool;
  canDeleteOwnMessages : bool;
  canReportMessages : bool;
  canAccessAdminPanel : bool;
  canModerateMessages : bool;
  canBanUsers : bool;
  canManageRoles : bool
}.

(** A child of [users]: the properties of a [UserProfile] written so far;
    [banHistory] is keyed by ban id. *)
Module UserProfile.
Record t : Type := mk {
  uid : option string;
  email : option string;
  displayName : option string;
  role : option Role;
  status : option Status;
  createdAt : option Z;
  lastActive : option Z;
  messageCount : option Z;
  flagCount : option Z;
  warningCount : option Z;
  banHistory : Store.Node BanRecord.t;
  permissions : option UserPermissions
}.

Definition empty : t :=
  mk None None None None None None None None None None [] None.

Definition with_status (s : Status) (u : t) : t :=
  mk (uid u) (email u) (displayName u) (role u) (Some s) (createdAt u)
     (lastActive u) (messageCount u) (flagCount u) (warningCount u)
     (banHistory u) (permissions u).

Definition with_banHistory (h : Store.Node BanRecord.t) (u : t) : t :=
  mk (uid u) (email u) (displayName u) (role u) (status u) (createdAt u)
     (lastActive u) (messageCount u) (flagCount u) (warningCount u)
     h (permissions u).
End UserProfile.

(** The [details] payloads of the activity log entries written by the
    operations below. *)
Inductive ActivityDetails : Type :=
| UserBannedDetails (targetUser reason : string) (type : BanType) (duration : option Z)
| UserUnbannedDetails (targetUser revokeReason : string).

Inductive ActivityAction : Type :=
| Login | Logout | MessageSent | MessageDeleted | UserReported | MessageFlagged.

(** [interface UserActivity]. *)
Module UserActivity.
Record t : Type := mk {
  userId : string;
  action : ActivityAction;
  timestamp : Z;
  details : option ActivityDetails
}.
End UserActivity.

(** The database.  [userActivity] is only ever appended to with generated
    keys, which grow with time: its children are kept in arrival order. *)
Record Database : Type := mkDatabase {
  messages : Store.Node Message.t;
  flaggedMessages : Store.Node FlaggedNode.t;
  users : Store.Node UserProfile.t;
  bans : Store.Node BanRecord.t;
  userActivity : list UserActivity.t
}.

Definition emptyDatabase : Database := mkDatabase [] [] [] [] [].

Definition set_messages (v : Store.Node Message.t) (db : Database) : Database :=
  mkDatabase v (flaggedMessages db) (users db) (bans db) (userActivity db).
Definition set_flaggedMessages (v : Store.Node FlaggedNode.t) (db : Database) : Database :=
  mkDatabase (messages db) v (users db) (bans db) (userActivity db).
Definition set_users (v : Store.Node UserProfile.t) (db : Database) : Database :=
  mkDatabase (messages db) (flaggedMessages db) v (bans db) (userActivity db).
Definition set_bans (v : Store.Node BanRecord.t) (db : Database) : Database :=
  mkDatabase (messages db) (flaggedMessages db) (users db) v (userActivity db).
Definition set_userActivity (v : list UserActivity.t) (db : Database) : Database :=
  mkDatabase (messages db) (flaggedMessages db) (users db) (bans db) v.

End Model.

(** ** MessageModerator (src/utils/messageModerator.ts) *)

Module MessageModerator.

Import RegExp Model.

(** [PROFANITY_LEVELS] *)
Definition PROFANITY_mild : list string :=
  ["damn"; "hell"; "crap"; "stupid"; "idiot"; "moron"; "dumb"]%string.
Definition PROFANITY_moderate : list string :=
  ["hate"; "kill"; "die"; "trash"; "garbage"; "worthless"]%string.
Definition PROFANITY_severe : list string :=
  ["extreme profanity would go here"]%string.

Definition pattern_i (r : regex) : RegExp := mkRegExp r true false.

(** [HARASSMENT_PATTERNS] *)
Definition HARASSMENT_PATTERNS : list RegExp :=
  [ (* /you\s+(should|need to)\s+(die|kill yourself)/i *)
    pattern_i (seq_of [lit "you"; plus space;
                       RGroup 1 (RAlt (lit "should") (lit "need to"));
                       plus space;
                       RGroup 2 (RAlt (lit "die") (lit "kill yourself"))]);
    (* /kys/i *)
    pattern_i (lit "kys");
    (* /go\s+kill\s+yourself/i *)
    pattern_i (seq_of [lit "go"; plus space; lit "kill"; plus space; lit "yourself"]);
    (* /nobody\s+likes\s+you/i *)
    pattern_i (seq_of [lit "nobody"; plus space; lit "likes"; plus space; lit "you"]);
    (* /you\s+are\s+(worthless|pathetic|disgusting)/i *)
    pattern_i (seq_of [lit "you"; plus space; lit "are"; plus space;
                       RGroup 1 (RAlt (lit "worthless")
                                   (RAlt (lit "pathetic") (lit "disgusting")))]) ].

(** [SPAM_PATTERNS] *)
Definition SPAM_PATTERNS : list RegExp :=
  [ (* /(.)\1{5,}/i *)
    pattern_i (RSeq (RGroup 1 RDot) (at_least 5 (RBackref 1)));
    (* /^[A-Z\s!]{15,}$/i *)
    pattern_i (seq_of [RBegin;
                       at_least 15 (RClass false [CRange "A" "Z"; CSpace; CChar "!"]);
                       REnd]);
    (* /(\b\w+\b.*?){3,}\1/i *)
    pattern_i (RSeq (at_least 3
                       (RGroup 1 (seq_of [RWordBoundary; plus (RClass false [CWord]);
                                          RWordBoundary; RQuant RDot 0 None false])))
                    (RBackref 1));
    (* /(https?:\/\/[^\s]+)/gi *)
    mkRegExp (RGroup 1 (seq_of [lit "http"; RQuant (RChar "s") 0 (Some 1) true;
                                lit "://"; plus (RClass true [CSpace])]))
             true true;
    (* /(\b\d{10,}\b)/g *)
    mkRegExp (RGroup 1 (seq_of [RWordBoundary; at_least 10 (RClass false [CDigit]);
                                RWordBoundary]))
             false true ].

(** The mutable part of the two module-level pattern tables: the
    [lastIndex] of each pattern, by position (0 where the list is short). *)
Record PatternState : Type := mkPatternState {
  harassmentLastIndex : list nat;
  spamLastIndex : list nat
}.

Definition initialPatternState : PatternState := mkPatternState [] [].

Fixpoint set_nth (i : nat) (v : nat) (l : list nat) : list nat :=
  match i, l with
  | O, [] => [v]
  | O, _ :: l' => v :: l'
  | S i', [] => 0 :: set_nth i' v []
  | S i', x :: l' => x :: set_nth i' v l'
  end.

(** [for (const pattern of ps) if (pattern.test(message)) return ...]:
    whether the loop returned, and the [lastIndex] values afterwards.
    [i] is the position of the head of [ps] in its table. *)
Fixpoint test_loop (ps : list RegExp) (i : nat) (lis : list nat) (message : string)
  : bool * list nat :=
  match ps with
  | [] => (false, lis)
  | p :: ps' =>
      let (hit, li') := test p (nth i lis 0) message in
      let lis' := set_nth i li' lis in
      if hit then (true, lis') else test_loop ps' (S i) lis' message
  end.

(** [for (const word of ws) if (lowerMessage.includes(word.toLowerCase())) return ...] *)
Definition includes_any (lowerMessage : string) (ws : list string) : bool :=
  existsb (fun word => JS.includes lowerMessage (JS.toLowerCase word)) ws.

Record ModerationResult : Type := mkResult {
  shouldFlag : bool;
  shouldDelete : bool;
  flagReason : option FlagReason;
  severity : option Severity
}.

Definition moderateMessage (st : PatternState) (message _userId _messageId : string)
  : ModerationResult * PatternState :=
  let lowerMessage := JS.toLowerCase message in
  (* Check for severe profanity - auto-delete *)
  if includes_any lowerMessage PROFANITY_severe then
    (mkResult true true (Some Profanity) (Some High), st)
  else
  (* Check for harassment patterns - auto-delete *)
  let (harassed, hli) := test_loop HARASSMENT_PATTERNS 0 (harassmentLastIndex st) message in
  let st1 := mkPatternState hli (spamLastIndex st) in
  if harassed then
    (mkResult true true (Some Harassment) (Some High), st1)
  else
  (* Check for moderate profanity - flag only *)
  if includes_any lowerMessage PROFANITY_moderate then
    (mkResult true false (Some Profanity) (Some Medium), st1)
  else
  (* Check for mild profanity - flag only *)
  if includes_any lowerMessage PROFANITY_mild then
    (mkResult true false (Some Profanity) (Some Low), st1)
  else
  (* Check for spam patterns *)
  let (spam, sli) := test_loop SPAM_PATTERNS 0 (spamLastIndex st1) message in
  let st2 := mkPatternState (harassmentLastIndex st1) sli in
  if spam then
    (mkResult true false (Some Spam) (Some Medium), st2)
  else
  (* Check message length *)
  if 800 <? String.length message then
    (mkResult true false (Some Inappropriate) (Some Low), st2)
  else
    (mkResult false false None None, st2).

(** *** The flag store *)

(** [flagMessage(messageData, flagReason, severity, flaggedBy, autoFlagged)]
    at time [now]; [messageData] is given by its properties, of which
    [userId] may be missing.  The record always has the property
    [flaggedBy]: when the caller gave no flagger its value is [undefined],
    [update] throws and the [catch] returns [false]. *)
Definition flagMessage (db : Database) (now : Z)
    (id text user : string) (userId : option string) (timestamp : Z)
    (reason : FlagReason) (sev : Severity)
    (flaggedBy : option string) (autoFlagged : bool) : bool * Database :=
  let flaggedMessage :=
    FlaggedNode.mk (Some id) (Some text) (Some user) userId (Some timestamp)
      (Some reason) (Some now) flaggedBy (Some autoFlagged) (Some sev)
      (Some false) None None None in
  let write old :=
    FlaggedNode.merge (match old with Some o => o | None => FlaggedNode.empty end)
      flaggedMessage in
  match flaggedBy with
  | None => (false, db)
  | Some _ =>
      (true, set_flaggedMessages (Store.write (flaggedMessages db) id write) db)
  end.

Definition deleteMessage (db : Database) (messageId : string) : bool * Database :=
  (true, set_messages (Store.remove (messages db) messageId) db).

Definition reviewFlaggedMessage (db : Database) (now : Z)
    (messageId reviewerId : string) (action : ReviewAction) : bool * Database :=
  let review :=
    FlaggedNode.mk None None None None None None None None None None
      (Some true) (Some reviewerId) (Some now) (Some action) in
  let write old :=
    FlaggedNode.merge (match old with Some o => o | None => FlaggedNode.empty end)
      review in
  let db1 := set_flaggedMessages (Store.write (flaggedMessages db) messageId write) db in
  (* If action is delete, remove the original message *)
  let db2 := if ReviewAction_eqb action Deleted
             then snd (deleteMessage db1 messageId)
             else db1 in
  (true, db2).

(** *** Aggregation over a list of flagged messages *)

Definition getFlaggedMessagesBySeverity (flaggedMessages : list FlaggedMessage.t)
    (sev : Severity) : list FlaggedMessage.t :=
  filter (fun msg => Severity_eqb (FlaggedMessage.severity msg) sev
                     && negb (FlaggedMessage.reviewed msg))%bool flaggedMessages.

Definition getFlaggedMessagesByReason (flaggedMessages : list FlaggedMessage.t)
    (reason : FlagReason) : list FlaggedMessage.t :=
  filter (fun msg => FlagReason_eqb (FlaggedMessage.flagReason msg) reason
                     && negb (FlaggedMessage.reviewed msg))%bool flaggedMessages.

Record SeverityCounts : Type := mkSeverityCounts {
  low : nat; medium : nat; high : nat
}.

Record ReasonCounts : Type := mkReasonCounts {
  profanity : nat; spam : nat; harassment : nat; inappropriate : nat; manual : nat
}.

Record FlaggedMessagesStats : Type := mkStats {
  total : nat;
  unreviewed : nat;
  bySeverity : SeverityCounts;
  byReason : ReasonCounts;
  autoFlagged : nat;
  manualFlagged : nat
}.

Definition getFlaggedMessagesStats (flaggedMessages : list FlaggedMessage.t)
  : FlaggedMessagesStats :=
  let unreviewed := filter (fun msg => negb (FlaggedMessage.reviewed msg)) flaggedMessages in
  let by_severity s :=
    List.length (filter (fun msg => Severity_eqb (FlaggedMessage.severity msg) s) unreviewed) in
  let by_reason r :=
    List.length (filter (fun msg => FlagReason_eqb (FlaggedMessage.flagReason msg) r) unreviewed) in
  mkStats
    (List.length flaggedMessages)
    (List.length unreviewed)
    (mkSeverityCounts (by_severity Low) (by_severity Medium) (by_severity High))
    (mkReasonCounts (by_reason Profanity) (by_reason Spam) (by_reason Harassment)
                    (by_reason Inappropriate) (by_reason Manual))
    (List.length (filter (fun msg => FlaggedMessage.autoFlagged msg) unreviewed))
    (List.length (filter (fun msg => negb (FlaggedMessage.autoFlagged msg)) unreviewed)).

End MessageModerator.

(** ** UserManager (src/utils/userManager.ts) *)

Module UserManager.

Import Model.

(** [logActivity(userId, action, details)] at time [now].  The entry
    always has the property [details]: without the argument [push] throws,
    and the [catch] leaves the log as it is. *)
Definition logActivity (db : Database) (now : Z) (userId : string)
    (action : ActivityAction) (details : option ActivityDetails) : Database :=
  match details with
  | None => db
  | Some _ =>
      set_userActivity (userActivity db ++ [UserActivity.mk userId action now details]) db
  end.

(** The record that an [update] with a whole [BanRecord] leaves at a child
    of [bans]: properties that the record does not carry keep their old
    value. *)
Definition put_ban (old : option BanRecord.t) (b : BanRecord.t) : BanRecord.t :=
  match old with
  | None => b
  | Some o =>
      BanRecord.mk (BanRecord.id b) (BanRecord.userId b) (BanRecord.bannedBy b)
        (BanRecord.reason b) (BanRecord.type b) (BanRecord.startDate b)
        (FlaggedNode.over (BanRecord.endDate b) (BanRecord.endDate o))
        (BanRecord.isActive b)
        (BanRecord.revokedBy o) (BanRecord.revokedAt o) (BanRecord.revokeReason o)
  end.

(** [banUser(userId, bannedBy, reason, type, duration)] at time [now];
    [banId] is the key that [push(this.bansRef)] generated.  [duration]
    is a number of hours, absent when the caller gave none.  The record
    always has the property [endDate]: for a permanent ban, and for a
    temporary one without a duration or with the duration 0, its value is
    [undefined], the first [update] throws and the [catch] returns
    [false]. *)
Definition banUser (db : Database) (banId : string) (now : Z)
    (userId bannedBy reason : string) (type : BanType) (duration : option Z)
  : bool * Database :=
  let startDate := now in
  let endDate :=
    match type, duration with
    | Temporary, Some d =>
        if Z.eqb d 0 then None else Some (startDate + d * 60 * 60 * 1000)%Z
    | _, _ => None
    end in
  let banRecord :=
    BanRecord.mk banId userId bannedBy reason type startDate endDate true
      None None None in
  match endDate with
  | None => (false, db) (* update refuses the record *)
  | Some _ =>
      (* Create ban record *)
      let db1 :=
        set_bans (Store.write (bans db) banId (fun old => put_ban old banRecord)) db in
      (* Update user status *)
      let write_user old :=
        let u := match old with Some u => u | None => UserProfile.empty end in
        UserProfile.with_banHistory
          (Store.write (UserProfile.banHistory u) banId (fun _ => banRecord))
          (UserProfile.with_status Banned u) in
      let db2 := set_users (Store.write (users db1) userId write_user) db1 in
      let db3 := logActivity db2 now bannedBy UserReported
                   (Some (UserBannedDetails userId reason type duration)) in
      (true, db3)
  end.

Definition revoke (b : BanRecord.t) (revokedBy : string) (now : Z)
    (revokeReason : string) : BanRecord.t :=
  BanRecord.mk (BanRecord.id b) (BanRecord.userId b) (BanRecord.bannedBy b)
    (BanRecord.reason b) (BanRecord.type b) (BanRecord.startDate b)
    (BanRecord.endDate b) false (Some revokedBy) (Some now) (Some revokeReason).

Definition is_active_ban_of (userId : string) (ban : BanRecord.t) : bool :=
  (String.eqb (BanRecord.userId ban) userId && BanRecord.isActive ban)%bool.

(** [unbanUser(userId, revokedBy, revokeReason)] at time [now]. *)
Definition unbanUser (db : Database) (now : Z)
    (userId revokedBy revokeReason : string) : bool * Database :=
  (* Find active ban *)
  let activeBan :=
    find (fun entry => is_active_ban_of userId (snd entry)) (Store.entries (bans db)) in
  match activeBan with
  | None => (false, db) (* No active ban found *)
  | Some (banId, banData) =>
      (* Revoke ban *)
      let write_ban old :=
        revoke (match old with Some o => o | None => banData end)
               revokedBy now revokeReason in
      let db1 := set_bans (Store.write (bans db) banId write_ban) db in
      (* Update user status *)
      let write_user old :=
        UserProfile.with_status Active
          (match old with Some u => u | None => UserProfile.empty end) in
      let db2 := set_users (Store.write (users db1) userId write_user) db1 in
      let db3 := logActivity db2 now revokedBy UserReported
                   (Some (UserUnbannedDetails userId revokeReason)) in
      (true, db3)
  end.

End UserManager.

(** ** AnalyticsManager (the analytics and reporting utility) *)

Module AnalyticsManager.

Import Model Number.
Open Scope float_scope.

(** What the host's [Date] contributes: the local hour of a time stamp,
    and the key of its week bucket (the ISO date of the time stamp moved
    back to the Sunday of its local week). *)
Record Calendar : Type := mkCalendar {
  getHours : Z -> nat;
  weekKey : Z -> string
}.

Record Sentiment : Type := mkSentiment {
  score : Z;
  comparative : float;
  positive : list string;
  negative : list string
}.

Record SentimentPoint : Type := mkSentimentPoint {
  date : string;
  avgSentiment : float
}.

Record KeywordCount : Type := mkKeywordCount {
  word : string;
  count : JSObject.Count
}.

(** [interface UserBehaviorMetrics]. *)
Record UserBehaviorMetrics : Type := mkMetrics {
  userId : string;
  email : option string;
  displayName : option string;
  totalMessages : nat;
  averageMessageLength : float;
  averageWordsPerMessage : float;
  messagesPerHour : float;
  peakActivityHours : list nat;
  sentimentTrend : list SentimentPoint;
  flaggedMessageRatio : float;
  responseTimeAvg : float;
  topKeywords : list KeywordCount;
  riskScore : float;
  lastActivity : Z
}.

(** [Partial<UserBehaviorMetrics>]. *)
Module Partial.
Record t : Type := mk {
  userId : option string;
  email : option string;
  displayName : option string;
  totalMessages : option nat;
  averageMessageLength : option float;
  averageWordsPerMessage : option float;
  messagesPerHour : option float;
  peakActivityHours : option (list nat);
  sentimentTrend : option (list SentimentPoint);
  flaggedMessageRatio : option float;
  responseTimeAvg : option float;
  topKeywords : option (list KeywordCount);
  riskScore : option float;
  lastActivity : option Z
}.

Definition empty : t :=
  mk None None None None None None None None None None None None None None.
End Partial.

(** A whole record seen as a partial one. *)
Definition as_partial (m : UserBehaviorMetrics) : Partial.t :=
  Partial.mk (Some (userId m)) (email m) (displayName m) (Some (totalMessages m))
    (Some (averageMessageLength m)) (Some (averageWordsPerMessage m))
    (Some (messagesPerHour m)) (Some (peakActivityHours m))
    (Some (sentimentTrend m)) (Some (flaggedMessageRatio m))
    (Some (responseTimeAvg m)) (Some (topKeywords m)) (Some (riskScore m))
    (Some (lastActivity m)).

Definition with_riskScore (r : float) (m : UserBehaviorMetrics) : UserBehaviorMetrics :=
  mkMetrics (userId m) (email m) (displayName m) (totalMessages m)
    (averageMessageLength m) (averageWordsPerMessage m) (messagesPerHour m)
    (peakActivityHours m) (sentimentTrend m) (flaggedMessageRatio m)
    (responseTimeAvg m) (topKeywords m) r (lastActivity m).

Definition positiveWords : list string :=
  ["good"; "great"; "awesome"; "excellent"; "love"; "like"; "happy"; "amazing";
   "wonderful"; "fantastic"]%string.
Definition negativeWords : list string :=
  ["bad"; "terrible"; "awful"; "hate"; "dislike"; "sad"; "angry"; "horrible";
   "disgusting"; "annoying"]%string.

(** [analyzeSentiment(text)]: the score only ever moves by one, so it is
    kept as an integer. *)
Definition analyzeSentiment (text : string) : Sentiment :=
  let words := JSArray.split_ws (JS.toLowerCase text) in
  let step (acc : Z * list string * list string) (word : string) :=
    let '(score, positive, negative) := acc in
    let '(score, positive) :=
      if JSArray.includes positiveWords word
      then ((score + 1)%Z, positive ++ [word]) else (score, positive) in
    if JSArray.includes negativeWords word
    then ((score - 1)%Z, positive, negative ++ [word])
    else (score, positive, negative) in
  let '(score, positive, negative) := fold_left step words (0%Z, [], []) in
  mkSentiment score
    (if (0 <? List.length words)%nat
     then of_Z score / of_nat (List.length words) else 0)
    positive negative.

Definition stopWords : list string :=
  ["the"; "is"; "at"; "which"; "on"; "and"; "a"; "to"; "are"; "as"; "was"; "were";
   "been"; "be"; "have"; "has"; "had"; "do"; "does"; "did"; "will"; "would";
   "could"; "should"; "may"; "might"; "must"; "can"; "shall"; "of"; "in"; "for";
   "with"; "by"; "from"; "up"; "about"; "into"; "through"; "during"; "before";
   "after"; "above"; "below"; "between"; "among"; "under"; "over"; "out"; "off";
   "down"; "than"; "but"; "or"; "nor"; "so"; "yet"; "if"; "then"; "else"; "when";
   "where"; "why"; "how"; "what"; "who"; "whom"; "whose"; "which"; "that"; "this";
   "these"; "those"; "i"; "you"; "he"; "she"; "it"; "we"; "they"; "me"; "him";
   "her"; "us"; "them"; "my"; "your"; "his"; "its"; "our"; "their"]%string.

(** [s.replace(/[^\w\s]/g, '')] *)
Fixpoint strip_punctuation (s : string) : string :=
  match s with
  | EmptyString => EmptyString
  | String a s' =>
      if (JS.isWordChar a || JS.isWhiteSpace a)%bool
      then String a (strip_punctuation s')
      else strip_punctuation s'
  end.

Definition extractKeywords (text : string) : list string :=
  filter (fun word => (2 <? String.length word)%nat
                      && negb (JSArray.includes stopWords word))%bool
    (JSArray.split_ws (strip_punctuation (JS.toLowerCase text))).

(** The mean of the [avgSentiment] values, as the reducer computes it. *)
Definition trend_average (trend : list SentimentPoint) : float :=
  fold_left (fun sum item => sum + avgSentiment item) trend 0
  / of_nat (List.length trend).

(** [calculateRiskScore(userBehavior)] *)
Definition calculateRiskScore (userBehavior : Partial.t) : float :=
  let riskScore := 0 in
  (* High message frequency (potential spam) *)
  let riskScore :=
    if guarded (Partial.messagesPerHour userBehavior) (fun x => 10 <? x)
    then riskScore + 20 else riskScore in
  (* High flagged message ratio *)
  let riskScore :=
    if guarded (Partial.flaggedMessageRatio userBehavior) (fun x => one_tenth <? x)
    then riskScore + 30 else riskScore in
  (* Negative sentiment trend *)
  let avgSentiment :=
    match Partial.sentimentTrend userBehavior with
    | Some trend =>
        if (0 <? List.length trend)%nat then trend_average trend else 0
    | None => 0
    end in
  let riskScore := if avgSentiment <? -0.5 then riskScore + 25 else riskScore in
  (* Very short response times (potential bot behavior) *)
  let riskScore :=
    if guarded (Partial.responseTimeAvg userBehavior) (fun x => x <? 5000)
    then riskScore + 15 else riskScore in
  (* Short message length (potential spam) *)
  let riskScore :=
    if guarded (Partial.averageMessageLength userBehavior) (fun x => x <? 10)
    then riskScore + 10 else riskScore in
  Math_min riskScore 100.

(** *** analyzeUserBehavior *)

Definition day_ms : Z := (24 * 60 * 60 * 1000)%Z.

(** [msg.timestamp > Date.now() - (days * 24 * 60 * 60 * 1000)] *)
Definition in_window (now days ts : Z) : bool := (now - days * day_ms <? ts)%Z.

(** The user's messages of the window, oldest first. *)
Definition userMessagesOf (db : Database) (now : Z) (uid : string) (days : Z)
  : list Message.t :=
  JSArray.sort (fun a b => (Message.timestamp a <=? Message.timestamp b)%Z)
    (filter (fun msg => String.eqb (Message.userId msg) uid
                        && in_window now days (Message.timestamp msg))%bool
            (Store.values (messages db))).

(** [hourCounts[hour] = (hourCounts[hour] || 0) + 1]: the keys are array
    indices, so the object lists them in ascending order. *)
Fixpoint bump (hour : nat) (counts : list (nat * nat)) : list (nat * nat) :=
  match counts with
  | [] => [(hour, 1%nat)]
  | (k, c) :: rest =>
      if (k =? hour)%nat then (k, S c) :: rest
      else if (hour <? k)%nat then (hour, 1%nat) :: (k, c) :: rest
      else (k, c) :: bump hour rest
  end.

Definition by_count_desc {K} (a b : K * nat) : bool := (snd b <=? snd a)%nat.

Definition mean (values : list float) : float :=
  fold_left (fun sum s => sum + s) values 0 / of_nat (List.length values).

Fixpoint responseTimes (msgs : list Message.t) : list Z :=
  match msgs with
  | prev :: (cur :: _) as rest =>
      let timeDiff := (Message.timestamp cur - Message.timestamp prev)%Z in
      if (timeDiff <? 5 * 60 * 1000)%Z (* Less than 5 minutes = likely response *)
      then timeDiff :: responseTimes rest
      else responseTimes rest
  | _ => []
  end.

Definition sum_Z (l : list Z) : Z := fold_left Z.add l 0%Z.

Definition analyzeUserBehavior (cal : Calendar) (db : Database) (now : Z)
    (uid : string) (days : Z) : option UserBehaviorMetrics :=
  match Store.read (users db) uid with
  | None => None
  | Some user =>
      let userMessages := userMessagesOf db now uid days in
      let lastActivity :=
        match UserProfile.lastActive user with Some t => t | None => 0%Z end in
      match userMessages with
      | [] =>
          Some (mkMetrics uid (UserProfile.email user) (UserProfile.displayName user)
                  0 0 0 0 [] [] 0 0 [] 0 lastActivity)
      | first :: _ =>
          (* Calculate metrics *)
          let totalMessages := List.length userMessages in
          let totalLength :=
            fold_left (fun sum msg => (sum + String.length (Message.text msg))%nat)
                      userMessages 0%nat in
          let totalWords :=
            fold_left (fun sum msg =>
                         (sum + List.length (JSArray.split_ws (Message.text msg)))%nat)
                      userMessages 0%nat in
          let averageMessageLength := of_nat totalLength / of_nat totalMessages in
          let averageWordsPerMessage := of_nat totalWords / of_nat totalMessages in
          (* Messages per hour *)
          let timeSpan :=
            (Message.timestamp (last userMessages first) - Message.timestamp first)%Z in
          let messagesPerHour :=
            if (0 <? timeSpan)%Z
            then of_nat totalMessages / (of_Z timeSpan / of_Z (1000 * 60 * 60))
            else 0 in
          (* Peak activity hours *)
          let hourCounts :=
            fold_left (fun acc msg => bump (getHours cal (Message.timestamp msg)) acc)
                      userMessages [] in
          let peakActivityHours :=
            map fst (JSArray.slice_to 3 (JSArray.sort by_count_desc hourCounts)) in
          (* Sentiment trend (weekly buckets) *)
          let weekBuckets :=
            fold_left (fun (acc : JSObject.t (list float)) msg =>
                         let sentiment := analyzeSentiment (Message.text msg) in
                         let key := weekKey cal (Message.timestamp msg) in
                         let bucket :=
                           match JSObject.get acc key with Some b => b | None => [] end in
                         JSObject.set acc key (bucket ++ [comparative sentiment]))
                      userMessages [] in
          let sentimentTrend :=
            map (fun entry => mkSentimentPoint (fst entry) (mean (snd entry)))
                (JSObject.entries weekBuckets) in
          (* Flagged message ratio *)
          let userFlaggedMessages :=
            filter (fun flag => is_value String.eqb (FlaggedNode.userId flag) uid)
                   (Store.values (flaggedMessages db)) in
          let flaggedMessageRatio :=
            of_nat (List.length userFlaggedMessages) / of_nat totalMessages in
          (* Response time analysis *)
          let times := responseTimes userMessages in
          let responseTimeAvg :=
            if (0 <? List.length times)%nat
            then of_Z (sum_Z times) / of_nat (List.length times)
            else 0 in
          (* Top keywords *)
          let allKeywords :=
            flat_map (fun msg => extractKeywords (Message.text msg)) userMessages in
          let keywordCounts := fold_left JSObject.count_up allKeywords [] in
          let topKeywords :=
            map (fun entry => mkKeywordCount (fst entry) (snd entry))
                (JSArray.slice_to 10
                   (JSArray.sort JSObject.by_tally_desc
                      (JSObject.entries keywordCounts))) in
          let userBehavior :=
            mkMetrics uid (UserProfile.email user) (UserProfile.displayName user)
              totalMessages averageMessageLength averageWordsPerMessage
              messagesPerHour peakActivityHours sentimentTrend flaggedMessageRatio
              responseTimeAvg topKeywords
              0 (* Will be calculated next *)
              lastActivity in
          Some (with_riskScore (calculateRiskScore (as_partial userBehavior))
                               userBehavior)
      end
  end.

(** *** analyzeModerationEffectiveness *)

Module ModeratorPerformance.
Record t : Type := mk {
  moderatorId : string;
  email : string;
  reviewCount : nat;
  avgReviewTime : float;
  accuracyRate : float
}.
End ModeratorPerformance.

Module RuleEffectiveness.
Record t : Type := mk {
  ruleId : string;
  ruleName : string;
  triggeredCount : nat;
  correctFlags : nat;
  falsePositives : nat;
  effectiveness : float
}.
End RuleEffectiveness.

(** [interface ModerationEffectiveness]. *)
Record ModerationEffectiveness : Type := mkEffectiveness {
  totalReviews : nat;
  avgReviewTime : float; (* minutes *)
  accuracyRate : float;
  falsePositiveRate : float;
  missedViolations : nat;
  moderatorPerformance : list ModeratorPerformance.t;
  ruleEffectiveness : list RuleEffectiveness.t
}.

(** The flags of the window that have been reviewed. *)
Definition recentFlaggedOf (db : Database) (now days : Z) : list FlaggedNode.t :=
  filter (fun flag =>
            (match FlaggedNode.flaggedAt flag with
             | Some t => (now - days * day_ms <? t)%Z
             | None => false
             end)
            && truthy_bool (FlaggedNode.reviewed flag))%bool
         (Store.values (flaggedMessages db)).

Definition has_action (a : ReviewAction) (flag : FlaggedNode.t) : bool :=
  is_value ReviewAction_eqb (FlaggedNode.action flag) a.

(** [flag.reviewedAt - flag.flaggedAt] when both are set and non-zero. *)
Definition reviewTimeOf (flag : FlaggedNode.t) : option Z :=
  if (truthy_Z (FlaggedNode.reviewedAt flag) && truthy_Z (FlaggedNode.flaggedAt flag))%bool
  then match FlaggedNode.reviewedAt flag, FlaggedNode.flaggedAt flag with
       | Some r, Some f => Some (r - f)%Z
       | _, _ => None
       end
  else None.

Fixpoint reviewTimesOf (flags : list FlaggedNode.t) : list Z :=
  match flags with
  | [] => []
  | flag :: rest =>
      match reviewTimeOf flag with
      | Some t => t :: reviewTimesOf rest
      | None => reviewTimesOf rest
      end
  end.

(** [reviewTimes.reduce(...) / reviewTimes.length / (1000 * 60)], or 0. *)
Definition minutes_average (reviewTimes : list Z) : float :=
  if (0 <? List.length reviewTimes)%nat
  then of_Z (sum_Z reviewTimes) / of_nat (List.length reviewTimes) / of_Z (1000 * 60)
  else 0.

(** [n > 0 ? (k / n) * 100 : 0] *)
Definition percentage (k n : nat) : float :=
  if (0 <? n)%nat then (of_nat k / of_nat n) * 100 else 0.

Record ModeratorStats : Type := mkModeratorStats {
  stat_reviewCount : nat;
  stat_reviewTimes : list Z;
  stat_correctDecisions : nat
}.

Definition moderatorStatsOf (recentFlagged : list FlaggedNode.t)
  : JSObject.t ModeratorStats :=
  fold_left
    (fun (acc : JSObject.t ModeratorStats) flag =>
       match FlaggedNode.reviewedBy flag with
       | Some reviewedBy =>
           if String.eqb reviewedBy EmptyString then acc
           else
             let old := match JSObject.get acc reviewedBy with
                        | Some st => st
                        | None => mkModeratorStats 0 [] 0
                        end in
             JSObject.set acc reviewedBy
               (mkModeratorStats
                  (S (stat_reviewCount old))
                  (match reviewTimeOf flag with
                   | Some t => stat_reviewTimes old ++ [t]
                   | None => stat_reviewTimes old
                   end)
                  (if has_action Deleted flag
                   then S (stat_correctDecisions old)
                   else stat_correctDecisions old))
       | None => acc
       end)
    recentFlagged [].

Definition reason_name (r : FlagReason) : string :=
  match r with
  | Profanity => "profanity"
  | Spam => "spam"
  | Harassment => "harassment"
  | Inappropriate => "inappropriate"
  | Manual => "manual"
  end.

Record RuleStats : Type := mkRuleStats {
  stat_triggeredCount : nat;
  stat_correctFlags : nat;
  stat_falsePositives : nat
}.

Definition ruleStatsOf (recentFlagged : list FlaggedNode.t) : JSObject.t RuleStats :=
  fold_left
    (fun (acc : JSObject.t RuleStats) flag =>
       let ruleId := match FlaggedNode.flagReason flag with
                     | Some r => reason_name r
                     | None => "unknown"%string
                     end in
       let old := match JSObject.get acc ruleId with
                  | Some st => st
                  | None => mkRuleStats 0 0 0
                  end in
       JSObject.set acc ruleId
         (mkRuleStats
            (S (stat_triggeredCount old))
            (if has_action Deleted flag
             then S (stat_correctFlags old) else stat_correctFlags old)
            (if has_action Deleted flag then stat_falsePositives old
             else if has_action Approved flag
                  then S (stat_falsePositives old) else stat_falsePositives old)))
    recentFlagged [].

(** [ruleId.charAt(0).toUpperCase() + ruleId.slice(1)]; rule ids are
    ASCII, where the upper case is the canonical form of the matcher. *)
Definition capitalize (s : string) : string :=
  match s with
  | EmptyString => EmptyString
  | String a rest => String (JS.canonicalize true a) rest
  end.

Definition analyzeModerationEffectiveness (db : Database) (now days : Z)
  : ModerationEffectiveness :=
  let recentFlagged := recentFlaggedOf db now days in
  let totalReviews := List.length recentFlagged in
  (* Calculate average review time *)
  let avgReviewTime := minutes_average (reviewTimesOf recentFlagged) in
  (* Accuracy analysis (simplified - assumes deleted = correct flag,
     approved = incorrect flag) *)
  let correctFlags := List.length (filter (has_action Deleted) recentFlagged) in
  let incorrectFlags := List.length (filter (has_action Approved) recentFlagged) in
  let accuracyRate := percentage correctFlags totalReviews in
  let falsePositiveRate := percentage incorrectFlags totalReviews in
  (* Moderator performance *)
  let moderatorPerformance :=
    map (fun entry =>
           let stats := snd entry in
           ModeratorPerformance.mk (fst entry) "moderator@example.com"
             (stat_reviewCount stats)
             (minutes_average (stat_reviewTimes stats))
             (percentage (stat_correctDecisions stats) (stat_reviewCount stats)))
        (JSObject.entries (moderatorStatsOf recentFlagged)) in
  (* Rule effectiveness (simplified analysis) *)
  let ruleEffectiveness :=
    map (fun entry =>
           let stats := snd entry in
           RuleEffectiveness.mk (fst entry) (capitalize (fst entry))
             (stat_triggeredCount stats) (stat_correctFlags stats)
             (stat_falsePositives stats)
             (percentage (stat_correctFlags stats) (stat_triggeredCount stats)))
        (JSObject.entries (ruleStatsOf recentFlagged)) in
  mkEffectiveness totalReviews avgReviewTime accuracyRate falsePositiveRate
    0 (* Would require manual analysis *)
    moderatorPerformance ruleEffectiveness.

End AnalyticsManager.

(** ** The claims' vocabulary

    Definitions that follow the words of the specification, to be compared
    with the code. *)

Module Spec.

Import Model.

(** [word] occurs in [message] as a substring, letter case aside. *)
Definition contains_word (message word : string) : Prop :=
  exists pre post,
    JS.toLowerCase message = (pre ++ JS.toLowerCase word ++ post)%string.

(** The length of the run of [a] that starts [s]. *)
Fixpoint run_from (a : ascii) (s : string) : nat :=
  match s with
  | String b s' => if Ascii.eqb a b then S (run_from a s') else 0
  | EmptyString => 0
  end.

(** The longest run of one character in [s]. *)
Fixpoint longest_run (s : string) : nat :=
  match s with
  | EmptyString => 0
  | String a s' => Nat.max (S (run_from a s')) (longest_run s')
  end.

Definition is_capital (a : ascii) : bool := JS.in_range 65 90 a.

(** A long all-caps exclamatory line: fifteen or more characters, each a
    capital letter, white space or an exclamation mark. *)
Definition all_caps_line (s : string) : bool :=
  ((15 <=? String.length s)
   && forallb (fun a => is_capital a || JS.isWhiteSpace a || Ascii.eqb a "!")
              (list_ascii_of_string s))%bool.

Fixpoint has_duplicate (l : list string) : bool :=
  match l with
  | [] => false
  | w :: l' => (existsb (String.eqb w) l' || has_duplicate l')%bool
  end.

(** A phrase occurs twice: at the least, some word does. *)
Definition repeats_a_word (s : string) : bool :=
  has_duplicate (filter (fun w => negb (String.eqb w EmptyString)) (JSArray.split_ws s)).

Definition embeds_url (s : string) : bool :=
  (JS.includes s "http://" || JS.includes s "https://")%bool.

Definition has_digit (s : string) : bool :=
  existsb JS.isDigit (list_ascii_of_string s).

End Spec.

(** The ban invariant, and the store states that the ban operations
    reach. *)

Module BanSpec.

Import Model UserManager.

(** The records under [bans] that are active bans of [userId]. *)
Definition active_bans (db : Database) (userId : string) : list BanRecord.t :=
  filter (is_active_ban_of userId) (Store.values (bans db)).

Definition at_most_one_active (db : Database) : Prop :=
  forall userId, List.length (active_bans db userId) <= 1.

(** One call of a ban operation.  The key that [push] generates for a new
    ban is not in use. *)
Inductive ban_step : Database -> Database -> Prop :=
| step_banUser db banId now userId bannedBy reason type duration :
    Store.read (bans db) banId = None ->
    ban_step db (snd (banUser db banId now userId bannedBy reason type duration))
| step_unbanUser db now userId revokedBy revokeReason :
    ban_step db (snd (unbanUser db now userId revokedBy revokeReason)).

Inductive reachable : Database -> Prop :=
| reach_empty : reachable emptyDatabase
| reach_step db db' : reachable db -> ban_step db db' -> reachable db'.

(** The same, when [banUser] is only called for a user without an active
    ban. *)
Inductive guarded_step : Database -> Database -> Prop :=
| guarded_banUser db banId now userId bannedBy reason type duration :
    Store.read (bans db) banId = None ->
    active_bans db userId = [] ->
    guarded_step db (snd (banUser db banId now userId bannedBy reason type duration))
| guarded_unbanUser db now userId revokedBy revokeReason :
    guarded_step db (snd (unbanUser db now userId revokedBy revokeReason)).

Inductive guarded_reachable : Database -> Prop :=
| greach_empty : guarded_reachable emptyDatabase
| greach_step db db' :
    guarded_reachable db -> guarded_step db db' -> guarded_reachable db'.

(** Two bans of one user in a row, for a day and for a week. *)
Definition banned_once : Database :=
  snd (banUser emptyDatabase "-ban1" 1000 "alice" "admin" "spam" Temporary (Some 24%Z)).
Definition banned_twice : Database :=
  snd (banUser banned_once "-ban2" 2000 "alice" "admin" "spam" Temporary (Some 168%Z)).

End BanSpec.

(** The risk score and the moderation rates, as the specification words
    them. *)

Module RiskSpec.

Import Model Number AnalyticsManager.
Open Scope float_scope.

(** A condition on a property that may be absent. *)
Definition present_and (x : option float) (c : float -> bool) : bool :=
  match x with
  | Some v => c v
  | None => false
  end.

Definition nonzero (x : float) : bool := negb (x =? 0).

(** The average weekly sentiment comparative is below -0.5. *)
Definition negative_sentiment (m : Partial.t) : bool :=
  match Partial.sentimentTrend m with
  | Some (p :: trend) => trend_average (p :: trend) <? -0.5
  | _ => false
  end.

Record Signals : Type := mkSignals {
  frequent : bool;      (* messagesPerHour > 10 *)
  flagged : bool;       (* flaggedMessageRatio > 0.1 *)
  negative : bool;      (* average sentiment < -0.5 *)
  fast : bool;          (* response time < 5000 ms *)
  terse : bool          (* message length < 10 *)
}.

(** The triggered signals in the words of the specification. *)
Definition claimed_signals (m : Partial.t) : Signals :=
  mkSignals
    (present_and (Partial.messagesPerHour m) (fun x => 10 <? x))
    (present_and (Partial.flaggedMessageRatio m) (fun x => one_tenth <? x))
    (negative_sentiment m)
    (present_and (Partial.responseTimeAvg m) (fun x => x <? 5000))
    (present_and (Partial.averageMessageLength m) (fun x => x <? 10)).

(** The triggered signals of the code: a response time or a message
    length of zero does not count. *)
Definition code_signals (m : Partial.t) : Signals :=
  mkSignals
    (present_and (Partial.messagesPerHour m) (fun x => 10 <? x))
    (present_and (Partial.flaggedMessageRatio m) (fun x => one_tenth <? x))
    (negative_sentiment m)
    (present_and (Partial.responseTimeAvg m) (fun x => nonzero x && (x <? 5000))%bool)
    (present_and (Partial.averageMessageLength m) (fun x => nonzero x && (x <? 10))%bool).

Definition weight (b : bool) (w : Z) : Z := if b then w else 0%Z.

(** The sum of the weights of the triggered signals, capped at 100. *)
Definition weighted_score (s : Signals) : Z :=
  Z.min (weight (frequent s) 20 + weight (flagged s) 30 + weight (negative s) 25
         + weight (fast s) 15 + weight (terse s) 10) 100.

Definition claimed_score (m : Partial.t) : Z := weighted_score (claimed_signals m).

(** Every signal triggered in [s] is triggered in [s']. *)
Definition signals_le (s s' : Signals) : Prop :=
  (frequent s = true -> frequent s' = true) /\
  (flagged s = true -> flagged s' = true) /\
  (negative s = true -> negative s' = true) /\
  (fast s = true -> fast s' = true) /\
  (terse s = true -> terse s' = true).

Definition with_messagesPerHour (v : option float) (m : Partial.t) : Partial.t :=
  Partial.mk (Partial.userId m) (Partial.email m) (Partial.displayName m)
    (Partial.totalMessages m) (Partial.averageMessageLength m)
    (Partial.averageWordsPerMessage m) v (Partial.peakActivityHours m)
    (Partial.sentimentTrend m) (Partial.flaggedMessageRatio m)
    (Partial.responseTimeAvg m) (Partial.topKeywords m) (Partial.riskScore m)
    (Partial.lastActivity m).

Definition with_flaggedMessageRatio (v : option float) (m : Partial.t) : Partial.t :=
  Partial.mk (Partial.userId m) (Partial.email m) (Partial.displayName m)
    (Partial.totalMessages m) (Partial.averageMessageLength m)
    (Partial.averageWordsPerMessage m) (Partial.messagesPerHour m)
    (Partial.peakActivityHours m) (Partial.sentimentTrend m) v
    (Partial.responseTimeAvg m) (Partial.topKeywords m) (Partial.riskScore m)
    (Partial.lastActivity m).

Definition with_responseTimeAvg (v : option float) (m : Partial.t) : Partial.t :=
  Partial.mk (Partial.userId m) (Partial.email m) (Partial.displayName m)
    (Partial.totalMessages m) (Partial.averageMessageLength m)
    (Partial.averageWordsPerMessage m) (Partial.messagesPerHour m)
    (Partial.peakActivityHours m) (Partial.sentimentTrend m)
    (Partial.flaggedMessageRatio m) v (Partial.topKeywords m) (Partial.riskScore m)
    (Partial.lastActivity m).

(** The moderation rates in the words of the specification:
    deleted / (deleted + approved) and approved / (deleted + approved). *)
Definition claimed_accuracy (deleted approved : nat) : float :=
  of_nat deleted / of_nat (deleted + approved).
Definition claimed_false_positive (deleted approved : nat) : float :=
  of_nat approved / of_nat (deleted + approved).

Definition reviewed_flag (action : ReviewAction) : FlaggedNode.t :=
  FlaggedNode.mk (Some "-m"%string) (Some "text"%string) (Some "bob"%string)
    (Some "u-bob"%string) (Some 1000%Z) (Some Spam) (Some 2000%Z) None (Some true)
    (Some Medium) (Some true) (Some "u-admin"%string) (Some 62000%Z) (Some action).

(** Three reviewed flags: one deleted, one approved, one edited. *)
Definition three_reviews : Database :=
  set_flaggedMessages
    [("-m1"%string, reviewed_flag Deleted); ("-m2"%string, reviewed_flag Approved);
     ("-m3"%string, reviewed_flag Edited)]
    emptyDatabase.

(** The metrics record of a profile without messages in the window. *)
Definition zeroed (uid : string) (user : UserProfile.t) : UserBehaviorMetrics :=
  mkMetrics uid (UserProfile.email user) (UserProfile.displayName user)
    0 0 0 0 [] [] 0 0 [] 0
    (match UserProfile.lastActive user with Some t => t | None => 0%Z end).


(** The running total of [calculateRiskScore] over given signals. *)
Definition accumulate (s : Signals) : float :=
  let riskScore := 0 in
  let riskScore := if frequent s then riskScore + 20 else riskScore in
  let riskScore := if flagged s then riskScore + 30 else riskScore in
  let riskScore := if negative s then riskScore + 25 else riskScore in
  let riskScore := if fast s then riskScore + 15 else riskScore in
  let riskScore := if terse s then riskScore + 10 else riskScore in
  Math_min riskScore 100.

(** Records that differ in the response time only. *)
Definition quick_replies : Partial.t :=
  with_responseTimeAvg (Some 4000) Partial.empty.
Definition slow_replies : Partial.t :=
  with_responseTimeAvg (Some 6000) Partial.empty.
Definition no_replies : Partial.t :=
  with_responseTimeAvg (Some 0) Partial.empty.

End RiskSpec.

(** Stores and records that the examples below are run on. *)

Module Examples.

Import Model MessageModerator AnalyticsManager.

(** A store with one message and the flag that an administrator put on
    it. *)
Definition flagged_store : Database :=
  snd (flagMessage
         (set_messages [("-m1"%string, Message.mk "you are dumb" "bob" "u-bob" 5000)]
                       emptyDatabase)
         6000 "-m1" "you are dumb" "bob" (Some "u-bob"%string) 5000
         Manual Medium (Some "u-admin"%string) false).

(** A profile whose only message is forty days old. *)
Definition alice_profile : UserProfile.t :=
  UserProfile.mk (Some "u-alice"%string) (Some "alice@example.com"%string) None
    (Some RoleUser) (Some Active) (Some 500%Z) (Some 1000%Z) (Some 1%Z)
    (Some 0%Z) (Some 0%Z) [] None.

Definition quiet_store : Database :=
  mkDatabase
    [("-m1"%string, Message.mk "hello there" "alice" "u-alice" 1000)]
    []
    [("u-alice"%string, alice_profile)]
    [] [].

Definition utc : Calendar :=
  mkCalendar (fun t => Z.to_nat ((t / 3600000) mod 24)) (fun _ => "1970-01-01"%string).

End Examples.

(** * Further parts of the program

    The embedding continues with
      - src/utils/messageValidation.ts  (validateMessage, checkRateLimit,
        sanitizeMessage),
      - the operations of UserManager on profiles, roles, suspensions and
        warnings, and its statistics,
      - the chat analytics and the reports of the analytics module,
      - ChatAdmin, and the rate limit of the cloud function,
    under the conventions above.  The patterns of messageValidation.ts
    are module-level objects like those of the classifier, so their
    [lastIndex] is threaded in the same way; the table of the rate limit
    is module-level state and is passed and returned. *)

(** ** Further vocabulary *)

Module Words.

(** A letter of either case, white space or an exclamation mark: the
    characters that the class [[A-Z\s!]] matches under the [i] flag. *)
Definition shout_char (a : ascii) : bool :=
  (JS.in_range 65 90 a || JS.in_range 97 122 a || JS.isWhiteSpace a
   || Ascii.eqb a "!")%bool.

Definition shout_line (s : string) : bool :=
  forallb shout_char (list_ascii_of_string s).

(** [n] copies of [s]. *)
Fixpoint copies (n : nat) (s : string) : string :=
  match n with
  | O => EmptyString
  | S n' => (s ++ copies n' s)%string
  end.

(** The class [[A-Z\s!]]. *)
Definition shout_class : list RegExp.ClassAtom :=
  [RegExp.CRange "A" "Z"; RegExp.CSpace; RegExp.CChar "!"].

End Words.

(** The results that [moderateMessage] returns. *)

Module Verdicts.

Import Model MessageModerator.

Definition allow : ModerationResult := mkResult false false None None.
Definition flag (reason : FlagReason) (sev : Severity) : ModerationResult :=
  mkResult true false (Some reason) (Some sev).

(** The three lexicons together. *)
Definition lexicon : list string :=
  PROFANITY_severe ++ PROFANITY_moderate ++ PROFANITY_mild.

(** An 802-character word of letters and digits. *)
Definition long_word : string := Words.copies 401 "a1".

End Verdicts.

(** ** Message validation (src/utils/messageValidation.ts) *)

Module MessageValidation.

Import RegExp.

Record ValidationResult : Type := mkValidation {
  isValid : bool;
  error : option string
}.

Definition valid : ValidationResult := mkValidation true None.
Definition invalid (why : string) : ValidationResult := mkValidation false (Some why).

(** [PROFANITY_WORDS] *)
Definition PROFANITY_WORDS : list string :=
  ["damn"; "hell"; "crap"; "stupid"; "idiot"; "moron"; "dumb"; "hate"]%string.

(** [SPAM_PATTERNS] of this file. *)
Definition SPAM_PATTERNS : list RegExp :=
  [ (* /(.)\1{4,}/i *)
    mkRegExp (RSeq (RGroup 1 RDot) (at_least 4 (RBackref 1))) true false;
    (* /^[A-Z\s!]{10,}$/i *)
    mkRegExp (seq_of [RBegin; at_least 10 (RClass false Words.shout_class); REnd])
             true false;
    (* /(https?:\/\/[^\s]+)/gi *)
    mkRegExp (RGroup 1 (seq_of [lit "http"; RQuant (RChar "s") 0 (Some 1) true;
                                lit "://"; plus (RClass true [CSpace])]))
             true true;
    (* twenty or more pieces, each a word and then any run of characters,
       with the i flag: ( \b \w+ \b . star ){20,} *)
    mkRegExp (at_least 20
                (RGroup 1 (seq_of [RWordBoundary; plus (RClass false [CWord]);
                                   RWordBoundary; RQuant RDot 0 None true])))
             true false ].

(** [String.prototype.trim]: white space and line terminators off both
    ends. *)
Fixpoint trimStart (s : string) : string :=
  match s with
  | EmptyString => EmptyString
  | String a s' => if JS.isWhiteSpace a then trimStart s' else s
  end.

Fixpoint trimEnd (s : string) : string :=
  match s with
  | EmptyString => EmptyString
  | String a s' =>
      match trimEnd s' with
      | EmptyString => if JS.isWhiteSpace a then EmptyString else String a EmptyString
      | t => String a t
      end
  end.

Definition trim (s : string) : string := trimEnd (trimStart s).

Definition is_empty (s : string) : bool :=
  match s with EmptyString => true | _ => false end.

(** [validateMessage(message, _userId)]; [lis] holds the [lastIndex] of
    the patterns of [SPAM_PATTERNS]. *)
Definition validateMessage (lis : list nat) (message _userId : string)
  : ValidationResult * list nat :=
  (* Basic length check *)
  if is_empty (trim message) then
    (invalid "Message cannot be empty", lis)
  else if 500 <? String.length message then
    (invalid "Message is too long (max 500 characters)", lis)
  else
  (* Check for profanity *)
  let lowerMessage := JS.toLowerCase message in
  if existsb (fun word => JS.includes lowerMessage word) PROFANITY_WORDS then
    (invalid "Message contains inappropriate content", lis)
  else
  (* Check for spam patterns *)
  let (spam, lis') := MessageModerator.test_loop SPAM_PATTERNS 0 lis message in
  if spam then (invalid "Message appears to be spam", lis')
  else (valid, lis').

(** [userMessageTimes]: the send times kept for each user. *)
Definition RateState : Type := JSObject.t (list Z).

Definition timeWindow : Z := 60000.
Definition maxMessages : nat := 10.

(** [checkRateLimit(userId)] at time [now]. *)
Definition checkRateLimit (times : RateState) (now : Z) (userId : string)
  : ValidationResult * RateState :=
  let times :=
    match JSObject.get times userId with
    | Some _ => times
    | None => JSObject.set times userId []
    end in
  let messageTimes :=
    match JSObject.get times userId with Some l => l | None => [] end in
  (* Remove old timestamps *)
  let recentTimes := filter (fun time => (now - time <? timeWindow)%Z) messageTimes in
  if maxMessages <=? List.length recentTimes then
    (invalid "You are sending messages too quickly. Please wait a moment.", times)
  else
    (* Add current timestamp *)
    (valid, JSObject.set times userId (recentTimes ++ [now])).

(** A run of calls, each a user and the time of the call: the calls that
    were let through, and the state at the end. *)
Fixpoint run_calls (times : RateState) (calls : list (string * Z))
  : list (string * Z) * RateState :=
  match calls with
  | [] => ([], times)
  | (userId, now) :: rest =>
      let (result, times') := checkRateLimit times now userId in
      let (sent, final) := run_calls times' rest in
      (if isValid result then (userId, now) :: sent else sent, final)
  end.

(** [s.replace(/c/g, by)] for a single character [c]. *)
Fixpoint replace_all (c : ascii) (by_ : string) (s : string) : string :=
  match s with
  | EmptyString => EmptyString
  | String a s' =>
      if Ascii.eqb a c then (by_ ++ replace_all c by_ s')%string
      else String a (replace_all c by_ s')
  end.

Definition quote_char : ascii := ascii_of_nat 34.

(** [sanitizeMessage(message)] *)
Definition sanitizeMessage (message : string) : string :=
  replace_all "/" "&#x2F;"
    (replace_all "'" "&#x27;"
       (replace_all quote_char "&quot;"
          (replace_all ">" "&gt;"
             (replace_all "<" "&lt;" (trim message))))).

(** The characters that [sanitizeMessage] replaces. *)
Definition is_markup (a : ascii) : bool :=
  (Ascii.eqb a "<" || Ascii.eqb a ">" || Ascii.eqb a quote_char
   || Ascii.eqb a "'" || Ascii.eqb a "/")%bool.

(** The calls of user [u] with a time in the window [(t - 60000, t]]. *)
Definition in_window (u : string) (t : Z) (call : string * Z) : bool :=
  (String.eqb (fst call) u && (t - timeWindow <? snd call)%Z && (snd call <=? t)%Z)%bool.


(** No character of [s] is [c]. *)
Definition free_of (c : ascii) (s : string) : bool :=
  forallb (fun a => negb (Ascii.eqb a c)) (list_ascii_of_string s).

Definition starts_clear (s : string) : bool :=
  match s with
  | EmptyString => true
  | String a _ => negb (JS.isWhiteSpace a)
  end.

Fixpoint last_char (s : string) : option ascii :=
  match s with
  | EmptyString => None
  | String a s' => match last_char s' with Some b => Some b | None => Some a end
  end.

Definition ends_clear (s : string) : bool :=
  match last_char s with
  | Some a => negb (JS.isWhiteSpace a)
  | None => true
  end.

End MessageValidation.

Module RateLimit.

Import MessageValidation.

(** [userMessageTimes.get(userId)], with the empty array for a user that
    has no entry. *)
Definition stored (times : RateState) (userId : string) : list Z :=
  match JSObject.get times userId with Some l => l | None => [] end.

(** [messageTimes.filter(time => now - time < timeWindow)] *)
Definition recent (now : Z) (l : list Z) : list Z :=
  filter (fun time => (now - time <? timeWindow)%Z) l.

(** The times of the calls never go back, starting at [lo]. *)
Fixpoint nondecreasing (lo : Z) (calls : list (string * Z)) : bool :=
  match calls with
  | [] => true
  | (_, now) :: rest => ((lo <=? now)%Z && nondecreasing now rest)%bool
  end.

(** A time within the minute that ends at [t]. *)
Definition within (t : Z) (time : Z) : bool :=
  ((t - timeWindow <? time)%Z && (time <=? t)%Z)%bool.

(** The rule as a user would read it: a call is let through when fewer
    than ten calls of the same user were let through in the minute before
    it.  [sent] holds the calls let through so far, oldest first. *)
Fixpoint run_by_history (sent : list (string * Z)) (calls : list (string * Z))
  : list (string * Z) :=
  match calls with
  | [] => []
  | (userId, now) :: rest =>
      if List.length (filter (in_window userId now) sent) <? maxMessages
      then (userId, now) :: run_by_history (sent ++ [(userId, now)]) rest
      else run_by_history sent rest
  end.

(** A call of user [u] less than a minute before [now]. *)
Definition recent_call (u : string) (now : Z) (call : string * Z) : bool :=
  (String.eqb (fst call) u && (now - snd call <? timeWindow)%Z)%bool.

(** Twelve calls of one user, one second apart. *)
Definition burst : list (string * Z) :=
  map (fun i => ("u-bob"%string, (1000 * Z.of_nat i)%Z)) (seq 1 12).

End RateLimit.

(** ** Ban records and the users' ban history *)

Module BanHistory.

Import Model UserManager.

(** No two children of a node have the same key. *)
Definition distinct_keys {A} (n : Store.Node A) : Prop := NoDup (map fst n).

(** The status of the user node at [userId]. *)
Definition status_of (db : Database) (userId : string) : option Status :=
  match Store.read (users db) userId with
  | Some u => UserProfile.status u
  | None => None
  end.

(** The copies of the user's ban records under [users/{userId}/banHistory]. *)
Definition history_of (db : Database) (userId : string) : Store.Node BanRecord.t :=
  match Store.read (users db) userId with
  | Some u => UserProfile.banHistory u
  | None => []
  end.

(** A day's ban of [alice]. *)
Definition banned_for_a_day : Database :=
  snd (banUser emptyDatabase "-ban1" 1000 "alice" "admin" "spam" Temporary (Some 24%Z)).

End BanHistory.

(** ** src/utils/userManager.ts: profiles, roles, suspensions and warnings *)

Module Accounts.

Import Model.

Definition Status_eqb (a b : Status) : bool :=
  match a, b with
  | Active, Active | Banned, Banned | Suspended, Suspended => true
  | _, _ => false
  end.

(** The value of [lastWarning]. *)
Record Warning : Type := mkWarning {
  reason : string;
  issuedBy : string;
  issuedAt : Z
}.

(** A child of [users] in full: the properties of a [UserProfile], and
    the three that the operations below write without the interface
    declaring them. *)
Record Account : Type := mkAccount {
  profile : UserProfile.t;
  suspendedUntil : option Z;
  suspensionReason : option string;
  lastWarning : option Warning
}.

Definition empty : Account := mkAccount UserProfile.empty None None None.

Definition or_empty (old : option Account) : Account :=
  match old with Some a => a | None => empty end.

(** The [details] payloads of the log entries of these operations. *)
Inductive Details : Type :=
| FirstLogin
| RoleUpdated (targetUser : string) (newRole : Role)
| UserSuspended (targetUser reason : string) (hours : Z)
| UserWarned (targetUser reason : string).

Record Activity : Type := mkActivity {
  userId : string;
  action : ActivityAction;
  timestamp : Z;
  details : option Details
}.

(** The nodes [users] and [userActivity]. *)
Record State : Type := mkState {
  accounts : Store.Node Account;
  activity : list Activity
}.

Definition emptyState : State := mkState [] [].

Definition set_accounts (v : Store.Node Account) (s : State) : State :=
  mkState v (activity s).

(** [update(ref(database, `users/${uid}`), ...)] *)
Definition update_account (s : State) (uid : string) (f : Account -> Account) : State :=
  set_accounts (Store.write (accounts s) uid (fun old => f (or_empty old))) s.

Definition on_profile (f : UserProfile.t -> UserProfile.t) (a : Account) : Account :=
  mkAccount (f (profile a)) (suspendedUntil a) (suspensionReason a) (lastWarning a).

(** [logActivity(userId, action, details)] at time [now].  Without the
    argument [details] the entry holds [details: undefined]: [push]
    throws, and the [catch] leaves the log as it is. *)
Definition logActivity (s : State) (now : Z) (userId : string)
    (action : ActivityAction) (details : option Details) : State :=
  match details with
  | None => s
  | Some _ => mkState (accounts s) (activity s ++ [mkActivity userId action now details])
  end.

Definition defaultPermissions : UserPermissions :=
  mkPermissions true true true false false false false.

Definition rolePermissions (role : Role) : UserPermissions :=
  match role with
  | RoleUser => defaultPermissions
  | RoleModerator => mkPermissions true true true true true false false
  | RoleAdmin => mkPermissions true true true true true true true
  end.

(** [keyof UserPermissions] *)
Inductive PermissionKey : Type :=
| CanSendMessages | CanDeleteOwnMessages | CanReportMessages | CanAccessAdminPanel
| CanModerateMessages | CanBanUsers | CanManageRoles.

Definition permission (p : UserPermissions) (key : PermissionKey) : bool :=
  match key with
  | CanSendMessages => canSendMessages p
  | CanDeleteOwnMessages => canDeleteOwnMessages p
  | CanReportMessages => canReportMessages p
  | CanAccessAdminPanel => canAccessAdminPanel p
  | CanModerateMessages => canModerateMessages p
  | CanBanUsers => canBanUsers p
  | CanManageRoles => canManageRoles p
  end.

(** [isAdminEmail(email)] *)
Definition isAdminEmail (email : string) : bool :=
  JSArray.includes ["admin@sessionprocess.com"; "moderator@sessionprocess.com"]%string
                   email.

Definition truthy_string (x : option string) : bool :=
  match x with
  | Some EmptyString | None => false
  | Some _ => true
  end.

(** [initializeUser(uid, email, displayName)] at time [now].  Both
    updates carry the property [displayName]: when its value is
    [undefined] the update throws, and the [catch] ends the call with
    nothing written and nothing logged.  The login of a known user is
    logged without details, which [logActivity] cannot store. *)
Definition initializeUser (s : State) (now : Z) (uid email : string)
    (displayName : option string) : State :=
  match Store.read (accounts s) uid with
  | None =>
      (* Create new user profile *)
      let role := if isAdminEmail email then RoleAdmin else RoleUser in
      let newUser :=
        UserProfile.mk (Some uid) (Some email) displayName (Some role) (Some Active)
          (Some now) (Some now) (Some 0%Z) (Some 0%Z) (Some 0%Z) []
          (Some (rolePermissions role)) in
      match displayName with
      | None => s
      | Some _ =>
          let s1 := update_account s uid (on_profile (fun _ => newUser)) in
          logActivity s1 now uid Login (Some FirstLogin)
      end
  | Some stored =>
      (* Update last active time *)
      let name := if truthy_string displayName then displayName
                  else UserProfile.displayName (profile stored) in
      match name with
      | None => s
      | Some _ =>
          let s1 :=
            update_account s uid
              (on_profile (fun u =>
                 UserProfile.mk (UserProfile.uid u) (UserProfile.email u)
                   name
                   (UserProfile.role u) (UserProfile.status u) (UserProfile.createdAt u)
                   (Some now) (UserProfile.messageCount u) (UserProfile.flagCount u)
                   (UserProfile.warningCount u) (UserProfile.banHistory u)
                   (UserProfile.permissions u))) in
          logActivity s1 now uid Login None
      end
  end.

(** The status of the account at [uid]. *)
Definition status_of (s : State) (uid : string) : option Status :=
  match Store.read (accounts s) uid with
  | Some a => UserProfile.status (profile a)
  | None => None
  end.

(** [getUserProfile(uid)] *)
Definition getUserProfile (s : State) (uid : string) : option Account :=
  Store.read (accounts s) uid.

(** [updateUserRole(uid, newRole, updatedBy)] at time [now]. *)
Definition updateUserRole (s : State) (now : Z) (uid : string) (newRole : Role)
    (updatedBy : string) : bool * State :=
  let newPermissions := rolePermissions newRole in
  let s1 :=
    update_account s uid
      (on_profile (fun u =>
         UserProfile.mk (UserProfile.uid u) (UserProfile.email u)
           (UserProfile.displayName u) (Some newRole) (UserProfile.status u)
           (UserProfile.createdAt u) (UserProfile.lastActive u)
           (UserProfile.messageCount u) (UserProfile.flagCount u)
           (UserProfile.warningCount u) (UserProfile.banHistory u)
           (Some newPermissions))) in
  (true, logActivity s1 now updatedBy UserReported (Some (RoleUpdated uid newRole))).

(** [suspendUser(userId, suspendedBy, reason, hours)] at time [now]. *)
Definition suspendUser (s : State) (now : Z) (userId suspendedBy reason : string)
    (hours : Z) : bool * State :=
  let s1 :=
    update_account s userId
      (fun a =>
         mkAccount (UserProfile.with_status Suspended (profile a))
           (Some (now + hours * 60 * 60 * 1000)%Z) (Some reason) (lastWarning a)) in
  (true, logActivity s1 now suspendedBy UserReported
           (Some (UserSuspended userId reason hours))).

(** [snapshot.val()?.count || 0] *)
Definition count_or_zero (s : State) (userId : string)
    (count : UserProfile.t -> option Z) : Z :=
  match Store.read (accounts s) userId with
  | Some a => match count (profile a) with Some n => n | None => 0%Z end
  | None => 0%Z
  end.

(** [warnUser(userId, warnedBy, reason)] at time [now]. *)
Definition warnUser (s : State) (now : Z) (userId warnedBy reason : string)
  : bool * State :=
  let currentWarnings := count_or_zero s userId UserProfile.warningCount in
  let s1 :=
    update_account s userId
      (fun a =>
         mkAccount
           (let u := profile a in
            UserProfile.mk (UserProfile.uid u) (UserProfile.email u)
              (UserProfile.displayName u) (UserProfile.role u) (UserProfile.status u)
              (UserProfile.createdAt u) (UserProfile.lastActive u)
              (UserProfile.messageCount u) (UserProfile.flagCount u)
              (Some (currentWarnings + 1)%Z) (UserProfile.banHistory u)
              (UserProfile.permissions u))
           (suspendedUntil a) (suspensionReason a)
           (Some (mkWarning reason warnedBy now))) in
  (true, logActivity s1 now warnedBy UserReported (Some (UserWarned userId reason))).

(** [incrementMessageCount(userId)] at time [now]. *)
Definition incrementMessageCount (s : State) (now : Z) (userId : string) : State :=
  let currentCount := count_or_zero s userId UserProfile.messageCount in
  update_account s userId
    (on_profile (fun u =>
       UserProfile.mk (UserProfile.uid u) (UserProfile.email u)
         (UserProfile.displayName u) (UserProfile.role u) (UserProfile.status u)
         (UserProfile.createdAt u) (Some now)
         (Some (currentCount + 1)%Z) (UserProfile.flagCount u)
         (UserProfile.warningCount u) (UserProfile.banHistory u)
         (UserProfile.permissions u))).

(** [incrementFlagCount(userId)] *)
Definition incrementFlagCount (s : State) (userId : string) : State :=
  let currentCount := count_or_zero s userId UserProfile.flagCount in
  update_account s userId
    (on_profile (fun u =>
       UserProfile.mk (UserProfile.uid u) (UserProfile.email u)
         (UserProfile.displayName u) (UserProfile.role u) (UserProfile.status u)
         (UserProfile.createdAt u) (UserProfile.lastActive u)
         (UserProfile.messageCount u) (Some (currentCount + 1)%Z)
         (UserProfile.warningCount u) (UserProfile.banHistory u)
         (UserProfile.permissions u))).

(** [profile.permissions[action] || false]; without [permissions] the
    access throws and the [catch] returns [false]. *)
Definition allowed (a : Account) (action : PermissionKey) : bool :=
  match UserProfile.permissions (profile a) with
  | Some p => permission p action
  | None => false
  end.

(** [canUserPerformAction(userId, action)] at time [now]. *)
Definition canUserPerformAction (s : State) (now : Z) (userId : string)
    (action : PermissionKey) : bool * State :=
  match getUserProfile s userId with
  | None => (false, s)
  | Some a =>
      (* Check if suspension has expired *)
      if (is_value Status_eqb (UserProfile.status (profile a)) Suspended
          && truthy_Z (suspendedUntil a))%bool then
        if (match suspendedUntil a with Some t => t | None => 0 end <? now)%Z then
          let s1 :=
            update_account s userId
              (fun a' =>
                 mkAccount (UserProfile.with_status Active (profile a'))
                   None None (lastWarning a')) in
          (allowed a action, s1)
        else (false, s)
      else
      (* Only allow actions if user is active *)
      if negb (is_value Status_eqb (UserProfile.status (profile a)) Active) then
        (false, s)
      else (allowed a action, s)
  end.

(** [interface UserStats] *)
Record ActiveUser : Type := mkActiveUser {
  au_uid : option string;
  au_email : option string;
  au_messageCount : option Z
}.

Record UserStats : Type := mkUserStats {
  totalUsers : nat;
  activeUsers : nat;
  bannedUsers : nat;
  suspendedUsers : nat;
  newUsersToday : nat;
  mostActiveUsers : list ActiveUser;
  recentActivity : list Activity
}.

(** [x > bound] for an optional number [x]. *)
Definition above (x : option Z) (bound : Z) : bool :=
  match x with Some v => (bound <? v)%Z | None => false end.

(** The comparator [(a, b) => b.messageCount - a.messageCount] does not
    put [b] first. *)
Definition by_messageCount_desc (a b : UserProfile.t) : bool :=
  match UserProfile.messageCount a, UserProfile.messageCount b with
  | Some x, Some y => (y <=? x)%Z
  | _, _ => true
  end.

Definition by_timestamp_desc (a b : Activity) : bool :=
  (timestamp b <=? timestamp a)%Z.

(** [getUserStats()] at time [now]. *)
Definition getUserStats (s : State) (now : Z) : UserStats :=
  let users := map profile (Store.values (accounts s)) in
  let oneDayAgo := (now - 24 * 60 * 60 * 1000)%Z in
  let oneHourAgo := (now - 60 * 60 * 1000)%Z in
  let activeUsers :=
    List.length (filter (fun user => above (UserProfile.lastActive user) oneHourAgo) users) in
  let bannedUsers :=
    List.length (filter (fun user => is_value Status_eqb (UserProfile.status user) Banned)
                        users) in
  let suspendedUsers :=
    List.length (filter (fun user => is_value Status_eqb (UserProfile.status user) Suspended)
                        users) in
  let newUsersToday :=
    List.length (filter (fun user => above (UserProfile.createdAt user) oneDayAgo) users) in
  let mostActiveUsers :=
    map (fun user => mkActiveUser (UserProfile.uid user) (UserProfile.email user)
                       (UserProfile.messageCount user))
      (JSArray.slice_to 10
         (JSArray.sort by_messageCount_desc
            (filter (fun user => above (UserProfile.messageCount user) 0) users))) in
  (* Get recent activity *)
  let recentActivity :=
    JSArray.slice_to 50 (JSArray.sort by_timestamp_desc (activity s)) in
  mkUserStats (List.length users) activeUsers bannedUsers suspendedUsers newUsersToday
    mostActiveUsers recentActivity.

(** A profile with a positive message count, and the count. *)
Definition has_messages (u : UserProfile.t) : Prop :=
  exists c, UserProfile.messageCount u = Some c /\ (0 < c)%Z.

Definition count_of (u : UserProfile.t) : Z :=
  match UserProfile.messageCount u with Some c => c | None => 0%Z end.

(** Every account that has a role has the permissions of that role. *)
Definition role_has_its_permissions (a : Account) : Prop :=
  forall role, UserProfile.role (profile a) = Some role ->
               UserProfile.permissions (profile a) = Some (rolePermissions role).

Definition roles_agree (s : State) : Prop :=
  forall uid a, Store.read (accounts s) uid = Some a -> role_has_its_permissions a.

(** One call of an operation of this section. *)
Inductive step : State -> State -> Prop :=
| step_initializeUser s now uid email displayName :
    step s (initializeUser s now uid email displayName)
| step_updateUserRole s now uid newRole updatedBy :
    step s (snd (updateUserRole s now uid newRole updatedBy))
| step_suspendUser s now userId suspendedBy reason hours :
    step s (snd (suspendUser s now userId suspendedBy reason hours))
| step_warnUser s now userId warnedBy reason :
    step s (snd (warnUser s now userId warnedBy reason))
| step_incrementMessageCount s now userId :
    step s (incrementMessageCount s now userId)
| step_incrementFlagCount s userId :
    step s (incrementFlagCount s userId)
| step_canUserPerformAction s now userId action :
    step s (snd (canUserPerformAction s now userId action)).

Inductive reachable : State -> Prop :=
| reach_empty : reachable emptyState
| reach_step s s' : reachable s -> step s s' -> reachable s'.

(** The permission sets, ordered. *)
Definition permits_at_most (p q : UserPermissions) : Prop :=
  forall key, permission p key = true -> permission q key = true.

(** A user who signs in and is then suspended for two hours. *)
Definition signed_in : State :=
  initializeUser emptyState 1000 "u-bob" "bob@example.com" (Some "Bob"%string).

Definition suspended_bob : State :=
  snd (suspendUser signed_in 2000 "u-bob" "u-admin" "flooding" 2).

End Accounts.

(** ** Sorted arrays *)

Module Order.

(** Every element is related to all the later ones. *)
Fixpoint ordered {A} (R : A -> A -> Prop) (l : list A) : Prop :=
  match l with
  | [] => True
  | x :: l' => Forall (R x) l' /\ ordered R l'
  end.

End Order.

(** ** Views of the flag records and of the tallies *)

Module FlagViews.

Import Model MessageModerator.

Definition severity_count (c : SeverityCounts) (sev : Severity) : nat :=
  match sev with Low => low c | Medium => medium c | High => high c end.

Definition reason_count (c : ReasonCounts) (reason : FlagReason) : nat :=
  match reason with
  | Profanity => profanity c
  | Spam => spam c
  | Harassment => harassment c
  | Inappropriate => inappropriate c
  | Manual => manual c
  end.

(** The flag record of a message. *)
Definition flag_at (db : Database) (messageId : string) : option FlaggedNode.t :=
  Store.read (flaggedMessages db) messageId.

End FlagViews.

Module Tally.

Import Model AnalyticsManager.

Fixpoint sum_of {A} (f : A -> nat) (l : list A) : nat :=
  match l with
  | [] => 0%nat
  | x :: l' => (f x + sum_of f l')%nat
  end.

(** The key under which a flag is tallied: its reviewer, when there is
    one, and its rule. *)
Definition reviewer_of (flag : FlaggedNode.t) : option string :=
  match FlaggedNode.reviewedBy flag with
  | Some reviewedBy => if String.eqb reviewedBy EmptyString then None else Some reviewedBy
  | None => None
  end.

Definition rule_of (flag : FlaggedNode.t) : string :=
  match FlaggedNode.flagReason flag with
  | Some r => reason_name r
  | None => "unknown"%string
  end.

(** One more review in a moderator's figures, one more trigger in a
    rule's. *)
Definition add_review (old : ModeratorStats) (flag : FlaggedNode.t) : ModeratorStats :=
  mkModeratorStats
    (S (stat_reviewCount old))
    (match reviewTimeOf flag with
     | Some t => stat_reviewTimes old ++ [t]
     | None => stat_reviewTimes old
     end)
    (if has_action Deleted flag
     then S (stat_correctDecisions old)
     else stat_correctDecisions old).

Definition add_trigger (old : RuleStats) (flag : FlaggedNode.t) : RuleStats :=
  mkRuleStats
    (S (stat_triggeredCount old))
    (if has_action Deleted flag
     then S (stat_correctFlags old) else stat_correctFlags old)
    (if has_action Deleted flag then stat_falsePositives old
     else if has_action Approved flag
          then S (stat_falsePositives old) else stat_falsePositives old).

(** [acc[k] || zero] *)
Definition get_or {S} (zero : S) (o : JSObject.t S) (k : string) : S :=
  match JSObject.get o k with Some s => s | None => zero end.

(** [acc[k] = upd(acc[k] || zero, x)] for every [x] that has a key [k]. *)
Definition group {X S} (key : X -> option string) (zero : S) (upd : S -> X -> S)
    (l : list X) (acc : JSObject.t S) : JSObject.t S :=
  fold_left
    (fun acc x =>
       match key x with
       | Some k => JSObject.set acc k (upd (get_or zero acc k) x)
       | None => acc
       end)
    l acc.

Definition has_key {X} (key : X -> option string) (k : string) (x : X) : bool :=
  match key x with Some k' => String.eqb k' k | None => false end.

(** The flags that a moderator reviewed, and the flags of a rule. *)
Definition reviewed_by (moderatorId : string) (flag : FlaggedNode.t) : bool :=
  has_key reviewer_of moderatorId flag.

Definition of_rule (ruleId : string) (flag : FlaggedNode.t) : bool :=
  has_key (fun flag => Some (rule_of flag)) ruleId flag.

Definition has_reviewer (flag : FlaggedNode.t) : bool :=
  match reviewer_of flag with Some _ => true | None => false end.

End Tally.

(** ** Words of a text *)

Module Vocabulary.

Import AnalyticsManager.

(** A lower-case letter, a digit or the underscore. *)
Definition keyword_char (a : ascii) : bool :=
  (JS.in_range 97 122 a || JS.isDigit a || N.eqb (JS.code a) 95)%bool.

Definition all_chars (p : ascii -> bool) (s : string) : bool :=
  forallb p (list_ascii_of_string s).

(** The words of a text as [analyzeSentiment] sees them. *)
Definition words_of (text : string) : list string :=
  JSArray.split_ws (JS.toLowerCase text).

(** The body of the [forEach] of [analyzeSentiment]. *)
Definition sentiment_step (acc : Z * list string * list string) (word : string)
  : Z * list string * list string :=
  let '(score, positive, negative) := acc in
  let '(score, positive) :=
    if JSArray.includes positiveWords word
    then ((score + 1)%Z, positive ++ [word]) else (score, positive) in
  if JSArray.includes negativeWords word
  then ((score - 1)%Z, positive, negative ++ [word])
  else (score, positive, negative).

End Vocabulary.

(** ** Counts per hour and per keyword *)

Module Peaks.

Import Model AnalyticsManager.

(** The [hourCounts] object after the messages [msgs]. *)
Definition hourCountsOf (cal : Calendar) (msgs : list Message.t) : list (nat * nat) :=
  fold_left (fun acc msg => bump (getHours cal (Message.timestamp msg)) acc) msgs [].

(** The number of messages sent in the local hour [hour]. *)
Definition hour_count (cal : Calendar) (hour : nat) (msgs : list Message.t) : nat :=
  List.length
    (filter (fun msg => (getHours cal (Message.timestamp msg) =? hour)%nat) msgs).

(** [counts[hour] || 0] *)
Fixpoint lookup (counts : list (nat * nat)) (hour : nat) : nat :=
  match counts with
  | [] => 0%nat
  | (k, c) :: rest => if (k =? hour)%nat then c else lookup rest hour
  end.

(** The hours of the counts rise. *)
Definition ascending (counts : list (nat * nat)) : Prop :=
  Order.ordered lt (map fst counts).

(** The keywords of all messages, and how often one occurs among them. *)
Definition keywordsOf (msgs : list Message.t) : list string :=
  flat_map (fun msg => extractKeywords (Message.text msg)) msgs.

Definition occurrences (w : string) (l : list string) : nat :=
  List.length (filter (fun x => String.eqb x w) l).

(** An entry of a tally whose count is a number. *)
Definition is_number {K} (e : K * JSObject.Count) : Prop :=
  exists n, snd e = JSObject.Times n.

(** A profile as [initializeUser] writes it for a user who signs in
    with a display name. *)
Definition alice : UserProfile.t :=
  UserProfile.mk (Some "u-alice"%string) (Some "alice@example.com"%string)
    (Some "Alice"%string) (Some RoleUser) (Some Active) (Some 500%Z) (Some 1000%Z)
    (Some 3%Z) (Some 0%Z) (Some 0%Z) []
    (Some (mkPermissions true true true false false false false)).

(** A store in which [alice] wrote three messages within an hour. *)
Definition busy_store : Database :=
  mkDatabase
    [("-m1"%string, Message.mk "lovely weather today" "alice" "u-alice" 1000);
     ("-m2"%string, Message.mk "the weather is great" "alice" "u-alice" 61000);
     ("-m3"%string, Message.mk "see you tomorrow" "alice" "u-alice" 3700000)]
    []
    [("u-alice"%string, alice)]
    [] [].

(** The same store when the first two messages speak of code. *)
Definition code_talk_store : Database :=
  mkDatabase
    [("-m1"%string, Message.mk "constructor and __proto__" "alice" "u-alice" 1000);
     ("-m2"%string, Message.mk "the constructor again" "alice" "u-alice" 61000);
     ("-m3"%string, Message.mk "see you tomorrow" "alice" "u-alice" 3700000)]
    []
    [("u-alice"%string, alice)]
    [] [].

End Peaks.

(** ** The analytics module: generateChatAnalytics *)

Module ChatAnalytics.

Import Model Number AnalyticsManager.
Open Scope float_scope.

Module HourCount.
Record t : Type := mk { hour : nat; messageCount : nat }.
End HourCount.

Module DaySentiment.
Record t : Type := mk { date : string; avgSentiment : float; messageCount : nat }.
End DaySentiment.

Module ModerationStats.
Record t : Type := mk {
  totalFlagged : nat;
  autoFlagged : nat;
  manualFlagged : nat;
  deletedMessages : nat;
  approvedMessages : nat;
  flaggedRatio : float
}.
End ModerationStats.

Module TopUser.
Record t : Type := mk { userId : string; email : string; messageCount : nat }.
End TopUser.

Module WordFrequency.
Record t : Type := mk { word : string; frequency : JSObject.Count }.
End WordFrequency.

Module ChannelStat.
Record t : Type := mk { messageCount : nat; userCount : nat }.
End ChannelStat.

(** [interface ChatAnalytics]. *)
Record t : Type := mk {
  totalMessages : nat;
  totalUsers : nat;
  activeUsers24h : nat;
  averageMessagesPerUser : float;
  peakHours : list HourCount.t;
  sentimentOverTime : list DaySentiment.t;
  moderationStats : ModerationStats.t;
  topUsers : list TopUser.t;
  wordCloud : list WordFrequency.t;
  channelStats : JSObject.t ChannelStat.t
}.

(** [new Set(ids).size] *)
Definition set_size (ids : list string) : nat :=
  List.length (nodup string_dec ids).

(** The messages with a time stamp after [cutoffTime]. *)
Definition messages_after (db : Database) (cutoffTime : Z) : list Message.t :=
  filter (fun msg => (cutoffTime <? Message.timestamp msg)%Z) (Store.values (messages db)).

Record DayBucket : Type := mkDayBucket {
  sentiments : list float;
  bucket_count : nat
}.

Definition by_messageCount_desc (a b : HourCount.t) : bool :=
  (HourCount.messageCount b <=? HourCount.messageCount a)%nat.

(** [flag.flaggedAt > cutoffTime] *)
Definition flagged_after (cutoffTime : Z) (flag : FlaggedNode.t) : bool :=
  match FlaggedNode.flaggedAt flag with
  | Some t => (cutoffTime <? t)%Z
  | None => false
  end.

(** [users[userId]?.email || 'Unknown'] *)
Definition email_of (db : Database) (userId : string) : string :=
  match Store.read (users db) userId with
  | Some user =>
      match UserProfile.email user with
      | Some EmptyString | None => "Unknown"
      | Some email => email
      end
  | None => "Unknown"
  end.

Definition truthy_id (userId : string) : bool :=
  negb (String.eqb userId EmptyString).

(** [generateChatAnalytics(days)] at time [now]; [isoDate] gives the day
    of a time stamp as [toISOString] prints it. *)
Definition generateChatAnalytics (cal : Calendar) (isoDate : Z -> string)
    (db : Database) (now days : Z) : t :=
  let cutoffTime := (now - days * 24 * 60 * 60 * 1000)%Z in
  let recentMessages := messages_after db cutoffTime in
  let last24hMessages := messages_after db (now - 24 * 60 * 60 * 1000)%Z in
  (* Basic stats *)
  let totalMessages := List.length recentMessages in
  let totalUsers := List.length (users db) in
  let activeUsers24h := set_size (map Message.userId last24hMessages) in
  let averageMessagesPerUser :=
    if (0 <? totalUsers)%nat then of_nat totalMessages / of_nat totalUsers else 0 in
  (* Peak hours analysis *)
  let hourCounts :=
    fold_left (fun acc msg => bump (getHours cal (Message.timestamp msg)) acc)
              recentMessages [] in
  let peakHours :=
    JSArray.sort by_messageCount_desc
      (map (fun entry => HourCount.mk (fst entry) (snd entry)) hourCounts) in
  (* Sentiment over time (daily buckets) *)
  let dayBuckets :=
    fold_left (fun (acc : JSObject.t DayBucket) msg =>
                 let sentiment := analyzeSentiment (Message.text msg) in
                 let day := isoDate (Message.timestamp msg) in
                 let bucket := match JSObject.get acc day with
                               | Some b => b
                               | None => mkDayBucket [] 0
                               end in
                 JSObject.set acc day
                   (mkDayBucket (sentiments bucket ++ [comparative sentiment])
                                (S (bucket_count bucket))))
              recentMessages [] in
  let sentimentOverTime :=
    map (fun entry =>
           DaySentiment.mk (fst entry) (mean (sentiments (snd entry)))
                           (bucket_count (snd entry)))
        (JSObject.entries dayBuckets) in
  (* Moderation stats *)
  let flaggedMessagesList := Store.values (flaggedMessages db) in
  let recentFlagged := filter (flagged_after cutoffTime) flaggedMessagesList in
  let autoFlagged :=
    filter (fun flag => truthy_bool (FlaggedNode.autoFlagged flag)) recentFlagged in
  let deletedMessages := filter (has_action Deleted) recentFlagged in
  let approvedMessages := filter (has_action Approved) recentFlagged in
  let moderationStats :=
    ModerationStats.mk
      (List.length recentFlagged)
      (List.length autoFlagged)
      (List.length recentFlagged - List.length autoFlagged)
      (List.length deletedMessages)
      (List.length approvedMessages)
      (if (0 <? totalMessages)%nat
       then of_nat (List.length recentFlagged) / of_nat totalMessages else 0) in
  (* Top users *)
  let userMessageCounts :=
    fold_left (fun (acc : JSObject.t nat) msg =>
                 if truthy_id (Message.userId msg) then
                   JSObject.set acc (Message.userId msg)
                     (S (match JSObject.get acc (Message.userId msg) with
                         | Some n => n | None => 0%nat end))
                 else acc)
              recentMessages [] in
  let topUsers :=
    map (fun entry => TopUser.mk (fst entry) (email_of db (fst entry)) (snd entry))
        (JSArray.slice_to 10
           (JSArray.sort by_count_desc (JSObject.entries userMessageCounts))) in
  (* Word cloud *)
  let allWords :=
    flat_map (fun msg => extractKeywords (Message.text msg)) recentMessages in
  let wordCounts := fold_left JSObject.count_up allWords [] in
  let wordCloud :=
    map (fun entry => WordFrequency.mk (fst entry) (snd entry))
        (JSArray.slice_to 50
           (JSArray.sort JSObject.by_tally_desc (JSObject.entries wordCounts))) in
  (* Channel stats (for future multi-channel support) *)
  let channelStats :=
    [("general"%string,
      ChannelStat.mk totalMessages (set_size (map Message.userId recentMessages)))] in
  mk totalMessages totalUsers activeUsers24h averageMessagesPerUser peakHours
     sentimentOverTime moderationStats topUsers wordCloud channelStats.

(** The author of a message, when the id counts. *)
Definition author_of (msg : Message.t) : option string :=
  if truthy_id (Message.userId msg) then Some (Message.userId msg) else None.

Definition written_by (userId : string) (msg : Message.t) : bool :=
  Tally.has_key author_of userId msg.

End ChatAnalytics.

(** ** The cloud function's rate limit *)

Module ServerRateLimit.

(** An entry of [userRateLimits]. *)
Record Limit : Type := mkLimit {
  count : nat;
  resetTime : Z
}.

Definition State : Type := JSObject.t Limit.

Record Check : Type := mkCheck {
  allowed : bool;
  retryAfter : option Z   (* [resetTime], in seconds from now *)
}.

Definition windowMs : Z := 60 * 1000.
Definition maxRequests : nat := 10.

(** [Math.ceil(ms / 1000)] for a span that is not negative. *)
Definition ceil_seconds (ms : Z) : Z := ((ms + 999) / 1000)%Z.

(** [checkRateLimit(userId)] at time [now]. *)
Definition checkRateLimit (limits : State) (now : Z) (userId : string)
  : Check * State :=
  match JSObject.get limits userId with
  | None =>
      (mkCheck true None, JSObject.set limits userId (mkLimit 1 (now + windowMs)))
  | Some userLimit =>
      if (resetTime userLimit <? now)%Z then
        (* Reset the window *)
        (mkCheck true None, JSObject.set limits userId (mkLimit 1 (now + windowMs)))
      else if maxRequests <=? count userLimit then
        (mkCheck false (Some (ceil_seconds (resetTime userLimit - now))), limits)
      else (mkCheck true None, limits)
  end.

(** [updateRateLimit(userId)] *)
Definition updateRateLimit (limits : State) (userId : string) : State :=
  match JSObject.get limits userId with
  | Some userLimit =>
      JSObject.set limits userId (mkLimit (S (count userLimit)) (resetTime userLimit))
  | None => limits
  end.

(** The part of [sendMessage] that the limit governs: the check, then,
    when the message passed the content checks and was stored
    ([delivered]), the update. *)
Definition send (limits : State) (now : Z) (userId : string) (delivered : bool)
  : bool * State :=
  let (rateLimitResult, limits1) := checkRateLimit limits now userId in
  if allowed rateLimitResult then
    if delivered then (true, updateRateLimit limits1 userId)
    else (false, limits1)
  else (false, limits1).

(** The messages of [userId] that a run of calls stores; a call is its
    time and whether the message is deliverable. *)
Fixpoint sent (limits : State) (userId : string) (calls : list (Z * bool)) : nat :=
  match calls with
  | [] => 0
  | (now, delivered) :: rest =>
      let (ok, limits') := send limits now userId delivered in
      (if ok then 1 else 0) + sent limits' userId rest
  end.

(** Twelve deliverable messages, one second apart. *)
Definition burst : list (Z * bool) :=
  map (fun i => ((1000 * Z.of_nat i)%Z, true)) (seq 1 12).

End ServerRateLimit.

(** ** The analytics module: reports *)

Module Reports.

Import Model Number AnalyticsManager.
Open Scope float_scope.

Inductive ReportType : Type := Daily | Weekly | Monthly | Custom.

(** [interface AnalyticsReport]. *)
Record AnalyticsReport : Type := mkReport {
  id : string;
  type : ReportType;
  startDate : Z;
  endDate : Z;
  generatedAt : Z;
  generatedBy : string;
  chatAnalytics : ChatAnalytics.t;
  userBehaviorMetrics : list UserBehaviorMetrics;
  moderationEffectiveness : ModerationEffectiveness;
  insights : list string;
  recommendations : list string
}.

(** What the host contributes: the hours and week keys of [Date], the
    ISO day of a time stamp, and the decimal numeral of [Math.round(x)]
    as string concatenation prints it. *)
Record Host : Type := mkHost {
  calendar : Calendar;
  isoDate : Z -> string;
  rounded : float -> string
}.

(** [Math.ceil(ms / (24 * 60 * 60 * 1000))] *)
Definition ceil_days (ms : Z) : Z := (- ((- ms) / day_ms))%Z.

(** The [switch] of [generateReport]: the days, the start and the end of
    the report; [None] when it throws. *)
Definition period (now : Z) (type : ReportType) (startDate endDate : option Z)
  : option (Z * Z * Z) :=
  let actualEndDate := now in
  match type with
  | Daily => Some (1, now - 24 * 60 * 60 * 1000, actualEndDate)%Z
  | Weekly => Some (7, now - 7 * 24 * 60 * 60 * 1000, actualEndDate)%Z
  | Monthly => Some (30, now - 30 * 24 * 60 * 60 * 1000, actualEndDate)%Z
  | Custom =>
      if (negb (truthy_Z startDate) || negb (truthy_Z endDate))%bool then None
      else
        match startDate, endDate with
        | Some s, Some e => Some (ceil_days (e - s), s, e)
        | _, _ => None
        end
  end.

(** [array.slice(-n)] *)
Definition slice_last {A} (n : nat) (l : list A) : list A :=
  skipn (List.length l - n) l.

Definition keep_some {A} (l : list (option A)) : list A :=
  flat_map (fun x => match x with Some v => [v] | None => [] end) l.

(** The doubles nearest to the literals 0.05 and 0.2. *)
Definition one_twentieth : float := 0x1.999999999999ap-5.
Definition one_fifth : float := 0x1.999999999999ap-3.

(** [if (c) { insights.push(insight); recommendations.push(advice) }] *)
Definition push_if (c : bool) (insight advice : string)
    (lists : list string * list string) : list string * list string :=
  if c then (fst lists ++ [insight], snd lists ++ [advice]) else lists.

(** The insights and the recommendations of a report. *)
Definition findings (host : Host) (chatAnalytics : ChatAnalytics.t)
    (moderationEffectiveness : ModerationEffectiveness)
    (userBehaviorMetrics : list UserBehaviorMetrics)
  : list string * list string :=
  let activeUsers24h := of_nat (ChatAnalytics.activeUsers24h chatAnalytics) in
  let totalUsers := of_nat (ChatAnalytics.totalUsers chatAnalytics) in
  let flaggedRatio :=
    ChatAnalytics.ModerationStats.flaggedRatio
      (ChatAnalytics.moderationStats chatAnalytics) in
  let lists := ([], []) in
  (* Analytics insights *)
  let lists :=
    push_if (activeUsers24h <? totalUsers * one_tenth)
      ("Low user engagement: Only "
       ++ rounded host ((activeUsers24h / totalUsers) * 100)
       ++ "% of users were active in the last 24 hours")
      "Consider implementing engagement features like notifications or daily challenges"
      lists in
  let lists :=
    push_if (one_twentieth <? flaggedRatio)
      ("High moderation load: " ++ rounded host (flaggedRatio * 100)
       ++ "% of messages are being flagged")
      "Review and optimize moderation rules to reduce false positives"
      lists in
  let lists :=
    push_if (60 <? avgReviewTime moderationEffectiveness)
      ("Slow moderation response: Average review time is "
       ++ rounded host (avgReviewTime moderationEffectiveness) ++ " minutes")
      "Add more moderators or implement auto-moderation for clear violations"
      lists in
  (* High-risk users *)
  let highRiskUsers := filter (fun user => 70 <? riskScore user) userBehaviorMetrics in
  let lists :=
    push_if (0 <? List.length highRiskUsers)%nat
      (rounded host (of_nat (List.length highRiskUsers))
       ++ " users identified as high-risk based on behavior patterns")
      "Review high-risk users for potential policy violations"
      lists in
  (* Sentiment trends *)
  let recentSentiment := slice_last 7 (ChatAnalytics.sentimentOverTime chatAnalytics) in
  let avgRecentSentiment :=
    fold_left (fun sum day => sum + ChatAnalytics.DaySentiment.avgSentiment day)
              recentSentiment 0
    / of_nat (List.length recentSentiment) in
  push_if (avgRecentSentiment <? - one_fifth)
    "Declining conversation sentiment detected"
    "Consider community-building initiatives or content moderation adjustments"
    lists.

(** The behaviour record of a user holds the [email] and the
    [displayName] of the profile, [undefined] when the profile has none:
    [update] refuses a report with such a record. *)
Definition complete (m : UserBehaviorMetrics) : bool :=
  match email m, displayName m with
  | Some _, Some _ => true
  | _, _ => false
  end.

Definition storable (report : AnalyticsReport) : bool :=
  forallb complete (userBehaviorMetrics report).

(** [generateReport(type, startDate, endDate, generatedBy)] at time [now];
    [reportId] is the key that [push] generated.  [None] when it throws:
    for a custom report without its dates, and when the store refuses
    the report. *)
Definition generateReport (host : Host) (db : Database)
    (reports : Store.Node AnalyticsReport) (reportId : string) (now : Z)
    (type : ReportType) (startDate endDate : option Z) (generatedBy : option string)
  : option (AnalyticsReport * Store.Node AnalyticsReport) :=
  match period now type startDate endDate with
  | None => None
  | Some (days, actualStartDate, actualEndDate) =>
      let chatAnalytics :=
        ChatAnalytics.generateChatAnalytics (calendar host) (isoDate host) db now days in
      let moderationEffectiveness := analyzeModerationEffectiveness db now days in
      (* Get behavior metrics for top users *)
      let userBehaviorResults :=
        map (fun user =>
               analyzeUserBehavior (calendar host) db now
                 (ChatAnalytics.TopUser.userId user) days)
            (JSArray.slice_to 5 (ChatAnalytics.topUsers chatAnalytics)) in
      let userBehaviorMetrics := keep_some userBehaviorResults in
      (* Generate insights *)
      let (insights, recommendations) :=
        findings host chatAnalytics moderationEffectiveness userBehaviorMetrics in
      let report :=
        mkReport reportId type actualStartDate actualEndDate now
          (match generatedBy with Some who => who | None => "system"%string end)
          chatAnalytics userBehaviorMetrics moderationEffectiveness
          insights recommendations in
      (* Save report *)
      if storable report
      then Some (report, Store.write reports reportId (fun _ => report))
      else None
  end.

(** The behaviour records that a report over [days] days holds: those of
    the first five top users who have a profile. *)
Definition top_metrics (host : Host) (db : Database) (now days : Z)
  : list UserBehaviorMetrics :=
  keep_some
    (map (fun user =>
            analyzeUserBehavior (calendar host) db now
              (ChatAnalytics.TopUser.userId user) days)
         (JSArray.slice_to 5
            (ChatAnalytics.topUsers
               (ChatAnalytics.generateChatAnalytics (calendar host) (isoDate host)
                  db now days)))).

Definition newest_first (a b : AnalyticsReport) : bool :=
  (generatedAt b <=? generatedAt a)%Z.

(** [getReports(limit)] *)
Definition getReports (reports : Store.Node AnalyticsReport) (limit : option nat)
  : list AnalyticsReport :=
  let limit := match limit with Some n => n | None => 10%nat end in
  JSArray.slice_to limit (JSArray.sort newest_first (Store.values reports)).

(** [cleanupOldReports(daysToKeep)] at time [now]. *)
Definition cleanupOldReports (reports : Store.Node AnalyticsReport) (now : Z)
    (daysToKeep : option Z) : Store.Node AnalyticsReport :=
  let daysToKeep := match daysToKeep with Some d => d | None => 90%Z end in
  let cutoffTime := (now - daysToKeep * 24 * 60 * 60 * 1000)%Z in
  let deletions :=
    map fst (filter (fun entry => (generatedAt (snd entry) <? cutoffTime)%Z)
                    (Store.entries reports)) in
  fold_left (fun reports reportId => Store.remove reports reportId) deletions reports.

(** The part of a report that the analyses make up. *)
Definition analyses (r : AnalyticsReport)
  : ChatAnalytics.t * list UserBehaviorMetrics * ModerationEffectiveness
    * list string * list string :=
  (chatAnalytics r, userBehaviorMetrics r, moderationEffectiveness r,
   insights r, recommendations r).

(** A host for the examples: whole numbers are not printed. *)
Definition plain_host : Host :=
  mkHost Examples.utc (fun _ => "1970-01-01"%string) (fun _ => "n"%string).

(** The store of the three messages when the profile of their author has
    no display name. *)
Definition nameless_store : Database :=
  set_users [("u-alice"%string, Examples.alice_profile)] Peaks.busy_store.

(** The store after one weekly report. *)
Definition weekly_reports : Store.Node AnalyticsReport :=
  match generateReport plain_host Peaks.busy_store [] "-r1" 4000000 Weekly None None None
  with
  | Some (_, reports) => reports
  | None => []
  end.

End Reports.

(** ** ChatAdmin *)

Module ChatAdmin.

Import Model.

Record TopPoster : Type := mkTopPoster {
  user : string;
  count : nat
}.

(** [interface ChatStats]; the set of active users in insertion order. *)
Record ChatStats : Type := mkChatStats {
  totalMessages : nat;
  activeUsers : list string;
  messagesPerHour : nat;
  topUsers : list TopPoster
}.

(** [new Set(values)] *)
Definition set_of (values : list string) : list string :=
  fold_left (fun acc value => if JSArray.includes acc value then acc else acc ++ [value])
            values [].

Definition by_count_desc (a b : TopPoster) : bool := (count b <=? count a)%nat.

(** [calculateStats()] at time [now] over the monitored [messages]. *)
Definition calculateStats (messages : list Message.t) (now : Z) : ChatStats :=
  let oneHourAgo := (now - 60 * 60 * 1000)%Z in
  let recentMessages :=
    filter (fun msg => (oneHourAgo <? Message.timestamp msg)%Z) messages in
  let activeUsers := set_of (map Message.user messages) in
  (* Count messages per user *)
  let userCounts :=
    fold_left (fun (acc : JSObject.t nat) msg =>
                 let count := match JSObject.get acc (Message.user msg) with
                              | Some n => n | None => 0%nat end in
                 JSObject.set acc (Message.user msg) (count + 1)%nat)
              messages [] in
  let topUsers :=
    JSArray.slice_to 10
      (JSArray.sort by_count_desc
         (map (fun entry => mkTopPoster (fst entry) (snd entry)) userCounts)) in
  mkChatStats (List.length messages) activeUsers (List.length recentMessages) topUsers.

(** [getMessagesWithKeywords(keywords)] *)
Definition getMessagesWithKeywords (messages : list Message.t) (keywords : list string)
  : list Message.t :=
  filter (fun msg =>
            existsb (fun keyword =>
                       JS.includes (JS.toLowerCase (Message.text msg))
                                   (JS.toLowerCase keyword))
                    keywords)
         messages.

(** [getMessagesByUser(userId)] *)
Definition getMessagesByUser (messages : list Message.t) (userId : string)
  : list Message.t :=
  filter (fun msg => String.eqb (Message.userId msg) userId) messages.

(** The messages that [user] signed. *)
Definition signed_by (user : string) (msg : Message.t) : bool :=
  String.eqb (Message.user msg) user.

End ChatAdmin.

(** * Properties *)

(** ** Strings *)

Module JSFacts.

Lemma prefix_iff (w s : string) :
  String.prefix w s = true <-> exists post, s = (w ++ post)%string.
Proof.
  revert s; induction w as [|a w IH]; intros s.
  - split; [intros _; exists s; reflexivity | intros _; destruct s; reflexivity].
  - destruct s as [|b s]; simpl.
    + split; [discriminate | intros [post H]; discriminate].
    + destruct (ascii_dec a b) as [->|Hne].
      * rewrite IH. split; intros [post H]; exists post; congruence.
      * split; [discriminate | intros [post H]; congruence].
Qed.

(** [includes] is the substring relation. *)
Lemma includes_iff (s w : string) :
  JS.includes s w = true <->
  exists pre post, s = (pre ++ w ++ post)%string.
Proof.
  induction s as [|a s IH]; cbn [JS.includes].
  - destruct (String.prefix w EmptyString) eqn:Hp.
    + apply prefix_iff in Hp. destruct Hp as [post Hp].
      split; [intros _; exists EmptyString, post; exact Hp | reflexivity].
    + split; [discriminate|].
      intros (pre & post & H). destruct pre; cbn [append] in H.
      * assert (String.prefix w EmptyString = true) by (apply prefix_iff; eauto). congruence.
      * discriminate.
  - destruct (String.prefix w (String a s)) eqn:Hp.
    + apply prefix_iff in Hp. destruct Hp as [post Hp].
      split; [intros _; exists EmptyString, post; exact Hp | reflexivity].
    + rewrite IH. split.
      * intros (pre & post & H). exists (String a pre), post. cbn [append]. congruence.
      * intros (pre & post & H). destruct pre as [|b pre]; cbn [append] in H.
        -- assert (String.prefix w (String a s) = true) by (apply prefix_iff; eauto).
           congruence.
        -- exists pre, post. congruence.
Qed.

Lemma length_list_ascii (s : string) :
  List.length (list_ascii_of_string s) = String.length s.
Proof. induction s; simpl; congruence. Qed.

End JSFacts.

(** ** Pattern tests *)

Module RegExpFacts.

Import RegExp.

Lemma search_none_iff input icase r n i :
  search input icase r n i = None <->
  forall j, i <= j < i + n -> match_at input icase r j = None.
Proof.
  revert i; induction n as [|n IH]; intros i; simpl.
  - split; [intros _ j Hj; lia | reflexivity].
  - destruct (match_at input icase r i) eqn:Hm.
    + split; [discriminate|]. intros H. rewrite (H i) in Hm by lia. discriminate.
    + rewrite IH. split; intros H j Hj.
      * destruct (Nat.eq_dec j i) as [->|]; [assumption | apply H; lia].
      * apply H; lia.
Qed.

(** A text that the pattern matches nowhere fails the test from every
    [lastIndex], and resets the [lastIndex] of a global pattern. *)
Lemma test_no_match re lastIndex s :
  ~ matches re s ->
  test re lastIndex s = (false, if global re then 0 else lastIndex).
Proof.
  intros Hno. unfold test.
  set (input := list_ascii_of_string s).
  set (start := if global re then lastIndex else 0).
  assert (Hs : search input (ignoreCase re) (source re)
                 (S (List.length input) - start) start = None).
  { apply search_none_iff. intros j Hj.
    destruct (match_at input (ignoreCase re) (source re) j) eqn:Hm; [|reflexivity].
    exfalso. apply Hno. exists j. split.
    - unfold input in Hj. rewrite JSFacts.length_list_ascii in Hj. lia.
    - fold input. congruence. }
  rewrite Hs. reflexivity.
Qed.

(** A pattern without the [g] flag: the test says whether the pattern
    matches somewhere, whatever [lastIndex] holds, and leaves it alone. *)
Lemma search_some input icase r n i y :
  search input icase r n i = Some y ->
  exists j, i <= j < i + n /\ match_at input icase r j = Some y.
Proof.
  revert i; induction n as [|n IH]; intros i; simpl; [discriminate|].
  destruct (match_at input icase r i) eqn:Hm.
  - intros [= <-]. exists i. split; [lia | assumption].
  - intros H. destruct (IH _ H) as (j & Hj & Hy). exists j. split; [lia | assumption].
Qed.

(** A pattern without the [g] flag: the test says whether the pattern
    matches somewhere, whatever [lastIndex] holds, and leaves it alone. *)
Lemma test_not_global re lastIndex s :
  global re = false ->
  snd (test re lastIndex s) = lastIndex /\
  (fst (test re lastIndex s) = true <-> matches re s).
Proof.
  intros Hg. unfold test. rewrite Hg.
  set (input := list_ascii_of_string s).
  destruct (search input (ignoreCase re) (source re) (S (List.length input) - 0) 0)
    as [y|] eqn:Hs; simpl.
  - split; [reflexivity|]. split; [intros _ | reflexivity].
    destruct (search_some _ _ _ _ _ _ Hs) as (j & Hj & Hy).
    exists j. split.
    + unfold input in Hj. rewrite JSFacts.length_list_ascii in Hj. lia.
    + fold input. congruence.
  - split; [reflexivity|]. split; [discriminate|].
    intros (j & Hj & Hm). exfalso. apply Hm.
    apply (proj1 (search_none_iff _ _ _ _ _) Hs).
    unfold input. rewrite JSFacts.length_list_ascii. lia.
Qed.

End RegExpFacts.

(** ** The iteration bound of the quantifier *)

Module RepeatFacts.

Import RegExp.

Section Fuel.

Variable input : list ascii.
Variable icase : bool.

Lemma forward_char p : forward input (char_matcher input p).
Proof.
  intros x c c' Hx H. unfold char_matcher.
  destruct (nth_error input (endIndex x)) as [a|] eqn:E; [|reflexivity].
  destruct (p a); [|reflexivity].
  apply H; unfold in_input; cbn.
  - lia.
  - apply Nat.le_succ_l. apply nth_error_Some. congruence.
Qed.

Lemma forward_repeat m gs greedy :
  forward input m ->
  forall fuel min max, forward input (repeat_matcher fuel m gs min max greedy).
Proof.
  intros Hm. induction fuel as [|fuel IH]; intros min max x c c' Hx H; [reflexivity|].
  cbn [repeat_matcher].
  assert (Hc : c x = c' x) by (apply H; [lia | assumption]).
  assert (Hd : m (endIndex x, clear_captures gs (captures x))
                 (fun y => if ((min =? 0) && (endIndex y =? endIndex x))%bool then None
                           else repeat_matcher fuel m gs (pred min) (option_map pred max)
                                  greedy y c)
               = m (endIndex x, clear_captures gs (captures x))
                   (fun y => if ((min =? 0) && (endIndex y =? endIndex x))%bool then None
                             else repeat_matcher fuel m gs (pred min) (option_map pred max)
                                    greedy y c')).
  { apply Hm; [exact Hx|]. intros y Hxy Hy.
    destruct ((min =? 0) && (endIndex y =? endIndex x))%bool; [reflexivity|].
    apply IH; [exact Hy|]. intros z Hyz Hz. apply H; [cbn in Hxy; lia | exact Hz]. }
  destruct max as [[|k]|]; [exact Hc | |]; rewrite Hd, Hc; reflexivity.
Qed.

Lemma forward_compile r : forward input (compile input icase r).
Proof.
  induction r as [| ch | | negated atoms | r1 IH1 r2 IH2 | r1 IH1 r2 IH2
                 | r IH min max greedy | n r IH | n | | |];
    cbn [compile]; try apply forward_char.
  - intros x c c' Hx H. apply H; [lia | exact Hx].
  - intros x c c' Hx H. apply IH1; [exact Hx|]. intros y Hxy Hy.
    apply IH2; [exact Hy|]. intros z Hyz Hz. apply H; [lia | exact Hz].
  - intros x c c' Hx H. rewrite (IH1 x c c' Hx H), (IH2 x c c' Hx H). reflexivity.
  - apply forward_repeat. exact IH.
  - intros x c c' Hx H. apply IH; [exact Hx|]. intros y Hxy Hy.
    apply H; [exact Hxy | exact Hy].
  - intros x c c' Hx H. unfold backref_matcher.
    destruct (get_capture n (captures x)) as [[s e]|]; [|apply H; [lia | exact Hx]].
    destruct (endIndex x + (e - s) <=? List.length input) eqn:E; [|reflexivity].
    destruct (same_span input icase (e - s) s (endIndex x)); [|reflexivity].
    cbn [andb]. apply H; unfold in_input; cbn; [lia | apply Nat.leb_le; exact E].
  - intros x c c' Hx H.
    destruct (xorb _ _); [apply H; [lia | exact Hx] | reflexivity].
  - intros x c c' Hx H.
    destruct (endIndex x =? 0); [apply H; [lia | exact Hx] | reflexivity].
  - intros x c c' Hx H.
    destruct (endIndex x =? List.length input); [apply H; [lia | exact Hx] | reflexivity].
Qed.

(** The quantifier never runs out of iterations: from a state in the
    input, every bound above [min] plus the characters left gives the same
    result. *)
Lemma repeat_matcher_fuel m gs greedy :
  forward input m ->
  forall fuel fuel' min max x c,
    in_input input x ->
    min + (List.length input - endIndex x) < fuel ->
    min + (List.length input - endIndex x) < fuel' ->
    repeat_matcher fuel m gs min max greedy x c
    = repeat_matcher fuel' m gs min max greedy x c.
Proof.
  intros Hm. induction fuel as [|fuel IH]; intros fuel' min max x c Hx Hf Hf'; [lia|].
  destruct fuel' as [|fuel']; [lia|].
  cbn [repeat_matcher].
  assert (Hd : m (endIndex x, clear_captures gs (captures x))
                 (fun y => if ((min =? 0) && (endIndex y =? endIndex x))%bool then None
                           else repeat_matcher fuel m gs (pred min) (option_map pred max)
                                  greedy y c)
               = m (endIndex x, clear_captures gs (captures x))
                   (fun y => if ((min =? 0) && (endIndex y =? endIndex x))%bool then None
                             else repeat_matcher fuel' m gs (pred min) (option_map pred max)
                                    greedy y c)).
  { apply Hm; [exact Hx|]. intros y Hxy Hy. cbn [endIndex fst] in Hxy.
    unfold in_input in Hx, Hy. unfold endIndex in *.
    destruct (min =? 0) eqn:Emin; cbn [andb].
    - apply Nat.eqb_eq in Emin. subst min.
      destruct (fst y =? fst x) eqn:E; [reflexivity|].
      apply Nat.eqb_neq in E. apply IH; [exact Hy | cbn; lia | cbn; lia].
    - apply Nat.eqb_neq in Emin. apply IH; [exact Hy | lia | lia]. }
  destruct max as [[|k]|]; [reflexivity | |]; rewrite Hd; reflexivity.
Qed.

Lemma compile_quant_fuel r min max greedy fuel x c :
  in_input input x ->
  min + List.length input < fuel ->
  repeat_matcher fuel (compile input icase r) (groups r) min max greedy x c
  = compile input icase (RQuant r min max greedy) x c.
Proof.
  intros Hx Hf. cbn [compile].
  apply repeat_matcher_fuel; [apply forward_compile | exact Hx | lia | lia].
Qed.

End Fuel.

End RepeatFacts.

(** ** The classifier *)

Module ClassifierFacts.

Import RegExp Model MessageModerator.

Lemma includes_any_iff (message : string) (ws : list string) :
  includes_any (JS.toLowerCase message) ws = true <->
  exists w, In w ws /\ Spec.contains_word message w.
Proof.
  unfold includes_any, Spec.contains_word. rewrite existsb_exists.
  split; intros (w & Hin & H); exists w; (split; [assumption|]);
    apply JSFacts.includes_iff; assumption.
Qed.

Lemma includes_any_none (message : string) (ws : list string) :
  (forall w, In w ws -> ~ Spec.contains_word message w) ->
  includes_any (JS.toLowerCase message) ws = false.
Proof.
  intros H. destruct (includes_any (JS.toLowerCase message) ws) eqn:E; [|reflexivity].
  apply includes_any_iff in E. destruct E as (w & Hin & Hw).
  exfalso. exact (H w Hin Hw).
Qed.

(** The loop over a table of patterns without the [g] flag returns as soon
    as one of them matches. *)
Lemma test_loop_hit ps i lis message :
  (forall p, In p ps -> global p = false) ->
  (exists p, In p ps /\ matches p message) ->
  fst (test_loop ps i lis message) = true.
Proof.
  revert i lis; induction ps as [|p ps IH]; intros i lis Hg (q & Hin & Hq).
  - destruct Hin.
  - cbn [test_loop].
    destruct (test p (nth i lis 0) message) as [hit li'] eqn:Ht.
    destruct hit; [reflexivity|].
    apply IH.
    + intros p' Hp'. apply Hg. right. assumption.
    + destruct Hin as [->|Hin]; [|exists q; split; assumption].
      exfalso.
      destruct (RegExpFacts.test_not_global q (nth i lis 0) message) as [_ Hiff].
      { apply Hg. left. reflexivity. }
      rewrite Ht in Hiff. apply Hiff in Hq. discriminate.
Qed.

(** The loop over any table of patterns falls through when none matches. *)
Lemma test_loop_miss ps i lis message :
  (forall p, In p ps -> ~ matches p message) ->
  fst (test_loop ps i lis message) = false.
Proof.
  revert i lis; induction ps as [|p ps IH]; intros i lis Hno; [reflexivity|].
  cbn [test_loop].
  rewrite (RegExpFacts.test_no_match p (nth i lis 0) message) by (apply Hno; left; reflexivity).
  apply IH. intros q Hq. apply Hno. right. assumption.
Qed.

Lemma harassment_not_global :
  forall p, In p HARASSMENT_PATTERNS -> global p = false.
Proof.
  intros p Hin. cbn in Hin.
  repeat (destruct Hin as [<-|Hin]; [reflexivity|]). destruct Hin.
Qed.

(** C1.  A text that contains a word of the severe lexicon, letter case
    aside, or that one of the harassment patterns matches, is classified
    auto-delete with severity high, from every state of the pattern tables
    and whatever else the text contains; the reason is profanity when a
    severe word occurs and harassment otherwise. *)
Theorem severe_or_harassment_is_auto_deleted :
  forall (st : PatternState) (message userId messageId : string),
    (exists w, In w PROFANITY_severe /\ Spec.contains_word message w) \/
    (exists p, In p HARASSMENT_PATTERNS /\ matches p message) ->
    let r := fst (moderateMessage st message userId messageId) in
    shouldFlag r = true /\ shouldDelete r = true /\ severity r = Some High /\
    ((exists w, In w PROFANITY_severe /\ Spec.contains_word message w) ->
     flagReason r = Some Profanity) /\
    (~ (exists w, In w PROFANITY_severe /\ Spec.contains_word message w) ->
     flagReason r = Some Harassment).
Proof.
  intros st message userId messageId H. unfold moderateMessage.
  destruct (includes_any (JS.toLowerCase message) PROFANITY_severe) eqn:Hsev.
  - cbn [fst shouldFlag shouldDelete severity flagReason].
    repeat split; try reflexivity.
    intros Hno. exfalso. apply Hno. apply includes_any_iff. assumption.
  - assert (Hnone : ~ exists w, In w PROFANITY_severe /\ Spec.contains_word message w).
    { intros Hex. apply includes_any_iff in Hex. congruence. }
    destruct H as [H|H]; [contradiction|].
    pose proof (test_loop_hit HARASSMENT_PATTERNS 0 (harassmentLastIndex st) message
                  harassment_not_global H) as Hhit.
    destruct (test_loop HARASSMENT_PATTERNS 0 (harassmentLastIndex st) message)
      as [harassed hli].
    cbn [fst] in Hhit. subst harassed.
    cbn [fst shouldFlag shouldDelete severity flagReason].
    repeat split; try reflexivity. intros Hex. contradiction.
Qed.

Lemma severe_or_harassment_is_auto_deleted_witness :
  let r := fst (moderateMessage initialPatternState "Nobody  LIKES you" "u-bob" "-m1") in
  shouldFlag r = true /\ shouldDelete r = true /\ severity r = Some High /\
  ((exists w, In w PROFANITY_severe /\ Spec.contains_word "Nobody  LIKES you" w) ->
   flagReason r = Some Profanity) /\
  (~ (exists w, In w PROFANITY_severe /\ Spec.contains_word "Nobody  LIKES you" w) ->
   flagReason r = Some Harassment).
Proof.
  apply (severe_or_harassment_is_auto_deleted initialPatternState "Nobody  LIKES you"
           "u-bob" "-m1").
  right. exists (nth 3 HARASSMENT_PATTERNS (pattern_i REmpty)).
  split.
  - cbn. right. right. right. left. reflexivity.
  - exists 0. split; [cbn; lia | vm_compute; discriminate].
Defined.

(** One return of the classifier: the fields of a literal result. *)
Ltac shape := cbn; repeat split; congruence.

(** C10.  The result has a consistent shape for every text and every state
    of the pattern tables: a deletion is always flagged, and the reason and
    the severity are present exactly when the text is flagged. *)
Theorem moderation_result_shape :
  forall (st : PatternState) (message userId messageId : string),
    let r := fst (moderateMessage st message userId messageId) in
    (shouldDelete r = true -> shouldFlag r = true) /\
    (flagReason r <> None <-> shouldFlag r = true) /\
    (severity r <> None <-> shouldFlag r = true) /\
    (shouldFlag r = false -> flagReason r = None /\ severity r = None).
Proof.
  intros st message userId messageId. unfold moderateMessage.
  destruct (includes_any _ PROFANITY_severe); [shape|].
  destruct (test_loop HARASSMENT_PATTERNS _ _ _) as [[|] hli]; [shape|].
  destruct (includes_any _ PROFANITY_moderate); [shape|].
  destruct (includes_any _ PROFANITY_mild); [shape|].
  cbn [spamLastIndex harassmentLastIndex].
  destruct (test_loop SPAM_PATTERNS _ _ _) as [[|] sli]; [shape|].
  destruct (800 <? String.length message); shape.
Qed.

(** What the code does for a text that triggers no rule: when no lexicon
    word occurs, no pattern of either table matches and the text has at
    most 800 characters, the text is allowed, from every state of the
    pattern tables. *)
Lemma no_rule_matches_allow :
  forall (st : PatternState) (message userId messageId : string),
    String.length message <= 800 ->
    (forall w, In w (PROFANITY_severe ++ PROFANITY_moderate ++ PROFANITY_mild) ->
               ~ Spec.contains_word message w) ->
    (forall p, In p HARASSMENT_PATTERNS -> ~ matches p message) ->
    (forall p, In p SPAM_PATTERNS -> ~ matches p message) ->
    fst (moderateMessage st message userId messageId) = mkResult false false None None.
Proof.
  intros st message userId messageId Hlen Hwords Hhar Hspam. unfold moderateMessage.
  rewrite includes_any_none
    by (intros w Hw; apply Hwords; apply in_or_app; left; assumption).
  pose proof (test_loop_miss HARASSMENT_PATTERNS 0 (harassmentLastIndex st) message Hhar) as H1.
  destruct (test_loop HARASSMENT_PATTERNS 0 (harassmentLastIndex st) message) as [harassed hli].
  cbn in H1. subst harassed.
  rewrite includes_any_none
    by (intros w Hw; apply Hwords; apply in_or_app; right; apply in_or_app; left; assumption).
  rewrite includes_any_none
    by (intros w Hw; apply Hwords; apply in_or_app; right; apply in_or_app; right; assumption).
  cbn [spamLastIndex harassmentLastIndex].
  pose proof (test_loop_miss SPAM_PATTERNS 0 (spamLastIndex st) message Hspam) as H2.
  destruct (test_loop SPAM_PATTERNS 0 (spamLastIndex st) message) as [spam sli].
  cbn in H2. subst spam.
  assert (Hl : (800 <? String.length message) = false) by (apply Nat.ltb_ge; lia).
  rewrite Hl. reflexivity.
Qed.

(** C3 at the text "good morning everyone".  The text has 21 characters,
    contains no word of the three lexicons, is matched by no harassment
    pattern, has no run of even three identical characters, is not in
    capitals (it has no capital letter at all), repeats no word, embeds no
    URL and has no digit: yet the second spam pattern, which carries the
    [i] flag, matches it, and the text is flagged as spam. *)
Theorem lower_case_line_is_flagged_as_spam :
  let message := "good morning everyone"%string in
  String.length message <= 800 /\
  includes_any (JS.toLowerCase message)
    (PROFANITY_severe ++ PROFANITY_moderate ++ PROFANITY_mild) = false /\
  forallb (fun p => negb (fst (test p 0 message))) HARASSMENT_PATTERNS = true /\
  Spec.longest_run message < 3 /\
  Spec.all_caps_line message = false /\
  existsb Spec.is_capital (list_ascii_of_string message) = false /\
  Spec.repeats_a_word message = false /\
  Spec.embeds_url message = false /\
  Spec.has_digit message = false /\
  map (fun p => fst (test p 0 message)) SPAM_PATTERNS
    = [false; true; false; false; false] /\
  fst (moderateMessage initialPatternState message "u-bob" "-m1")
    = mkResult true false (Some Spam) (Some Medium).
Proof.
  cbv zeta.
  split; [vm_compute; lia|].
  split; [vm_compute; reflexivity|].
  split; [vm_compute; reflexivity|].
  split; [vm_compute; lia|].
  repeat (split; [vm_compute; reflexivity|]).
  vm_compute; reflexivity.
Qed.


(** The verdict depends on the state of the pattern tables: the URL pattern
    carries the [g] flag, so a test that succeeds leaves its [lastIndex]
    at the end of the match, and the next test of the same text starts
    there.  The same message is flagged the first time and allowed the
    second. *)
Lemma url_is_flagged_every_other_time :
  let message := "see http://example.com"%string in
  let first := moderateMessage initialPatternState message "u-bob" "-m1" in
  let second := moderateMessage (snd first) message "u-bob" "-m1" in
  fst first = mkResult true false (Some Spam) (Some Medium) /\
  nth 3 (spamLastIndex (snd first)) 0 = 22 /\
  fst second = mkResult false false None None /\
  nth 3 (spamLastIndex (snd second)) 0 = 0.
Proof. cbv zeta. repeat split; vm_compute; reflexivity. Qed.

End ClassifierFacts.

(** ** The record store *)

Module StoreFacts.

Import Store.

Lemma read_replace_same {A} (n : Node A) key g :
  read (replace n key g) key = option_map g (read n key).
Proof.
  induction n as [|[k v] n IH]; cbn; [reflexivity|].
  destruct (String.eqb k key) eqn:E; cbn; rewrite E; [reflexivity | exact IH].
Qed.

Lemma read_insert_same {A} (n : Node A) key v :
  read n key = None -> read (insert n key v) key = Some v.
Proof.
  induction n as [|[k v'] n IH]; cbn.
  - intros _. rewrite String.eqb_refl. reflexivity.
  - destruct (String.eqb k key) eqn:E; [discriminate|]. intros H.
    destruct (String.ltb key k); cbn.
    + rewrite String.eqb_refl. reflexivity.
    + rewrite E. exact (IH H).
Qed.

(** A read after a write sees the written value. *)
Lemma read_write_same {A} (n : Node A) key f :
  read (write n key f) key = Some (f (read n key)).
Proof.
  unfold write. destruct (read n key) as [v|] eqn:E.
  - rewrite read_replace_same, E. reflexivity.
  - apply read_insert_same. exact E.
Qed.

(** A read after a remove is absent. *)
Lemma read_remove_same {A} (n : Node A) key :
  read (remove n key) key = None.
Proof.
  induction n as [|[k v] n IH]; cbn; [reflexivity|].
  destruct (String.eqb k key) eqn:E; cbn; [exact IH | rewrite E; exact IH].
Qed.

Lemma read_remove_other {A} (n : Node A) key key' :
  key' <> key -> read (remove n key) key' = read n key'.
Proof.
  intros Hne. induction n as [|[k v] n IH]; cbn; [reflexivity|].
  destruct (String.eqb k key) eqn:E; cbn.
  - apply String.eqb_eq in E. subst k.
    destruct (String.eqb key key') eqn:E'; [|exact IH].
    apply String.eqb_eq in E'. congruence.
  - rewrite IH. reflexivity.
Qed.

Lemma count_insert {A} (P : A -> bool) (n : Node A) key v :
  count P (insert n key v) = count P n + (if P v then 1 else 0).
Proof.
  unfold count, values. induction n as [|[k v'] n IH]; cbn.
  - destruct (P v); reflexivity.
  - destruct (String.ltb key k); cbn.
    + destruct (P v), (P v'); cbn; lia.
    + destruct (P v'); cbn; rewrite IH; lia.
Qed.

Lemma count_replace_le {A} (P : A -> bool) (n : Node A) key g :
  (forall v, P (g v) = false) ->
  count P (replace n key g) <= count P n.
Proof.
  intros Hg. unfold count, values. induction n as [|[k v] n IH]; cbn; [lia|].
  destruct (String.eqb k key); cbn.
  - rewrite Hg. destruct (P v); cbn; lia.
  - destruct (P v); cbn; lia.
Qed.

Lemma count_write_le {A} (P : A -> bool) (n : Node A) key f :
  (forall o, P (f o) = false) ->
  count P (write n key f) <= count P n.
Proof.
  intros Hf. unfold write. destruct (read n key).
  - apply count_replace_le. intros v. apply Hf.
  - rewrite count_insert, Hf. lia.
Qed.

Lemma count_write_new {A} (P : A -> bool) (n : Node A) key f :
  read n key = None ->
  count P (write n key f) = count P n + (if P (f None) then 1 else 0).
Proof.
  intros Hnone. unfold write. rewrite Hnone. apply count_insert.
Qed.

End StoreFacts.

(** ** The flag store *)

Module FlagStoreFacts.

Import Model MessageModerator Examples.

(** C6.  When a flag record exists for the message id, a review with the
    action [Deleted] succeeds, leaves a flag record with [reviewed] true
    and the reviewer, the time and the action stamped on it (the
    properties of the flag itself unchanged), and a read of
    [messages/{id}] afterwards is absent. *)
Theorem review_deleted_removes_message :
  forall (db : Database) (now : Z) (messageId reviewerId : string)
         (flag : FlaggedNode.t),
    Store.read (flaggedMessages db) messageId = Some flag ->
    let result := reviewFlaggedMessage db now messageId reviewerId Deleted in
    fst result = true /\
    (exists reviewedFlag,
        Store.read (flaggedMessages (snd result)) messageId = Some reviewedFlag /\
        FlaggedNode.reviewed reviewedFlag = Some true /\
        FlaggedNode.reviewedBy reviewedFlag = Some reviewerId /\
        FlaggedNode.reviewedAt reviewedFlag = Some now /\
        FlaggedNode.action reviewedFlag = Some Deleted /\
        FlaggedNode.flagReason reviewedFlag = FlaggedNode.flagReason flag /\
        FlaggedNode.severity reviewedFlag = FlaggedNode.severity flag /\
        FlaggedNode.text reviewedFlag = FlaggedNode.text flag /\
        FlaggedNode.userId reviewedFlag = FlaggedNode.userId flag) /\
    Store.read (messages (snd result)) messageId = None.
Proof.
  intros db now messageId reviewerId flag Hflag. cbv zeta.
  unfold reviewFlaggedMessage, deleteMessage.
  cbn [ReviewAction_eqb fst snd set_messages set_flaggedMessages
       messages flaggedMessages].
  split; [reflexivity|]. split.
  - rewrite StoreFacts.read_write_same, Hflag.
    eexists. split; [reflexivity|]. cbn. repeat split; reflexivity.
  - apply StoreFacts.read_remove_same.
Qed.

Lemma review_deleted_removes_message_witness :
  Store.read (messages flagged_store) "-m1" <> None /\
  Store.read
    (messages (snd (reviewFlaggedMessage flagged_store 7000 "-m1" "u-admin" Deleted)))
    "-m1" = None.
Proof.
  split; [vm_compute; discriminate|].
  refine (proj2 (proj2 (review_deleted_removes_message flagged_store 7000
                          "-m1" "u-admin" _ _))).
  vm_compute. reflexivity.
Defined.

(** Any other action leaves the message in place. *)
Lemma review_kept_message :
  forall db now messageId reviewerId action,
    action <> Deleted ->
    messages (snd (reviewFlaggedMessage db now messageId reviewerId action))
    = messages db.
Proof.
  intros db now messageId reviewerId action Hne. unfold reviewFlaggedMessage.
  destruct action; cbn; congruence.
Qed.

Lemma filter_split_length {A} (p : A -> bool) (l : list A) :
  List.length (filter (fun x => negb (p x)) l) + List.length (filter p l)
  = List.length l.
Proof.
  induction l as [|x l IH]; cbn; [reflexivity|].
  destruct (p x); cbn; lia.
Qed.

Lemma severity_split_length (l : list FlaggedMessage.t) :
  List.length (filter (fun msg => Severity_eqb (FlaggedMessage.severity msg) Low) l)
  + List.length (filter (fun msg => Severity_eqb (FlaggedMessage.severity msg) Medium) l)
  + List.length (filter (fun msg => Severity_eqb (FlaggedMessage.severity msg) High) l)
  = List.length l.
Proof.
  induction l as [|x l IH]; cbn; [reflexivity|].
  destruct (FlaggedMessage.severity x); cbn; lia.
Qed.

(** C7.  For every list of flagged messages, [total] is the length of the
    list, [unreviewed] and the number of reviewed messages add up to
    [total], and the three [bySeverity] counts add up to [unreviewed]. *)
Theorem stats_counts_add_up :
  forall flaggedMessages : list FlaggedMessage.t,
    let stats := getFlaggedMessagesStats flaggedMessages in
    total stats = List.length flaggedMessages /\
    unreviewed stats
      + List.length (filter (fun msg => FlaggedMessage.reviewed msg) flaggedMessages)
      = total stats /\
    low (bySeverity stats) + medium (bySeverity stats) + high (bySeverity stats)
      = unreviewed stats.
Proof.
  intros l. unfold getFlaggedMessagesStats. cbn.
  split; [reflexivity|]. split.
  - apply (filter_split_length (fun msg => FlaggedMessage.reviewed msg)).
  - apply severity_split_length.
Qed.

End FlagStoreFacts.

(** ** The ban operations *)

Module BanFacts.

Import Model UserManager BanSpec.

Lemma active_bans_count db userId :
  List.length (active_bans db userId)
  = Store.count (is_active_ban_of userId) (bans db).
Proof. reflexivity. Qed.

(** A call of [banUser] fails and leaves the store as it is, or writes an
    active record of the user under the new key. *)
Lemma bans_after_banUser db banId now userId bannedBy reason type duration :
  (fst (banUser db banId now userId bannedBy reason type duration) = false /\
   snd (banUser db banId now userId bannedBy reason type duration) = db) \/
  (fst (banUser db banId now userId bannedBy reason type duration) = true /\
   exists banRecord,
     BanRecord.userId banRecord = userId /\
     BanRecord.isActive banRecord = true /\
     bans (snd (banUser db banId now userId bannedBy reason type duration))
     = Store.write (bans db) banId (fun old => put_ban old banRecord)).
Proof.
  unfold banUser.
  destruct type, duration as [d|]; try (left; split; reflexivity).
  destruct (Z.eqb d 0); [left; split; reflexivity|].
  right. split; [reflexivity|].
  eexists. split; [|split]; [| |reflexivity]; reflexivity.
Qed.

(** [banUser] succeeds exactly for a temporary ban with a duration other
    than zero. *)
Lemma banUser_succeeds_iff db banId now userId bannedBy reason type duration :
  fst (banUser db banId now userId bannedBy reason type duration) = true
  <-> type = Temporary /\ exists d, duration = Some d /\ d <> 0%Z.
Proof.
  unfold banUser. destruct type, duration as [d|]; cbn.
  - destruct (Z.eqb_spec d 0) as [->|Hd]; cbn.
    + split; [discriminate|]. intros [_ (d & [= <-] & H)]. contradiction.
    + split; [|reflexivity]. intros _. split; [reflexivity|]. exists d. auto.
  - split; [discriminate|]. intros [_ (d & H & _)]. discriminate.
  - split; [discriminate|]. intros [H _]. discriminate.
  - split; [discriminate|]. intros [H _]. discriminate.
Qed.

Lemma revoke_not_active u b revokedBy now revokeReason :
  is_active_ban_of u (revoke b revokedBy now revokeReason) = false.
Proof. unfold is_active_ban_of, revoke. cbn. apply andb_false_r. Qed.

Lemma unbanUser_preserves db now userId revokedBy revokeReason :
  at_most_one_active db ->
  at_most_one_active (snd (unbanUser db now userId revokedBy revokeReason)).
Proof.
  intros Hinv u. unfold unbanUser.
  destruct (find _ _) as [[banId banData]|]; [|apply Hinv].
  rewrite active_bans_count. cbn [snd logActivity set_userActivity set_users set_bans bans].
  eapply Nat.le_trans; [|apply (Hinv u)].
  rewrite active_bans_count. apply StoreFacts.count_write_le.
  intros o. apply revoke_not_active.
Qed.

Lemma banUser_preserves db banId now userId bannedBy reason type duration :
  at_most_one_active db ->
  Store.read (bans db) banId = None ->
  active_bans db userId = [] ->
  at_most_one_active (snd (banUser db banId now userId bannedBy reason type duration)).
Proof.
  intros Hinv Hfresh Hnone u.
  destruct (bans_after_banUser db banId now userId bannedBy reason type duration)
    as [[_ Hsame]|[_ (b & Hu & Ha & Hb)]]; [rewrite Hsame; apply Hinv|].
  rewrite active_bans_count, Hb, StoreFacts.count_write_new by assumption.
  cbn [put_ban]. unfold is_active_ban_of at 2. rewrite Hu, Ha, andb_true_r.
  destruct (String.eqb userId u) eqn:E.
  - apply String.eqb_eq in E. subst u.
    rewrite <- active_bans_count, Hnone. cbn. lia.
  - specialize (Hinv u). rewrite active_bans_count in Hinv. lia.
Qed.

Lemma empty_at_most_one_active : at_most_one_active emptyDatabase.
Proof. intros u. cbn. lia. Qed.

Lemma guarded_step_preserves db db' :
  guarded_step db db' -> at_most_one_active db -> at_most_one_active db'.
Proof.
  intros Hstep Hinv. destruct Hstep.
  - apply banUser_preserves; assumption.
  - apply unbanUser_preserves; assumption.
Qed.

(** C5, as the code has it.  Every store state reached from the empty
    store by calls to [unbanUser] and by calls to [banUser] for a user
    without an active ban has at most one active ban per user; and from
    any store with that property, [unbanUser] always leads to such a
    store, and so does [banUser] with an unused key for a user who has no
    active ban. *)
Theorem guarded_ban_operations_keep_one_active_ban :
  forall db : Database,
    (guarded_reachable db -> at_most_one_active db) /\
    (at_most_one_active db ->
     (forall now userId revokedBy revokeReason,
         at_most_one_active (snd (unbanUser db now userId revokedBy revokeReason))) /\
     (forall banId now userId bannedBy reason type duration,
         Store.read (bans db) banId = None ->
         active_bans db userId = [] ->
         at_most_one_active
           (snd (banUser db banId now userId bannedBy reason type duration)))).
Proof.
  intros db. split.
  - induction 1 as [|db db' _ IH Hstep].
    + apply empty_at_most_one_active.
    + exact (guarded_step_preserves db db' Hstep IH).
  - intros Hinv. split.
    + intros. apply unbanUser_preserves. assumption.
    + intros. apply banUser_preserves; assumption.
Qed.

Lemma guarded_ban_operations_keep_one_active_ban_witness :
  fst (banUser emptyDatabase "-ban1" 1000 "alice" "admin" "spam" Temporary (Some 24%Z))
  = true /\
  guarded_reachable banned_once /\
  List.length (active_bans banned_once "alice") <= 1 /\
  List.length
    (active_bans (snd (unbanUser banned_once 3000 "alice" "admin" "appeal")) "alice")
  <= 1.
Proof.
  assert (Hreach : guarded_reachable banned_once).
  { unfold banned_once. apply greach_step with (db := emptyDatabase).
    - apply greach_empty.
    - apply guarded_banUser; reflexivity. }
  pose proof (proj1 (guarded_ban_operations_keep_one_active_ban banned_once) Hreach)
    as Honce.
  split; [reflexivity|]. split; [exact Hreach|]. split; [apply Honce|].
  apply (proj1 (proj2 (guarded_ban_operations_keep_one_active_ban banned_once) Honce)).
Defined.

(** C5, as stated, fails: banning a user for a day and then for a week
    is a run of the ban operations in which both calls succeed, and it
    leaves the user with two active bans. *)
Lemma second_ban_breaks_one_active_ban :
  fst (banUser emptyDatabase "-ban1" 1000 "alice" "admin" "spam" Temporary (Some 24%Z))
  = true /\
  fst (banUser banned_once "-ban2" 2000 "alice" "admin" "spam" Temporary (Some 168%Z))
  = true /\
  reachable banned_twice /\ ~ at_most_one_active banned_twice.
Proof.
  split; [reflexivity|]. split; [reflexivity|].
  split.
  - unfold banned_twice.
    apply reach_step with (db := banned_once).
    + unfold banned_once. apply reach_step with (db := emptyDatabase).
      * apply reach_empty.
      * apply step_banUser. reflexivity.
    + apply step_banUser. vm_compute. reflexivity.
  - intros H. specialize (H "alice"%string). vm_compute in H. lia.
Qed.

(** After the two bans one [unbanUser] succeeds and still leaves an
    active ban, with the user's status set to active. *)
Lemma unban_after_second_ban_leaves_one :
  let result := unbanUser banned_twice 3000 "alice" "admin" "appeal" in
  fst result = true /\
  List.length (active_bans (snd result) "alice") = 1 /\
  option_map UserProfile.status (Store.read (users (snd result)) "alice")
  = Some (Some Active).
Proof. vm_compute. repeat split; reflexivity. Qed.

End BanFacts.

(** ** Numbers *)

Module NumberFacts.

Import Number.
Open Scope float_scope.

Lemma SFcompare_refl f : f <> S754_nan -> SFcompare f f = Some Eq.
Proof.
  destruct f as [s|s| |s m e]; cbn; intros H; try congruence.
  - destruct s; reflexivity.
  - rewrite Z.compare_refl.
    change (PosDef.Pos.compare_cont Eq m m) with (Pos.compare m m).
    rewrite Pos.compare_refl. destruct s; reflexivity.
Qed.

Lemma SFltb_leb_trans a b c :
  SFltb a b = true -> SFleb b c = true -> SFltb a c = true.
Proof.
  unfold SFltb, SFleb.
  destruct a as [sa|sa| |sa ma ea], b as [sb|sb| |sb mb eb], c as [sc|sc| |sc mc ec];
    cbn; try discriminate; try reflexivity;
    repeat match goal with s : bool |- _ => destruct s end; cbn;
    try discriminate; try reflexivity.
  all: change PosDef.Pos.compare_cont with Pos.compare_cont.
  all: fold (Pos.compare ma mb); fold (Pos.compare mb mc); fold (Pos.compare ma mc).
  all: destruct (Z.compare_spec ea eb), (Z.compare_spec eb ec), (Z.compare_spec ea ec);
    subst; try lia; cbn; try discriminate; try reflexivity.
  all: destruct (Pos.compare_spec ma mb), (Pos.compare_spec mb mc),
         (Pos.compare_spec ma mc);
    subst; try lia; cbn; try discriminate; try reflexivity.
Qed.

(** [<] and [<=] on numbers compose. *)
Lemma ltb_leb_trans (a b c : float) :
  (a <? b) = true -> (b <=? c) = true -> (a <? c) = true.
Proof. rewrite !ltb_spec, leb_spec. apply SFltb_leb_trans. Qed.

(** A number that compares is not NaN. *)
Lemma ltb_not_nan_r (a x : float) : (a <? x) = true -> PrimFloat.is_nan x = false.
Proof.
  unfold PrimFloat.is_nan. rewrite ltb_spec, eqb_spec. unfold SFltb, SFeqb.
  intros H. rewrite SFcompare_refl; [reflexivity|].
  intros E. rewrite E in H. destruct (Prim2SF a); discriminate.
Qed.

Lemma ltb_not_nan_l (x a : float) : (x <? a) = true -> PrimFloat.is_nan x = false.
Proof.
  unfold PrimFloat.is_nan. rewrite ltb_spec, eqb_spec. unfold SFltb, SFeqb.
  intros H. rewrite SFcompare_refl; [reflexivity|].
  intros E. rewrite E in H. discriminate.
Qed.

(** A number above a non-negative one is not zero. *)
Lemma above_nonneg_nonzero (c x : float) :
  (0 <=? c) = true -> (c <? x) = true -> (x =? 0) = false.
Proof.
  rewrite leb_spec, ltb_spec, eqb_spec.
  change (Prim2SF 0) with (S754_zero false).
  unfold SFleb, SFltb, SFeqb.
  destruct (Prim2SF c) as [sc|sc| |sc mc ec], (Prim2SF x) as [sx|sx| |sx mx ex];
    cbn; try discriminate; try reflexivity;
    repeat match goal with s : bool |- _ => destruct s end; cbn;
    try discriminate; try reflexivity.
Qed.

(** [x && x > c] is [x > c] for a non-negative [c]. *)
Lemma guarded_above (c : float) (x : option float) :
  (0 <=? c) = true ->
  guarded x (fun v => c <? v) = RiskSpec.present_and x (fun v => c <? v).
Proof.
  intros Hc. destruct x as [v|]; [|reflexivity]. cbn. unfold truthy.
  destruct (c <? v) eqn:E; [|apply andb_false_r].
  rewrite (above_nonneg_nonzero c v Hc E), (ltb_not_nan_r c v E). reflexivity.
Qed.

(** [x && x < c] is [x != 0 && x < c]. *)
Lemma guarded_below (c : float) (x : option float) :
  guarded x (fun v => v <? c)
  = RiskSpec.present_and x (fun v => RiskSpec.nonzero v && (v <? c))%bool.
Proof.
  destruct x as [v|]; [|reflexivity]. cbn. unfold truthy, RiskSpec.nonzero.
  destruct (v <? c) eqn:E; [|rewrite !andb_false_r; reflexivity].
  rewrite (ltb_not_nan_l v c E). cbn. rewrite !andb_true_r. reflexivity.
Qed.

Lemma range_In (n : nat) (z : Z) : (0 <= z <= Z.of_nat n)%Z -> In z (range n).
Proof.
  induction n as [|n IH]; intros Hz.
  - left. lia.
  - cbn [range]. apply in_or_app.
    destruct (Z.eq_dec z (Z.of_nat (S n))) as [->|Hne].
    + right. left. reflexivity.
    + left. apply IH. lia.
Qed.

(** The numbers of the integers from 0 to 100 are ordered as the integers
    are. *)
Lemma of_Z_leb (a b : Z) :
  (0 <= a <= b)%Z -> (b <= 100)%Z -> (of_Z a <=? of_Z b) = true.
Proof.
  intros Ha Hb.
  assert (Hall : forallb (fun x => forallb (fun y =>
                   implb (Z.leb x y) (of_Z x <=? of_Z y)) (range 100)) (range 100) = true)
    by (vm_compute; reflexivity).
  rewrite forallb_forall in Hall.
  specialize (Hall a (range_In 100 a ltac:(lia))).
  rewrite forallb_forall in Hall.
  specialize (Hall b (range_In 100 b ltac:(lia))).
  assert (Hle : Z.leb a b = true) by (apply Z.leb_le; lia).
  rewrite Hle in Hall. exact Hall.
Qed.

End NumberFacts.

(** ** The risk score *)

Module RiskFacts.

Import Model Number AnalyticsManager RiskSpec.
Open Scope float_scope.

Lemma accumulate_weighted (s : Signals) :
  accumulate s = of_Z (weighted_score s).
Proof.
  destruct s as [[] [] [] [] []]; vm_compute; reflexivity.
Qed.

Lemma weighted_score_range (s : Signals) : (0 <= weighted_score s <= 100)%Z.
Proof.
  destruct s as [[] [] [] [] []]; vm_compute; split; discriminate.
Qed.

Lemma weighted_score_mono (s s' : Signals) :
  signals_le s s' -> (weighted_score s <= weighted_score s')%Z.
Proof.
  intros (H1 & H2 & H3 & H4 & H5). unfold weighted_score, weight.
  apply Z.min_le_compat_r.
  destruct s as [a1 a2 a3 a4 a5], s' as [b1 b2 b3 b4 b5]; cbn in *.
  assert (G : forall a b w, (a = true -> b = true) -> (0 <= w)%Z ->
                            ((if a then w else 0) <= (if b then w else 0))%Z).
  { intros a b w H Hw. destruct a, b; try lia; discriminate (H eq_refl). }
  pose proof (G a1 b1 20%Z H1 ltac:(lia)).
  pose proof (G a2 b2 30%Z H2 ltac:(lia)).
  pose proof (G a3 b3 25%Z H3 ltac:(lia)).
  pose proof (G a4 b4 15%Z H4 ltac:(lia)).
  pose proof (G a5 b5 10%Z H5 ltac:(lia)).
  lia.
Qed.

Lemma sentiment_signal (m : Partial.t) :
  ((match Partial.sentimentTrend m with
    | Some trend =>
        if (0 <? List.length trend)%nat then trend_average trend else 0
    | None => 0
    end) <? -0.5) = negative_sentiment m.
Proof.
  unfold negative_sentiment.
  destruct (Partial.sentimentTrend m) as [[|p trend]|]; reflexivity.
Qed.

(** The score is the capped sum of the weights of the code's signals. *)
Lemma calculateRiskScore_weighted (m : Partial.t) :
  calculateRiskScore m = of_Z (weighted_score (code_signals m)).
Proof.
  rewrite <- accumulate_weighted. unfold calculateRiskScore, accumulate, code_signals.
  cbn [frequent flagged negative fast terse].
  rewrite !NumberFacts.guarded_above by reflexivity.
  rewrite !NumberFacts.guarded_below.
  rewrite sentiment_signal. reflexivity.
Qed.

(** C2, as the code has it.  For every partial metrics record the score
    is the sum of the weights of the triggered signals, capped at 100:
    +20 when messagesPerHour > 10, +30 when flaggedMessageRatio > 0.1, +25
    when the average weekly sentiment is below -0.5, +15 when the average
    response time is not zero and below 5000, +10 when the average message
    length is not zero and below 10; an absent property contributes 0.  No
    weight is negative, and the five add up to 100, so the cap never
    cuts. *)
Theorem risk_score_is_weighted_sum :
  forall m : Partial.t,
    let frequent := present_and (Partial.messagesPerHour m) (fun x => 10 <? x) in
    let flagged := present_and (Partial.flaggedMessageRatio m) (fun x => one_tenth <? x) in
    let negative := negative_sentiment m in
    let fast := present_and (Partial.responseTimeAvg m)
                  (fun x => nonzero x && (x <? 5000))%bool in
    let terse := present_and (Partial.averageMessageLength m)
                   (fun x => nonzero x && (x <? 10))%bool in
    let sum := (weight frequent 20 + weight flagged 30 + weight negative 25
                + weight fast 15 + weight terse 10)%Z in
    calculateRiskScore m = of_Z (Z.min sum 100) /\
    (0 <= sum <= 100)%Z /\
    calculateRiskScore m = of_Z sum.
Proof.
  intros m frequent flagged negative fast terse sum.
  assert (Hsum : (0 <= sum <= 100)%Z).
  { unfold sum, weight. destruct frequent, flagged, negative, fast, terse; lia. }
  assert (Hscore : calculateRiskScore m = of_Z (Z.min sum 100)).
  { change (Z.min sum 100)
      with (weighted_score (mkSignals frequent flagged negative fast terse)).
    rewrite <- accumulate_weighted. unfold calculateRiskScore, accumulate.
    cbn [RiskSpec.frequent RiskSpec.flagged RiskSpec.negative RiskSpec.fast
         RiskSpec.terse].
    rewrite !NumberFacts.guarded_above by reflexivity.
    rewrite !NumberFacts.guarded_below.
    rewrite sentiment_signal. reflexivity. }
  split; [exact Hscore|]. split; [exact Hsum|].
  rewrite Hscore, Z.min_l by lia. reflexivity.
Qed.

(** Where the claim's wording and the code agree: records whose response
    time and message length are absent or not zero. *)
Lemma risk_score_is_claimed_score :
  forall m : Partial.t,
    present_and (Partial.responseTimeAvg m) (fun x => x =? 0) = false ->
    present_and (Partial.averageMessageLength m) (fun x => x =? 0) = false ->
    calculateRiskScore m = of_Z (claimed_score m).
Proof.
  intros m Hr Hl. rewrite calculateRiskScore_weighted.
  unfold claimed_score, code_signals, claimed_signals, nonzero.
  destruct (Partial.responseTimeAvg m) as [r|], (Partial.averageMessageLength m) as [l|];
    cbn in *; rewrite ?Hr, ?Hl; reflexivity.
Qed.

(** C2, as stated, fails: a response time of zero is below 5000 ms, and
    the code adds nothing for it. *)
Lemma zero_response_time_scores_nothing :
  claimed_score no_replies = 15%Z /\
  calculateRiskScore no_replies = 0 /\
  (calculateRiskScore no_replies =? of_Z (claimed_score no_replies)) = false.
Proof. repeat split; vm_compute; reflexivity. Qed.

Lemma signals_le_messagesPerHour (m : Partial.t) (x y : float) :
  (x <=? y) = true ->
  signals_le (code_signals (with_messagesPerHour (Some x) m))
             (code_signals (with_messagesPerHour (Some y) m)).
Proof.
  intros Hxy. unfold signals_le, code_signals. cbn.
  repeat split; try (intros H; exact H).
  intros H. exact (NumberFacts.ltb_leb_trans _ _ _ H Hxy).
Qed.

Lemma signals_le_flaggedMessageRatio (m : Partial.t) (x y : float) :
  (x <=? y) = true ->
  signals_le (code_signals (with_flaggedMessageRatio (Some x) m))
             (code_signals (with_flaggedMessageRatio (Some y) m)).
Proof.
  intros Hxy. unfold signals_le, code_signals. cbn.
  repeat split; try (intros H; exact H).
  intros H. exact (NumberFacts.ltb_leb_trans _ _ _ H Hxy).
Qed.

Lemma risk_score_mono (m m' : Partial.t) :
  signals_le (code_signals m) (code_signals m') ->
  (calculateRiskScore m <=? calculateRiskScore m') = true.
Proof.
  intros H. rewrite !calculateRiskScore_weighted.
  pose proof (weighted_score_range (code_signals m)).
  pose proof (weighted_score_range (code_signals m')).
  pose proof (weighted_score_mono _ _ H).
  apply NumberFacts.of_Z_leb; lia.
Qed.

(** C4.  The score always lies in [0,100], and it is non-decreasing in
    each signal with the others held fixed: a record whose triggered
    signals include those of another scores at least as much.  The
    signals are the five conditions of [code_signals].  In the two
    measurements whose signal triggers on high values, messagesPerHour
    and flaggedMessageRatio, the score is non-decreasing too. *)
Theorem risk_score_range_and_monotonicity :
  forall m : Partial.t,
    ((0 <=? calculateRiskScore m) && (calculateRiskScore m <=? 100))%bool = true /\
    (forall m' : Partial.t,
        signals_le (code_signals m) (code_signals m') ->
        (calculateRiskScore m <=? calculateRiskScore m') = true) /\
    (forall x y : float,
        (x <=? y) = true ->
        (calculateRiskScore (with_messagesPerHour (Some x) m)
         <=? calculateRiskScore (with_messagesPerHour (Some y) m)) = true) /\
    (forall x y : float,
        (x <=? y) = true ->
        (calculateRiskScore (with_flaggedMessageRatio (Some x) m)
         <=? calculateRiskScore (with_flaggedMessageRatio (Some y) m)) = true).
Proof.
  intros m. split; [|split; [|split]].
  - rewrite calculateRiskScore_weighted.
    pose proof (weighted_score_range (code_signals m)) as Hr.
    apply andb_true_intro. split.
    + change 0 with (of_Z 0). apply NumberFacts.of_Z_leb; lia.
    + change 100 with (of_Z 100). apply NumberFacts.of_Z_leb; lia.
  - intros m'. apply risk_score_mono.
  - intros x y Hxy. apply risk_score_mono, signals_le_messagesPerHour, Hxy.
  - intros x y Hxy. apply risk_score_mono, signals_le_flaggedMessageRatio, Hxy.
Qed.

Lemma risk_score_range_and_monotonicity_witness :
  signals_le (code_signals slow_replies) (code_signals quick_replies) /\
  (calculateRiskScore slow_replies <=? calculateRiskScore quick_replies) = true.
Proof.
  assert (H : signals_le (code_signals slow_replies) (code_signals quick_replies))
    by (vm_compute; repeat split; intros E; try exact E; reflexivity).
  split; [exact H|].
  exact (proj1 (proj2 (risk_score_range_and_monotonicity slow_replies)) quick_replies H).
Defined.

(** The signal of the response time is the condition "below 5000 ms": it
    is off at 6000 ms, which scores 0, and on at 4000 ms, which scores
    15. *)
Lemma response_time_signal_scores :
  fast (code_signals slow_replies) = false /\
  fast (code_signals quick_replies) = true /\
  calculateRiskScore slow_replies = 0 /\
  calculateRiskScore quick_replies = 15.
Proof. repeat split; vm_compute; reflexivity. Qed.

End RiskFacts.

(** ** The behaviour analyzer and the moderation rates *)

Module AnalyticsFacts.

Import Model Number AnalyticsManager RiskSpec Examples.
Open Scope float_scope.

Lemma filter_none {A} (p : A -> bool) (l : list A) :
  (forall x, In x l -> p x = false) -> filter p l = [].
Proof.
  induction l as [|x l IH]; intros H; cbn; [reflexivity|].
  rewrite (H x) by (left; reflexivity).
  apply IH. intros y Hy. apply H. right. assumption.
Qed.

(** C8.  When the user has a stored profile and none of the user's
    messages lies in the analysis window, the analyzer returns a record
    (it does not fail): the profile's identity, zero for every count,
    average and ratio, empty lists for the peak hours, the sentiment trend
    and the keywords, and a risk score of 0. *)
Theorem empty_window_gives_zeroed_metrics :
  forall (cal : Calendar) (db : Database) (now : Z) (uid : string) (days : Z)
         (user : UserProfile.t),
    Store.read (users db) uid = Some user ->
    (forall msg, In msg (Store.values (messages db)) ->
                 Message.userId msg = uid ->
                 in_window now days (Message.timestamp msg) = false) ->
    analyzeUserBehavior cal db now uid days
    = Some {| userId := uid;
              email := UserProfile.email user;
              displayName := UserProfile.displayName user;
              totalMessages := 0;
              averageMessageLength := 0;
              averageWordsPerMessage := 0;
              messagesPerHour := 0;
              peakActivityHours := [];
              sentimentTrend := [];
              flaggedMessageRatio := 0;
              responseTimeAvg := 0;
              topKeywords := [];
              riskScore := 0;
              lastActivity :=
                match UserProfile.lastActive user with Some t => t | None => 0%Z end |}.
Proof.
  intros cal db now uid days user Huser Hempty.
  unfold analyzeUserBehavior. rewrite Huser.
  assert (Hmsgs : userMessagesOf db now uid days = []).
  { unfold userMessagesOf. rewrite filter_none; [reflexivity|].
    intros msg Hin. destruct (String.eqb (Message.userId msg) uid) eqn:E; [|reflexivity].
    apply String.eqb_eq in E. cbn. apply Hempty; assumption. }
  rewrite Hmsgs. reflexivity.
Qed.

Lemma empty_window_gives_zeroed_metrics_witness :
  option_map riskScore
    (analyzeUserBehavior utc quiet_store (1000 + 40 * day_ms) "u-alice" 30) = Some 0 /\
  option_map totalMessages
    (analyzeUserBehavior utc quiet_store (1000 + 40 * day_ms) "u-alice" 30) = Some 0%nat.
Proof.
  rewrite (empty_window_gives_zeroed_metrics utc quiet_store (1000 + 40 * day_ms)
             "u-alice" 30 alice_profile).
  - split; reflexivity.
  - reflexivity.
  - intros msg [<-|[]] _. vm_compute. reflexivity.
Defined.

(** The scorer agrees with the literal 0 of the zeroed record. *)
Lemma zeroed_record_scores_zero (uid : string) (user : UserProfile.t) :
  calculateRiskScore (as_partial (zeroed uid user)) = 0.
Proof. vm_compute. reflexivity. Qed.

(** Without a stored profile the analyzer returns null. *)
Lemma no_profile_gives_null cal db now uid days :
  Store.read (users db) uid = None ->
  analyzeUserBehavior cal db now uid days = None.
Proof. intros H. unfold analyzeUserBehavior. rewrite H. reflexivity. Qed.

Lemma actions_le_length (flags : list FlaggedNode.t) :
  (List.length (filter (has_action Deleted) flags)
   + List.length (filter (has_action Approved) flags) <= List.length flags)%nat.
Proof.
  induction flags as [|f flags IH]; [cbn; lia|].
  cbn [filter].
  destruct (has_action Deleted f) eqn:Hd, (has_action Approved f) eqn:Ha;
    cbn [List.length]; try lia.
  unfold has_action in Hd, Ha. destruct (FlaggedNode.action f) as [[]|]; discriminate.
Qed.

Lemma actions_eq_length (flags : list FlaggedNode.t) :
  (List.length (filter (has_action Deleted) flags)
   + List.length (filter (has_action Approved) flags) = List.length flags)%nat
  <-> forall flag, In flag flags ->
                   (has_action Deleted flag || has_action Approved flag)%bool = true.
Proof.
  induction flags as [|f flags IH].
  - split; [intros _ flag [] | reflexivity].
  - pose proof (actions_le_length flags) as Hle.
    cbn [filter In].
    destruct (has_action Deleted f) eqn:Hd, (has_action Approved f) eqn:Ha;
      cbn [List.length].
    + unfold has_action in Hd, Ha. destruct (FlaggedNode.action f) as [[]|]; discriminate.
    + split.
      * intros H flag [<-|Hin]; [rewrite Hd; reflexivity|]. apply IH; [lia | assumption].
      * intros H. assert (Hr := proj2 IH (fun flag Hin => H flag (or_intror Hin))). lia.
    + split.
      * intros H flag [<-|Hin]; [rewrite Hd, Ha; reflexivity|]. apply IH; [lia | assumption].
      * intros H. assert (Hr := proj2 IH (fun flag Hin => H flag (or_intror Hin))). lia.
    + split; [intros H; exfalso; lia|]. intros H. specialize (H f (or_introl eq_refl)).
      rewrite Hd, Ha in H. discriminate.
Qed.

(** C9, as the code has it.  Over the reviewed flags of the window, the
    accuracy rate is 100 * deleted / reviewed and the false-positive rate
    is 100 * approved / reviewed, both 0 when no flag of the window is
    reviewed; [reviewed] counts every reviewed flag, so it is
    deleted + approved exactly when each reviewed flag was deleted or
    approved. *)
Theorem moderation_rates_over_all_reviews :
  forall (db : Database) (now days : Z),
    let flags := recentFlaggedOf db now days in
    let reviewed := List.length flags in
    let deleted := List.length (filter (has_action Deleted) flags) in
    let approved := List.length (filter (has_action Approved) flags) in
    let result := analyzeModerationEffectiveness db now days in
    totalReviews result = reviewed /\
    accuracyRate result
    = (if (0 <? reviewed)%nat then of_nat deleted / of_nat reviewed * 100 else 0) /\
    falsePositiveRate result
    = (if (0 <? reviewed)%nat then of_nat approved / of_nat reviewed * 100 else 0) /\
    (deleted + approved <= reviewed)%nat /\
    ((deleted + approved)%nat = reviewed <->
     forall flag, In flag flags ->
                  (has_action Deleted flag || has_action Approved flag)%bool = true).
Proof.
  intros db now days. cbv zeta.
  split; [reflexivity|]. split; [reflexivity|]. split; [reflexivity|].
  split; [apply actions_le_length | apply actions_eq_length].
Qed.

(** C9, as stated, fails: of three reviewed flags, one deleted, one
    approved and one edited, the code reports a third (33.3) for both
    rates, not a half, whether read as a fraction or as a percentage. *)
Lemma edited_review_counts_in_rates :
  let result := analyzeModerationEffectiveness three_reviews 100000 1 in
  totalReviews result = 3%nat /\
  accuracyRate result = 1 / 3 * 100 /\
  falsePositiveRate result = 1 / 3 * 100 /\
  claimed_accuracy 1 1 = 0.5 /\
  claimed_false_positive 1 1 = 0.5 /\
  (accuracyRate result =? claimed_accuracy 1 1) = false /\
  (accuracyRate result =? claimed_accuracy 1 1 * 100) = false /\
  (falsePositiveRate result =? claimed_false_positive 1 1) = false /\
  (falsePositiveRate result =? claimed_false_positive 1 1 * 100) = false.
Proof. cbv zeta. repeat split; vm_compute; reflexivity. Qed.

End AnalyticsFacts.

(** * Properties of the further parts *)

(** ** The classifier: the order of the rules and the pattern state *)

Module ClassifierOrder.

Import RegExp Model MessageModerator.

(** A test from index 0 says whether the pattern matches somewhere. *)
Lemma test_from_start re s :
  fst (test re 0 s) = true <-> matches re s.
Proof.
  unfold test.
  replace (if global re then 0 else 0) with 0 by (destruct (global re); reflexivity).
  set (input := list_ascii_of_string s).
  destruct (search input (ignoreCase re) (source re) (S (List.length input) - 0) 0)
    as [y|] eqn:Hs; cbn [fst].
  - split; [intros _ | reflexivity].
    destruct (RegExpFacts.search_some _ _ _ _ _ _ Hs) as (j & Hj & Hy).
    exists j. split.
    + unfold input in Hj. rewrite JSFacts.length_list_ascii in Hj. lia.
    + fold input. congruence.
  - split; [discriminate|].
    intros (j & Hj & Hm). exfalso. apply Hm.
    apply (proj1 (RegExpFacts.search_none_iff _ _ _ _ _) Hs).
    unfold input. rewrite JSFacts.length_list_ascii. lia.
Qed.

(** A test that succeeds from some [lastIndex] has a match to show. *)
Lemma test_true_matches re lastIndex s :
  fst (test re lastIndex s) = true -> matches re s.
Proof.
  intros H. destruct (fst (test re 0 s)) eqn:E0; [apply test_from_start; exact E0|].
  assert (Hno : ~ matches re s).
  { intros Hm. apply test_from_start in Hm. congruence. }
  rewrite (RegExpFacts.test_no_match re lastIndex s Hno) in H. discriminate.
Qed.

Lemma test_loop_true_matches ps i lis message :
  fst (test_loop ps i lis message) = true ->
  exists p, In p ps /\ matches p message.
Proof.
  revert i lis; induction ps as [|p ps IH]; intros i lis; cbn [test_loop].
  - discriminate.
  - destruct (test p (nth i lis 0) message) as [hit li'] eqn:Ht.
    destruct hit.
    + intros _. exists p. split; [left; reflexivity|].
      apply (test_true_matches p (nth i lis 0)). rewrite Ht. reflexivity.
    + intros H. destruct (IH _ _ H) as (q & Hq & Hm).
      exists q. split; [right; exact Hq | exact Hm].
Qed.

(** One pattern without the [g] flag that matches is enough for the loop
    to return, whatever the patterns before it do. *)
Lemma test_loop_hit_not_global ps i lis message :
  (exists p, In p ps /\ global p = false /\ matches p message) ->
  fst (test_loop ps i lis message) = true.
Proof.
  revert i lis; induction ps as [|p ps IH]; intros i lis (q & Hin & Hg & Hq).
  - destruct Hin.
  - cbn [test_loop].
    destruct (test p (nth i lis 0) message) as [hit li'] eqn:Ht.
    destruct hit; [reflexivity|].
    apply IH. destruct Hin as [->|Hin]; [|exists q; auto].
    exfalso.
    destruct (RegExpFacts.test_not_global q (nth i lis 0) message Hg) as [_ Hiff].
    rewrite Ht in Hiff. apply Hiff in Hq. discriminate.
Qed.

Lemma nth_set_nth_other i j v lis :
  i <> j -> nth j (set_nth i v lis) 0 = nth j lis 0.
Proof.
  revert j lis; induction i as [|i IH]; intros j lis Hne.
  - destruct j as [|j]; [congruence|]. destruct lis; cbn; [destruct j|]; reflexivity.
  - destruct j as [|j].
    + destruct lis; reflexivity.
    + destruct lis as [|x lis]; cbn [set_nth nth].
      * rewrite IH by congruence. destruct j; reflexivity.
      * apply IH. congruence.
Qed.

(** From [lastIndex] values that are all zero, the loop returns exactly
    when some pattern matches. *)
Lemma test_loop_from_zero ps i lis message :
  (forall j, i <= j -> nth j lis 0 = 0) ->
  (exists p, In p ps /\ matches p message) ->
  fst (test_loop ps i lis message) = true.
Proof.
  revert i lis; induction ps as [|p ps IH]; intros i lis Hz (q & Hin & Hq).
  - destruct Hin.
  - cbn [test_loop]. rewrite (Hz i) by lia.
    destruct (test p 0 message) as [hit li'] eqn:Ht.
    destruct hit; [reflexivity|].
    assert (Hnp : ~ matches p message).
    { intros Hm. apply test_from_start in Hm. rewrite Ht in Hm. discriminate. }
    apply IH.
    + intros j Hj. rewrite nth_set_nth_other by lia. apply Hz. lia.
    + destruct Hin as [->|Hin]; [contradiction | exists q; auto].
Qed.

Lemma test_loop_state_free ps i lis i' lis' message :
  (forall p, In p ps -> global p = false) ->
  fst (test_loop ps i lis message) = fst (test_loop ps i' lis' message).
Proof.
  intros Hg.
  destruct (fst (test_loop ps i lis message)) eqn:E.
  - symmetry. apply ClassifierFacts.test_loop_hit; [exact Hg|].
    apply (test_loop_true_matches _ _ _ _ E).
  - destruct (fst (test_loop ps i' lis' message)) eqn:E'; [|reflexivity].
    rewrite ClassifierFacts.test_loop_hit in E; [discriminate | exact Hg|].
    apply (test_loop_true_matches _ _ _ _ E').
Qed.

End ClassifierOrder.

(** ** Lines of letters *)

Module LetterLines.

Import RegExp.

(** Under the [i] flag the class [[A-Z\s!]] matches the letters of both
    cases. *)
Lemma shout_class_matches (a : ascii) :
  Words.shout_char a = true -> set_matches true Words.shout_class a = true.
Proof.
  destruct a as [b0 b1 b2 b3 b4 b5 b6 b7].
  destruct b0, b1, b2, b3, b4, b5, b6, b7;
    vm_compute; intros H; first [reflexivity | discriminate H].
Qed.

Lemma skipn_nth_error {A} (l : list A) i a :
  nth_error l i = Some a -> skipn i l = a :: skipn (S i) l.
Proof.
  revert l; induction i as [|i IH]; intros [|x l]; cbn; try discriminate.
  - intros [= ->]. reflexivity.
  - intros H. rewrite (IH l H). reflexivity.
Qed.

Lemma char_matcher_step input (p : ascii -> bool) i cap a (d : Continuation) :
  nth_error input i = Some a -> p a = true ->
  char_matcher input p (i, cap) d = d (S i, cap).
Proof. intros Hn Hp. unfold char_matcher. cbn. rewrite Hn, Hp. reflexivity. Qed.

Lemma char_matcher_end input (p : ascii -> bool) i cap (d : Continuation) :
  nth_error input i = None -> char_matcher input p (i, cap) d = None.
Proof. intros Hn. unfold char_matcher. cbn. rewrite Hn. reflexivity. Qed.

(** A greedy quantifier over one character class, followed by the end of
    the input, runs to the end when every character left is in the class
    and there are at least [min] of them. *)
Lemma repeat_class_to_end input (p : ascii -> bool) :
  forall fuel min i cap,
    i <= List.length input ->
    forallb p (skipn i input) = true ->
    min <= List.length input - i ->
    min + (List.length input - i) < fuel ->
    repeat_matcher fuel (char_matcher input p) [] min None true (i, cap)
      (fun y => if endIndex y =? List.length input then Some y else None)
    = Some (List.length input, cap).
Proof.
  induction fuel as [|fuel IH]; intros min i cap Hi Hall Hmin Hfuel; [lia|].
  cbn [repeat_matcher]. cbn [clear_captures fold_left captures endIndex fst snd].
  destruct (nth_error input i) as [a|] eqn:Hnth.
  - assert (Hlt : i < List.length input) by (apply nth_error_Some; congruence).
    rewrite (skipn_nth_error _ _ _ Hnth) in Hall. cbn [forallb] in Hall.
    apply andb_prop in Hall. destruct Hall as [Ha Hrest].
    rewrite (char_matcher_step input p i cap a _ Hnth Ha).
    cbn [endIndex fst].
    assert (Hne : (S i =? i) = false) by (apply Nat.eqb_neq; lia).
    rewrite Hne, andb_false_r.
    rewrite IH; [destruct (min =? 0); reflexivity | lia | exact Hrest | lia | lia].
  - assert (Hlen : i = List.length input).
    { apply nth_error_None in Hnth. lia. }
    assert (Hm0 : min = 0) by lia. subst min. cbn [Nat.eqb negb].
    rewrite (char_matcher_end input p i cap _ Hnth).
    rewrite Hlen, Nat.eqb_refl. reflexivity.
Qed.

(** The pattern [/^[A-Z\s!]{n,}$/i] matches every text of [n] or more
    letters, white space and exclamation marks. *)
Lemma shout_pattern_matches (n : nat) (s : string) :
  n <= String.length s ->
  Words.shout_line s = true ->
  matches (mkRegExp (seq_of [RBegin; at_least n (RClass false Words.shout_class); REnd])
                    true false) s.
Proof.
  intros Hlen Hline. exists 0. split; [lia|].
  unfold match_at. cbn [source ignoreCase seq_of at_least compile endIndex fst Nat.eqb].
  set (input := list_ascii_of_string s).
  cbn [groups].
  match goal with
  | |- ?X <> None => assert (HX : X = Some (List.length input, []))
  end.
  { apply (repeat_class_to_end input
             (fun a => xorb false (set_matches true Words.shout_class a))); [lia | | | lia].
    - cbn [skipn]. unfold Words.shout_line in Hline. fold input in Hline.
      rewrite forallb_forall in Hline |- *. intros a Ha.
      cbn [xorb]. apply shout_class_matches. apply Hline. exact Ha.
    - unfold input. rewrite JSFacts.length_list_ascii. lia. }
  rewrite HX. discriminate.
Qed.

End LetterLines.

(** ** The classifier: further properties *)

Module ClassifierMore.

Import RegExp Model MessageModerator ClassifierOrder Verdicts.

Lemma no_words_by_test message ws :
  includes_any (JS.toLowerCase message) ws = false ->
  forall w, In w ws -> ~ Spec.contains_word message w.
Proof.
  intros H w Hin Hw.
  assert (E : includes_any (JS.toLowerCase message) ws = true)
    by (apply ClassifierFacts.includes_any_iff; exists w; auto).
  congruence.
Qed.

Lemma no_matches_by_test message ps :
  forallb (fun p => negb (fst (test p 0 message))) ps = true ->
  forall p, In p ps -> ~ matches p message.
Proof.
  intros H p Hin Hm. rewrite forallb_forall in H. specialize (H p Hin).
  apply test_from_start in Hm. rewrite Hm in H. discriminate.
Qed.

Lemma some_word_by_test message ws :
  includes_any (JS.toLowerCase message) ws = true ->
  exists w, In w ws /\ Spec.contains_word message w.
Proof. apply ClassifierFacts.includes_any_iff. Qed.

(** X1.  A text in which no lexicon word occurs and which no pattern of
    either table matches is allowed when it has at most 800 characters and
    flagged as inappropriate, severity low, when it is longer; this holds
    from every state of the pattern tables. *)
Theorem quiet_text_verdict :
  forall (st : PatternState) (message userId messageId : string),
    (forall w, In w lexicon -> ~ Spec.contains_word message w) ->
    (forall p, In p HARASSMENT_PATTERNS -> ~ matches p message) ->
    (forall p, In p SPAM_PATTERNS -> ~ matches p message) ->
    fst (moderateMessage st message userId messageId)
    = if 800 <? String.length message then flag Inappropriate Low else allow.
Proof.
  intros st message userId messageId Hwords Hhar Hspam. unfold moderateMessage.
  rewrite ClassifierFacts.includes_any_none
    by (intros w Hw; apply Hwords; apply in_or_app; left; assumption).
  pose proof (ClassifierFacts.test_loop_miss HARASSMENT_PATTERNS 0
                (harassmentLastIndex st) message Hhar) as H1.
  destruct (test_loop HARASSMENT_PATTERNS 0 (harassmentLastIndex st) message)
    as [harassed hli].
  cbn [fst] in H1. subst harassed.
  rewrite ClassifierFacts.includes_any_none
    by (intros w Hw; apply Hwords; apply in_or_app; right; apply in_or_app; left;
        assumption).
  rewrite ClassifierFacts.includes_any_none
    by (intros w Hw; apply Hwords; apply in_or_app; right; apply in_or_app; right;
        assumption).
  cbn [spamLastIndex harassmentLastIndex].
  pose proof (ClassifierFacts.test_loop_miss SPAM_PATTERNS 0 (spamLastIndex st)
                message Hspam) as H2.
  destruct (test_loop SPAM_PATTERNS 0 (spamLastIndex st) message) as [spam sli].
  cbn [fst] in H2. subst spam.
  destruct (800 <? String.length message); reflexivity.
Qed.

Lemma quiet_text_verdict_witness :
  fst (moderateMessage initialPatternState "see you at 5" "u-bob" "-m1") = allow /\
  fst (moderateMessage initialPatternState long_word "u-bob" "-m1")
  = flag Inappropriate Low.
Proof.
  split.
  - apply (quiet_text_verdict initialPatternState "see you at 5" "u-bob" "-m1").
    + apply no_words_by_test. vm_compute. reflexivity.
    + apply no_matches_by_test. vm_compute. reflexivity.
    + apply no_matches_by_test. vm_compute. reflexivity.
  - apply (quiet_text_verdict initialPatternState long_word "u-bob" "-m1").
    + apply no_words_by_test. vm_compute. reflexivity.
    + apply no_matches_by_test. vm_compute. reflexivity.
    + apply no_matches_by_test. vm_compute. reflexivity.
Defined.

(** The two flag-only lexicons come after the auto-delete rules and
    before the spam patterns, the moderate one first: without a severe
    word or a harassment match, a text with a moderate word is flagged
    profanity/medium, and a text with a mild word and no moderate one is
    flagged profanity/low, whatever spam pattern matches and however long
    the text is. *)
Theorem profanity_rules_in_order :
  forall (st : PatternState) (message userId messageId : string),
    (forall w, In w PROFANITY_severe -> ~ Spec.contains_word message w) ->
    (forall p, In p HARASSMENT_PATTERNS -> ~ matches p message) ->
    ((exists w, In w PROFANITY_moderate /\ Spec.contains_word message w) ->
     fst (moderateMessage st message userId messageId) = flag Profanity Medium) /\
    ((forall w, In w PROFANITY_moderate -> ~ Spec.contains_word message w) ->
     (exists w, In w PROFANITY_mild /\ Spec.contains_word message w) ->
     fst (moderateMessage st message userId messageId) = flag Profanity Low).
Proof.
  intros st message userId messageId Hsev Hhar. unfold moderateMessage.
  rewrite (ClassifierFacts.includes_any_none message PROFANITY_severe Hsev).
  pose proof (ClassifierFacts.test_loop_miss HARASSMENT_PATTERNS 0
                (harassmentLastIndex st) message Hhar) as H1.
  destruct (test_loop HARASSMENT_PATTERNS 0 (harassmentLastIndex st) message)
    as [harassed hli].
  cbn [fst] in H1. subst harassed. split.
  - intros Hmod. apply ClassifierFacts.includes_any_iff in Hmod. rewrite Hmod.
    reflexivity.
  - intros Hnomod Hmild.
    rewrite (ClassifierFacts.includes_any_none message PROFANITY_moderate Hnomod).
    apply ClassifierFacts.includes_any_iff in Hmild. rewrite Hmild. reflexivity.
Qed.

Lemma profanity_rules_in_order_witness :
  fst (moderateMessage initialPatternState
         "I HATE this stupid http://example.com" "u-bob" "-m1")
  = flag Profanity Medium /\
  fst (moderateMessage initialPatternState
         "that was a dumb idea!!!!!!!" "u-bob" "-m1")
  = flag Profanity Low.
Proof.
  split.
  - apply (proj1 (profanity_rules_in_order initialPatternState
                    "I HATE this stupid http://example.com" "u-bob" "-m1"
                    ltac:(apply no_words_by_test; vm_compute; reflexivity)
                    ltac:(apply no_matches_by_test; vm_compute; reflexivity))).
    apply some_word_by_test. vm_compute. reflexivity.
  - apply (proj2 (profanity_rules_in_order initialPatternState
                    "that was a dumb idea!!!!!!!" "u-bob" "-m1"
                    ltac:(apply no_words_by_test; vm_compute; reflexivity)
                    ltac:(apply no_matches_by_test; vm_compute; reflexivity))).
    + apply no_words_by_test. vm_compute. reflexivity.
    + apply some_word_by_test. vm_compute. reflexivity.
Defined.

(** The decision to delete does not depend on the state of the pattern
    tables, and neither does a profanity or harassment verdict: only the
    patterns with the [g] flag keep state, and they come last. *)
Theorem auto_delete_ignores_pattern_state :
  forall (st st' : PatternState) (message userId messageId : string),
    let r := fst (moderateMessage st message userId messageId) in
    let r' := fst (moderateMessage st' message userId messageId) in
    shouldDelete r = shouldDelete r' /\
    (flagReason r = Some Profanity \/ flagReason r = Some Harassment -> r' = r).
Proof.
  intros st st' message userId messageId. unfold moderateMessage.
  destruct (includes_any _ PROFANITY_severe); [cbn; auto|].
  pose proof (test_loop_state_free HARASSMENT_PATTERNS 0 (harassmentLastIndex st)
                0 (harassmentLastIndex st') message
                ClassifierFacts.harassment_not_global) as Hh.
  destruct (test_loop HARASSMENT_PATTERNS 0 (harassmentLastIndex st) message)
    as [h hli].
  destruct (test_loop HARASSMENT_PATTERNS 0 (harassmentLastIndex st') message)
    as [h' hli'].
  cbn [fst] in Hh. subst h'. destruct h; [cbn; auto|].
  destruct (includes_any _ PROFANITY_moderate); [cbn; auto|].
  destruct (includes_any _ PROFANITY_mild); [cbn; auto|].
  cbn [spamLastIndex harassmentLastIndex].
  destruct (test_loop SPAM_PATTERNS 0 (spamLastIndex st) message) as [[|] sli];
    destruct (test_loop SPAM_PATTERNS 0 (spamLastIndex st') message) as [[|] sli'];
    destruct (800 <? String.length message); cbn;
    (split; [reflexivity | intros [H|H]; discriminate H]).
Qed.

(** X2.  A stale pattern state can only lose a spam flag. From any state the
    verdict is the one of a fresh state, except that a text which a fresh
    state flags as spam may instead get the verdict of a text without spam:
    allowed, or flagged for its length. *)
Theorem stale_state_only_loses_spam_flags :
  forall (st : PatternState) (message userId messageId : string),
    let r := fst (moderateMessage st message userId messageId) in
    let fresh := fst (moderateMessage initialPatternState message userId messageId) in
    r = fresh \/
    (fresh = flag Spam Medium /\
     r = if 800 <? String.length message then flag Inappropriate Low else allow).
Proof.
  intros st message userId messageId. unfold moderateMessage.
  destruct (includes_any _ PROFANITY_severe); [left; reflexivity|].
  pose proof (test_loop_state_free HARASSMENT_PATTERNS 0 (harassmentLastIndex st)
                0 (harassmentLastIndex initialPatternState) message
                ClassifierFacts.harassment_not_global) as Hh.
  destruct (test_loop HARASSMENT_PATTERNS 0 (harassmentLastIndex st) message)
    as [h hli].
  destruct (test_loop HARASSMENT_PATTERNS 0
              (harassmentLastIndex initialPatternState) message) as [h' hli'].
  cbn [fst] in Hh. subst h'. destruct h; [left; reflexivity|].
  destruct (includes_any _ PROFANITY_moderate); [left; reflexivity|].
  destruct (includes_any _ PROFANITY_mild); [left; reflexivity|].
  cbn [spamLastIndex harassmentLastIndex initialPatternState].
  destruct (test_loop SPAM_PATTERNS 0 (spamLastIndex st) message) as [s sli] eqn:Es.
  destruct (test_loop SPAM_PATTERNS 0 [] message) as [s0 sli0] eqn:E0.
  destruct s.
  - assert (Hm : exists p, In p SPAM_PATTERNS /\ matches p message).
    { apply (test_loop_true_matches SPAM_PATTERNS 0 (spamLastIndex st)).
      rewrite Es. reflexivity. }
    assert (H0 : fst (test_loop SPAM_PATTERNS 0 [] message) = true).
    { apply test_loop_from_zero; [|exact Hm]. intros j _. destruct j; reflexivity. }
    rewrite E0 in H0. cbn [fst] in H0. subst s0. left. reflexivity.
  - destruct s0.
    + right. split; [reflexivity|].
      destruct (800 <? String.length message); reflexivity.
    + left. destruct (800 <? String.length message); reflexivity.
Qed.

(** X3.  A text of fifteen or more characters that are all letters (of
    either case), white space or exclamation marks is flagged from every
    state of the pattern tables; without a lexicon word or a harassment
    match the verdict is spam/medium. *)
Theorem letters_only_line_is_flagged :
  forall (st : PatternState) (message userId messageId : string),
    15 <= String.length message ->
    Words.shout_line message = true ->
    let r := fst (moderateMessage st message userId messageId) in
    shouldFlag r = true /\
    ((forall w, In w lexicon -> ~ Spec.contains_word message w) ->
     (forall p, In p HARASSMENT_PATTERNS -> ~ matches p message) ->
     r = flag Spam Medium).
Proof.
  intros st message userId messageId Hlen Hline.
  assert (Hspam : forall lis, fst (test_loop SPAM_PATTERNS 0 lis message) = true).
  { intros lis. apply test_loop_hit_not_global.
    exists (nth 1 SPAM_PATTERNS (pattern_i REmpty)).
    split; [cbn; auto|]. split; [reflexivity|].
    apply (LetterLines.shout_pattern_matches 15 message Hlen Hline). }
  cbv zeta. unfold moderateMessage.
  destruct (includes_any _ PROFANITY_severe) eqn:E1.
  { split; [reflexivity|]. intros Hw _. exfalso.
    apply ClassifierFacts.includes_any_iff in E1. destruct E1 as (w & Hin & Hc).
    apply (Hw w); [apply in_or_app; left; exact Hin | exact Hc]. }
  destruct (test_loop HARASSMENT_PATTERNS 0 (harassmentLastIndex st) message)
    as [h hli] eqn:Eh.
  destruct h.
  { split; [reflexivity|]. intros _ Hh. exfalso.
    destruct (test_loop_true_matches HARASSMENT_PATTERNS 0 (harassmentLastIndex st)
                message) as (p & Hin & Hm); [rewrite Eh; reflexivity|].
    exact (Hh p Hin Hm). }
  destruct (includes_any _ PROFANITY_moderate) eqn:E2.
  { split; [reflexivity|]. intros Hw _. exfalso.
    apply ClassifierFacts.includes_any_iff in E2. destruct E2 as (w & Hin & Hc).
    apply (Hw w); [apply in_or_app; right; apply in_or_app; left; exact Hin | exact Hc]. }
  destruct (includes_any _ PROFANITY_mild) eqn:E3.
  { split; [reflexivity|]. intros Hw _. exfalso.
    apply ClassifierFacts.includes_any_iff in E3. destruct E3 as (w & Hin & Hc).
    apply (Hw w); [apply in_or_app; right; apply in_or_app; right; exact Hin | exact Hc]. }
  cbn [spamLastIndex harassmentLastIndex].
  specialize (Hspam (spamLastIndex st)).
  destruct (test_loop SPAM_PATTERNS 0 (spamLastIndex st) message) as [s sli].
  cbn [fst] in Hspam. subst s. split; [reflexivity | intros _ _; reflexivity].
Qed.

Lemma letters_only_line_is_flagged_witness :
  fst (moderateMessage initialPatternState "What a lovely day" "u-bob" "-m1")
  = flag Spam Medium.
Proof.
  apply (proj2 (letters_only_line_is_flagged initialPatternState
                  "What a lovely day" "u-bob" "-m1"
                  ltac:(vm_compute; lia) ltac:(vm_compute; reflexivity))).
  - apply no_words_by_test. vm_compute. reflexivity.
  - apply no_matches_by_test. vm_compute. reflexivity.
Defined.

End ClassifierMore.

(** ** Message validation *)

Module ValidationFacts.

Import RegExp MessageValidation.

Lemma free_of_append c s t :
  free_of c (s ++ t) = (free_of c s && free_of c t)%bool.
Proof.
  unfold free_of. induction s as [|a s IH]; cbn; [reflexivity|].
  rewrite IH. apply andb_assoc.
Qed.

Lemma replace_all_free c c' by_ s :
  free_of c by_ = true ->
  c = c' \/ free_of c s = true ->
  free_of c (replace_all c' by_ s) = true.
Proof.
  intros Hby Hs. induction s as [|a s IH]; [reflexivity|].
  cbn [replace_all].
  assert (Hs' : c = c' \/ free_of c s = true).
  { destruct Hs as [H|H]; [left; exact H|]. right.
    unfold free_of in H |- *. cbn in H. apply andb_prop in H. apply H. }
  destruct (Ascii.eqb a c') eqn:E.
  - rewrite free_of_append, Hby, (IH Hs'). reflexivity.
  - unfold free_of. cbn. fold (free_of c (replace_all c' by_ s)). rewrite (IH Hs').
    rewrite andb_true_r. destruct Hs as [->|H].
    + rewrite E. reflexivity.
    + unfold free_of in H. cbn in H. apply andb_prop in H. apply H.
Qed.

Lemma replace_all_id c by_ s :
  free_of c s = true -> replace_all c by_ s = s.
Proof.
  induction s as [|a s IH]; [reflexivity|].
  unfold free_of. cbn. intros H. apply andb_prop in H. destruct H as [Ha Hs].
  apply negb_true_iff in Ha. rewrite Ha. f_equal. apply IH. exact Hs.
Qed.

Lemma free_of_cons c a s :
  free_of c (String a s) = (negb (Ascii.eqb a c) && free_of c s)%bool.
Proof. reflexivity. Qed.

Lemma is_markup_free_eq s :
  (free_of "<" s && free_of ">" s && free_of quote_char s
   && free_of "'" s && free_of "/" s)%bool
  = forallb (fun a => negb (is_markup a)) (list_ascii_of_string s).
Proof.
  induction s as [|a s IH]; [reflexivity|].
  rewrite !free_of_cons. cbn [list_ascii_of_string forallb]. rewrite <- IH.
  unfold is_markup.
  destruct (Ascii.eqb a "<"), (Ascii.eqb a ">"), (Ascii.eqb a quote_char),
    (Ascii.eqb a "'"), (Ascii.eqb a "/"),
    (free_of "<" s), (free_of ">" s), (free_of quote_char s),
    (free_of "'" s), (free_of "/" s); reflexivity.
Qed.

Lemma is_markup_free s :
  (free_of "<" s && free_of ">" s && free_of quote_char s
   && free_of "'" s && free_of "/" s)%bool = true <->
  forallb (fun a => negb (is_markup a)) (list_ascii_of_string s) = true.
Proof. rewrite is_markup_free_eq. tauto. Qed.

Lemma sanitize_free_of_each message :
  let s := sanitizeMessage message in
  free_of "<" s = true /\ free_of ">" s = true /\ free_of quote_char s = true /\
  free_of "'" s = true /\ free_of "/" s = true.
Proof.
  cbv zeta. unfold sanitizeMessage.
  repeat split;
    repeat (apply replace_all_free;
            [vm_compute; reflexivity
            | first [left; reflexivity | right]]).
Qed.

Lemma trimStart_starts_clear s : starts_clear (trimStart s) = true.
Proof.
  induction s as [|a s IH]; [reflexivity|]. cbn.
  destruct (JS.isWhiteSpace a) eqn:E; [exact IH|]. cbn. rewrite E. reflexivity.
Qed.

Lemma trimEnd_starts_clear s : starts_clear s = true -> starts_clear (trimEnd s) = true.
Proof.
  destruct s as [|a s]; [reflexivity|]. cbn. intros H.
  destruct (trimEnd s); [|exact H].
  apply negb_true_iff in H. rewrite H. cbn. rewrite H. reflexivity.
Qed.

Lemma trimEnd_ends_clear s : ends_clear (trimEnd s) = true.
Proof.
  unfold ends_clear. induction s as [|a s IH]; [reflexivity|]. cbn.
  destruct (trimEnd s) as [|b t] eqn:E.
  - destruct (JS.isWhiteSpace a) eqn:Ea; cbn; [reflexivity | rewrite Ea; reflexivity].
  - cbn [last_char] in IH |- *. destruct (last_char t); exact IH.
Qed.

Lemma trimEnd_id s : ends_clear s = true -> trimEnd s = s.
Proof.
  unfold ends_clear. induction s as [|a s IH]; [reflexivity|]. cbn.
  destruct (last_char s) as [b|] eqn:E.
  - intros H. rewrite (IH H). destruct s; [discriminate E | reflexivity].
  - destruct s as [|c s]; [|cbn in E; destruct (last_char s); discriminate].
    cbn. intros H. apply negb_true_iff in H. rewrite H. reflexivity.
Qed.

Lemma trimStart_id s : starts_clear s = true -> trimStart s = s.
Proof.
  destruct s as [|a s]; [reflexivity|]. cbn. intros H.
  apply negb_true_iff in H. rewrite H. reflexivity.
Qed.

Lemma trim_clear s : starts_clear (trim s) = true /\ ends_clear (trim s) = true.
Proof.
  unfold trim. split.
  - apply trimEnd_starts_clear, trimStart_starts_clear.
  - apply trimEnd_ends_clear.
Qed.

Lemma trim_id s : starts_clear s = true -> ends_clear s = true -> trim s = s.
Proof. intros H1 H2. unfold trim. rewrite (trimStart_id s H1). apply trimEnd_id, H2. Qed.

Lemma last_char_append s t :
  last_char (s ++ t) = match last_char t with Some b => Some b | None => last_char s end.
Proof.
  induction s as [|a s IH]; cbn; [destruct (last_char t); reflexivity|].
  rewrite IH. destruct (last_char t); [reflexivity|]. reflexivity.
Qed.

(** A replacement that neither starts nor ends with white space keeps the
    ends of the text clear. *)
Lemma replace_all_clear c by_ s b :
  starts_clear by_ = true -> last_char by_ = Some b -> JS.isWhiteSpace b = false ->
  (starts_clear s = true -> starts_clear (replace_all c by_ s) = true) /\
  (ends_clear s = true -> ends_clear (replace_all c by_ s) = true).
Proof.
  intros Hs Hl Hb. split.
  - destruct s as [|a s]; [reflexivity|]. cbn. intros H.
    destruct (Ascii.eqb a c); [|exact H].
    destruct by_ as [|x by_]; [discriminate Hl|]. exact Hs.
  - unfold ends_clear. induction s as [|a s IH]; [reflexivity|].
    cbn [replace_all last_char].
    destruct (last_char s) as [z|] eqn:Ez.
    + intros H. specialize (IH H).
      assert (Hne : last_char (replace_all c by_ s) <> None).
      { destruct s as [|y s]; [discriminate Ez|]. cbn [replace_all].
        destruct (Ascii.eqb y c).
        - rewrite last_char_append.
          destruct (last_char (replace_all c by_ s)); [discriminate|].
          rewrite Hl. discriminate.
        - cbn. destruct (last_char (replace_all c by_ s)); discriminate. }
      destruct (Ascii.eqb a c).
      * rewrite last_char_append.
        destruct (last_char (replace_all c by_ s)) as [w|]; [exact IH | congruence].
      * cbn [last_char].
        destruct (last_char (replace_all c by_ s)) as [w|]; [exact IH | congruence].
    + destruct s as [|y s]; [|cbn in Ez; destruct (last_char s); discriminate].
      cbn [replace_all]. intros H.
      destruct (Ascii.eqb a c).
      * rewrite last_char_append. cbn. rewrite Hl, Hb. reflexivity.
      * cbn. exact H.
Qed.

Lemma sanitize_clear message :
  starts_clear (sanitizeMessage message) = true /\
  ends_clear (sanitizeMessage message) = true.
Proof.
  unfold sanitizeMessage.
  destruct (trim_clear message) as [H1 H2].
  pose proof (fun c by_ s Hs Hl => replace_all_clear c by_ s ";"%char Hs Hl eq_refl)
    as R.
  split.
  - apply (proj1 (R "/"%char "&#x2F;"%string _ eq_refl eq_refl)).
    apply (proj1 (R "'"%char "&#x27;"%string _ eq_refl eq_refl)).
    apply (proj1 (R quote_char "&quot;"%string _ eq_refl eq_refl)).
    apply (proj1 (R ">"%char "&gt;"%string _ eq_refl eq_refl)).
    apply (proj1 (R "<"%char "&lt;"%string _ eq_refl eq_refl)).
    exact H1.
  - apply (proj2 (R "/"%char "&#x2F;"%string _ eq_refl eq_refl)).
    apply (proj2 (R "'"%char "&#x27;"%string _ eq_refl eq_refl)).
    apply (proj2 (R quote_char "&quot;"%string _ eq_refl eq_refl)).
    apply (proj2 (R ">"%char "&gt;"%string _ eq_refl eq_refl)).
    apply (proj2 (R "<"%char "&lt;"%string _ eq_refl eq_refl)).
    exact H2.
Qed.

(** X4.  The sanitized text contains none of the five characters [<], [>],
    the double quote, the apostrophe and [/], has no white space at either
    end, and sanitizing it again changes nothing. *)
Theorem sanitizeMessage_clean_and_idempotent :
  forall message : string,
    forallb (fun a => negb (is_markup a))
            (list_ascii_of_string (sanitizeMessage message)) = true /\
    trim (sanitizeMessage message) = sanitizeMessage message /\
    sanitizeMessage (sanitizeMessage message) = sanitizeMessage message.
Proof.
  intros message.
  destruct (sanitize_free_of_each message) as (F1 & F2 & F3 & F4 & F5).
  destruct (sanitize_clear message) as [C1 C2].
  assert (Htrim : trim (sanitizeMessage message) = sanitizeMessage message)
    by (apply trim_id; assumption).
  split; [|split].
  - apply is_markup_free. rewrite F1, F2, F3, F4, F5. reflexivity.
  - exact Htrim.
  - unfold sanitizeMessage at 1. rewrite Htrim.
    rewrite (replace_all_id "<" _ _ F1), (replace_all_id ">" _ _ F2),
      (replace_all_id quote_char _ _ F3), (replace_all_id "'" _ _ F4),
      (replace_all_id "/" _ _ F5).
    reflexivity.
Qed.

(** A text without the five characters and without white space at its
    ends is left as it is. *)
Theorem sanitizeMessage_keeps_plain_text :
  forall message : string,
    forallb (fun a => negb (is_markup a)) (list_ascii_of_string message) = true ->
    starts_clear message = true ->
    ends_clear message = true ->
    sanitizeMessage message = message.
Proof.
  intros message Hfree H1 H2. unfold sanitizeMessage.
  rewrite (trim_id message H1 H2).
  apply is_markup_free in Hfree.
  repeat (apply andb_prop in Hfree; destruct Hfree as [Hfree ?]).
  rewrite (replace_all_id "<"), (replace_all_id ">"), (replace_all_id quote_char),
    (replace_all_id "'"), (replace_all_id "/"); auto.
Qed.

Lemma sanitizeMessage_keeps_plain_text_witness :
  sanitizeMessage "see you at 5 & later" = "see you at 5 & later"%string.
Proof.
  apply sanitizeMessage_keeps_plain_text; vm_compute; reflexivity.
Defined.

End ValidationFacts.

(** ** validateMessage *)

Module ValidationRules.

Import RegExp Model MessageModerator MessageValidation ClassifierOrder Verdicts.

Lemma test_loop_false_no_match ps i lis message :
  fst (test_loop ps i lis message) = false ->
  (forall p, In p ps -> global p = false -> ~ matches p message) /\
  ((forall j, i <= j -> nth j lis 0 = 0) -> forall p, In p ps -> ~ matches p message).
Proof.
  intros H. split.
  - intros p Hin Hg Hm.
    rewrite test_loop_hit_not_global in H; [discriminate|]. exists p. auto.
  - intros Hz p Hin Hm.
    rewrite test_loop_from_zero in H; [discriminate | exact Hz|]. exists p. auto.
Qed.

Lemma validateMessage_accepted_words lis message userId :
  isValid (fst (validateMessage lis message userId)) = true ->
  String.length message <= 500 /\
  forall w, In w PROFANITY_WORDS -> JS.includes (JS.toLowerCase message) w = false.
Proof.
  unfold validateMessage.
  destruct (is_empty (trim message)); [discriminate|].
  destruct (500 <? String.length message) eqn:Elen; [discriminate|].
  destruct (existsb _ PROFANITY_WORDS) eqn:Ewords; [discriminate|]. intros _.
  split; [apply Nat.ltb_ge in Elen; exact Elen|].
  intros w Hin. destruct (JS.includes (JS.toLowerCase message) w) eqn:E; [|reflexivity].
  assert (existsb (fun word => JS.includes (JS.toLowerCase message) word)
                  PROFANITY_WORDS = true)
    by (apply existsb_exists; exists w; auto).
  congruence.
Qed.

(** X5.  What an accepted message is known to be: not blank, at most 500
    characters, without a word of [PROFANITY_WORDS] in its lower-case form,
    and matched by none of the spam patterns without the [g] flag; when the
    pattern state is fresh, by no spam pattern at all. *)
Theorem validateMessage_accepts_only :
  forall (lis : list nat) (message userId : string),
    isValid (fst (validateMessage lis message userId)) = true ->
    trim message <> EmptyString /\
    String.length message <= 500 /\
    (forall w, In w PROFANITY_WORDS ->
               JS.includes (JS.toLowerCase message) w = false) /\
    (forall p, In p SPAM_PATTERNS -> global p = false -> ~ matches p message) /\
    ((forall j, nth j lis 0 = 0) ->
     forall p, In p SPAM_PATTERNS -> ~ matches p message).
Proof.
  intros lis message userId. unfold validateMessage.
  destruct (is_empty (trim message)) eqn:Eempty; [discriminate|].
  destruct (500 <? String.length message) eqn:Elen; [discriminate|].
  destruct (existsb _ PROFANITY_WORDS) eqn:Ewords; [discriminate|].
  destruct (test_loop SPAM_PATTERNS 0 lis message) as [spam lis'] eqn:Eloop.
  destruct spam; [discriminate|]. intros _.
  assert (Hloop : fst (test_loop SPAM_PATTERNS 0 lis message) = false)
    by (rewrite Eloop; reflexivity).
  destruct (test_loop_false_no_match _ _ _ _ Hloop) as [Hng Hz].
  split; [|split; [|split; [|split]]].
  - intros E. rewrite E in Eempty. discriminate.
  - apply Nat.ltb_ge in Elen. exact Elen.
  - intros w Hin. destruct (JS.includes (JS.toLowerCase message) w) eqn:E; [|reflexivity].
    assert (existsb (fun word => JS.includes (JS.toLowerCase message) word)
                    PROFANITY_WORDS = true)
      by (apply existsb_exists; exists w; auto).
    congruence.
  - exact Hng.
  - intros Hzero. apply Hz. intros j _. apply Hzero.
Qed.

Lemma validateMessage_accepts_only_witness :
  trim "see you at 5" <> EmptyString /\ String.length "see you at 5" <= 500.
Proof.
  pose proof (validateMessage_accepts_only [] "see you at 5" "u-bob"
                ltac:(vm_compute; reflexivity)) as H.
  split; [apply H | apply H].
Defined.

(** X6.  Every text of ten or more characters that are all letters, white
    space or exclamation marks is rejected, in either letter case and from
    every pattern state: the all-caps pattern carries the [i] flag. *)
Theorem validateMessage_rejects_letter_lines :
  forall (lis : list nat) (message userId : string),
    10 <= String.length message ->
    Words.shout_line message = true ->
    isValid (fst (validateMessage lis message userId)) = false.
Proof.
  intros lis message userId Hlen Hline. unfold validateMessage.
  destruct (is_empty (trim message)); [reflexivity|].
  destruct (500 <? String.length message); [reflexivity|].
  destruct (existsb _ PROFANITY_WORDS); [reflexivity|].
  assert (Hspam : fst (test_loop SPAM_PATTERNS 0 lis message) = true).
  { apply test_loop_hit_not_global.
    exists (nth 1 SPAM_PATTERNS (pattern_i REmpty)).
    split; [cbn; auto|]. split; [reflexivity|].
    apply (LetterLines.shout_pattern_matches 10 message Hlen Hline). }
  destruct (test_loop SPAM_PATTERNS 0 lis message) as [spam lis'].
  cbn [fst] in Hspam. subst spam. reflexivity.
Qed.

Lemma validateMessage_rejects_letter_lines_witness :
  isValid (fst (validateMessage [] "good morning" "u-bob")) = false.
Proof.
  apply (validateMessage_rejects_letter_lines [] "good morning" "u-bob").
  - vm_compute. lia.
  - vm_compute. reflexivity.
Defined.

Lemma mild_words_are_validated :
  forall w, In w PROFANITY_mild -> In (JS.toLowerCase w) PROFANITY_WORDS.
Proof.
  intros w Hin. cbn in Hin.
  repeat (destruct Hin as [<-|Hin]; [vm_compute; tauto|]). destruct Hin.
Qed.

(** X7.  On a message that [validateMessage] accepts, the classifier never
    gives a verdict of severity low: the mild lexicon is part of the
    validator's word list, and the length rule starts above the validator's
    limit. *)
Theorem validated_message_is_never_low :
  forall (lis : list nat) (st : PatternState) (message userId messageId : string),
    isValid (fst (validateMessage lis message userId)) = true ->
    let r := fst (moderateMessage st message userId messageId) in
    severity r <> Some Low /\
    r <> flag Profanity Low /\ r <> flag Inappropriate Low.
Proof.
  intros lis st message userId messageId Hvalid.
  destruct (validateMessage_accepted_words lis message userId Hvalid)
    as (Hlen & Hwords).
  assert (Hmild : includes_any (JS.toLowerCase message) PROFANITY_mild = false).
  { unfold includes_any. destruct (existsb _ PROFANITY_mild) eqn:E; [|reflexivity].
    apply existsb_exists in E. destruct E as (w & Hin & Hw).
    rewrite (Hwords _ (mild_words_are_validated w Hin)) in Hw. discriminate. }
  assert (Hshort : (800 <? String.length message) = false)
    by (apply Nat.ltb_ge; lia).
  cbv zeta. unfold moderateMessage. rewrite Hmild, Hshort.
  destruct (includes_any _ PROFANITY_severe); [cbn; repeat split; discriminate|].
  destruct (test_loop HARASSMENT_PATTERNS _ _ _) as [[|] hli];
    [cbn; repeat split; discriminate|].
  destruct (includes_any _ PROFANITY_moderate); [cbn; repeat split; discriminate|].
  cbn [spamLastIndex harassmentLastIndex].
  destruct (test_loop MessageModerator.SPAM_PATTERNS _ _ _) as [[|] sli];
    cbn; repeat split; discriminate.
Qed.

Lemma validated_message_is_never_low_witness :
  severity (fst (moderateMessage initialPatternState "see you at 5" "u-bob" "-m1"))
  <> Some Low.
Proof.
  apply (validated_message_is_never_low [] initialPatternState "see you at 5"
           "u-bob" "-m1").
  vm_compute. reflexivity.
Defined.

End ValidationRules.

(** ** Objects used as maps *)

Module ObjectFacts.

Lemma get_set_same {A} (o : JSObject.t A) k v :
  JSObject.get (JSObject.set o k v) k = Some v.
Proof.
  induction o as [|[k' v'] o IH]; cbn.
  - rewrite String.eqb_refl. reflexivity.
  - destruct (String.eqb k' k) eqn:E; cbn; rewrite E; auto.
Qed.

Lemma get_set_other {A} (o : JSObject.t A) k k' v :
  k <> k' -> JSObject.get (JSObject.set o k v) k' = JSObject.get o k'.
Proof.
  intros Hne. induction o as [|[k0 v0] o IH]; cbn.
  - destruct (String.eqb k k') eqn:E; [apply String.eqb_eq in E; contradiction|reflexivity].
  - destruct (String.eqb k0 k) eqn:E; cbn.
    + apply String.eqb_eq in E. subst k0.
      destruct (String.eqb k k') eqn:E'; [apply String.eqb_eq in E'; contradiction|reflexivity].
    + rewrite IH. reflexivity.
Qed.

Lemma length_filter_le {A} (f : A -> bool) l :
  List.length (filter f l) <= List.length l.
Proof.
  induction l as [|a l IH]; cbn; [lia|]. destruct (f a); cbn; lia.
Qed.

End ObjectFacts.

(** ** checkRateLimit *)

Module RateLimitFacts.

Import MessageValidation RateLimit ObjectFacts.

Lemma stored_set_same times u l : stored (JSObject.set times u l) u = l.
Proof. unfold stored. rewrite get_set_same. reflexivity. Qed.

Lemma stored_set_other times u v l :
  v <> u -> stored (JSObject.set times v l) u = stored times u.
Proof. intros H. unfold stored. rewrite get_set_other by exact H. reflexivity. Qed.

Lemma checkRateLimit_eq times now v :
  checkRateLimit times now v
  = let times1 := match JSObject.get times v with
                  | Some _ => times
                  | None => JSObject.set times v []
                  end in
    if maxMessages <=? List.length (recent now (stored times v))
    then (invalid "You are sending messages too quickly. Please wait a moment.", times1)
    else (valid, JSObject.set times1 v (recent now (stored times v) ++ [now])).
Proof.
  unfold checkRateLimit, stored, recent.
  destruct (JSObject.get times v) eqn:E; cbv zeta.
  - rewrite E. reflexivity.
  - rewrite get_set_same. reflexivity.
Qed.

Lemma checkRateLimit_valid times now v :
  isValid (fst (checkRateLimit times now v))
  = (List.length (recent now (stored times v)) <? maxMessages).
Proof.
  rewrite checkRateLimit_eq. cbv zeta.
  rewrite Nat.ltb_antisym.
  destruct (maxMessages <=? _); reflexivity.
Qed.

Lemma checkRateLimit_stored_other times now v u :
  v <> u -> stored (snd (checkRateLimit times now v)) u = stored times u.
Proof.
  intros Hne. rewrite checkRateLimit_eq. cbv zeta.
  assert (H1 : stored match JSObject.get times v with
                      | Some _ => times
                      | None => JSObject.set times v []
                      end u = stored times u).
  { destruct (JSObject.get times v); [reflexivity|].
    apply stored_set_other. exact Hne. }
  destruct (maxMessages <=? _); cbn [snd].
  - exact H1.
  - rewrite stored_set_other by exact Hne. exact H1.
Qed.

Lemma checkRateLimit_stored_same times now u :
  stored (snd (checkRateLimit times now u)) u
  = if isValid (fst (checkRateLimit times now u))
    then recent now (stored times u) ++ [now]
    else stored times u.
Proof.
  rewrite checkRateLimit_eq. cbv zeta.
  destruct (maxMessages <=? _); cbn [snd fst isValid valid invalid].
  - unfold stored. destruct (JSObject.get times u) eqn:E.
    + rewrite E. reflexivity.
    + rewrite get_set_same. reflexivity.
  - apply stored_set_same.
Qed.

Lemma checkRateLimit_bounded times now v :
  (forall u, List.length (stored times u) <= maxMessages) ->
  forall u, List.length (stored (snd (checkRateLimit times now v)) u) <= maxMessages.
Proof.
  intros Hb u. destruct (string_dec v u) as [->|Hne].
  - rewrite checkRateLimit_stored_same, checkRateLimit_valid.
    destruct (_ <? maxMessages) eqn:E; [|apply Hb].
    apply Nat.ltb_lt in E. rewrite length_app. cbn. lia.
  - rewrite checkRateLimit_stored_other by exact Hne. apply Hb.
Qed.

Lemma sent_not_before times calls lo :
  nondecreasing lo calls = true ->
  forall c, In c (fst (run_calls times calls)) -> (lo <= snd c)%Z.
Proof.
  revert times lo. induction calls as [|[v now] rest IH]; intros times lo Hs c Hin.
  - destruct Hin.
  - cbn in Hs. apply andb_prop in Hs. destruct Hs as [Hlo Hrest].
    apply Z.leb_le in Hlo. cbn [run_calls] in Hin.
    destruct (checkRateLimit times now v) as [result times'].
    specialize (IH times' now Hrest c).
    destruct (run_calls times' rest) as [sent final]. cbn [fst] in *.
    destruct (isValid result).
    + destruct Hin as [<-|Hin]; [cbn; lia|]. specialize (IH Hin). lia.
    + specialize (IH Hin). lia.
Qed.

Lemma in_window_none u t (sent : list (string * Z)) lo :
  (t < lo)%Z -> (forall c, In c sent -> (lo <= snd c)%Z) ->
  filter (in_window u t) sent = [].
Proof.
  intros Hlt Hall. induction sent as [|c sent IH]; [reflexivity|].
  cbn. rewrite IH by (intros; apply Hall; right; assumption).
  assert (Hc := Hall c (or_introl eq_refl)).
  unfold in_window.
  destruct (snd c <=? t)%Z eqn:E; [apply Z.leb_le in E; lia|].
  rewrite andb_false_r. reflexivity.
Qed.

Lemma within_recent now t l :
  (now <= t)%Z -> filter (within t) (recent now l) = filter (within t) l.
Proof.
  intros Hle. unfold recent. induction l as [|s l IH]; [reflexivity|].
  cbn. destruct (now - s <? timeWindow)%Z eqn:E; cbn; rewrite IH; [reflexivity|].
  apply Z.ltb_ge in E. unfold within.
  destruct (t - timeWindow <? s)%Z eqn:E'; [apply Z.ltb_lt in E'; lia|reflexivity].
Qed.

Lemma run_calls_window times calls lo :
  nondecreasing lo calls = true ->
  (forall u, List.length (stored times u) <= maxMessages) ->
  forall u t,
    List.length (filter (within t) (stored times u))
    + List.length (filter (in_window u t) (fst (run_calls times calls)))
    <= maxMessages.
Proof.
  revert times lo. induction calls as [|[v now] rest IH]; intros times lo Hs Hb u t.
  - cbn. specialize (Hb u). pose proof (length_filter_le (within t) (stored times u)). lia.
  - pose proof Hs as Hs'. cbn in Hs. apply andb_prop in Hs. destruct Hs as [Hlo Hrest].
    pose proof (sent_not_before times ((v, now) :: rest) lo Hs') as Hafter.
    pose proof (checkRateLimit_bounded times now v Hb) as Hb'.
    pose proof (checkRateLimit_stored_same times now v) as Hsame.
    pose proof (checkRateLimit_stored_other times now v u) as Hother.
    pose proof (sent_not_before times ((v, now) :: rest) now
                  ltac:(cbn [nondecreasing]; rewrite Z.leb_refl, Hrest; reflexivity)) as Hafter_now.
    cbn [run_calls] in *.
    destruct (checkRateLimit times now v) as [result times']. cbn [fst snd] in *.
    specialize (IH times' now Hrest Hb' u t).
    destruct (run_calls times' rest) as [sent final]. cbn [fst] in *.
    destruct (string_dec v u) as [->|Hne].
    + destruct (isValid result).
      * destruct (Z.lt_ge_cases t now) as [Hlt|Hge].
        -- rewrite (in_window_none u t _ now Hlt Hafter_now). cbn.
           specialize (Hb u).
           pose proof (length_filter_le (within t) (stored times u)). lia.
        -- rewrite Hsame in IH. rewrite filter_app, length_app in IH.
           rewrite within_recent in IH by exact Hge.
           cbn [filter]. unfold in_window at 1. cbn [fst snd].
           rewrite String.eqb_refl. cbn [andb].
           cbn [filter] in IH. unfold within at 2 in IH.
           destruct ((t - timeWindow <? now)%Z && (now <=? t)%Z)%bool; cbn in *; lia.
      * rewrite Hsame in IH. exact IH.
    + rewrite Hother in IH by exact Hne.
      destruct (isValid result); [|exact IH].
      cbn [filter]. unfold in_window at 1. cbn [fst snd].
      destruct (String.eqb v u) eqn:E; [apply String.eqb_eq in E; contradiction|].
      cbn [andb]. exact IH.
Qed.

(** X8.  The rate limit holds over every minute: when the clock never goes
    back, of the calls of one user that were let through, starting from the
    empty table, at most ten lie in any window of 60000 ms. *)
Theorem checkRateLimit_at_most_ten_a_minute :
  forall (calls : list (string * Z)) (lo : Z),
    nondecreasing lo calls = true ->
    forall (userId : string) (t : Z),
      List.length (filter (in_window userId t) (fst (run_calls [] calls)))
      <= maxMessages.
Proof.
  intros calls lo Hs u t.
  pose proof (run_calls_window [] calls lo Hs
                ltac:(intros; cbn; unfold maxMessages; lia) u t) as H.
  cbn in H. exact H.
Qed.

Lemma checkRateLimit_at_most_ten_a_minute_witness :
  List.length (filter (in_window "u-bob" 12000) (fst (run_calls [] burst)))
  <= maxMessages.
Proof.
  apply (checkRateLimit_at_most_ten_a_minute burst 0).
  vm_compute. reflexivity.
Defined.

End RateLimitFacts.

Module RateLimitHistory.

Import MessageValidation RateLimit RateLimitFacts.

Lemma recent_recent now now' l :
  (now <= now')%Z -> recent now' (recent now l) = recent now' l.
Proof.
  intros Hle. unfold recent. induction l as [|s l IH]; [reflexivity|].
  cbn. destruct (now - s <? timeWindow)%Z eqn:E; cbn; rewrite IH; [reflexivity|].
  apply Z.ltb_ge in E.
  destruct (now' - s <? timeWindow)%Z eqn:E'; [apply Z.ltb_lt in E'; lia|reflexivity].
Qed.

Lemma in_window_recent_call u now (sent : list (string * Z)) :
  (forall c, In c sent -> (snd c <= now)%Z) ->
  filter (in_window u now) sent = filter (recent_call u now) sent.
Proof.
  intros Hall. apply filter_ext_in. intros c Hin. specialize (Hall c Hin).
  unfold in_window, recent_call, timeWindow.
  destruct (String.eqb (fst c) u); cbn [andb]; [|reflexivity].
  destruct (snd c <=? now)%Z eqn:E; [|apply Z.leb_gt in E; lia].
  rewrite andb_true_r.
  destruct (now - 60000 <? snd c)%Z eqn:E1, (now - snd c <? 60000)%Z eqn:E2;
    try reflexivity.
  - apply Z.ltb_lt in E1. apply Z.ltb_ge in E2. lia.
  - apply Z.ltb_ge in E1. apply Z.ltb_lt in E2. lia.
Qed.

Lemma run_calls_by_history times sent calls lo :
  nondecreasing lo calls = true ->
  (forall c, In c sent -> (snd c <= lo)%Z) ->
  (forall u now, (lo <= now)%Z ->
     recent now (stored times u) = map snd (filter (recent_call u now) sent)) ->
  fst (run_calls times calls) = run_by_history sent calls.
Proof.
  revert times sent lo.
  induction calls as [|[v now] rest IH]; intros times sent lo Hs Hold Hinv;
    [reflexivity|].
  cbn in Hs. apply andb_prop in Hs. destruct Hs as [Hlo Hrest].
  apply Z.leb_le in Hlo.
  pose proof (checkRateLimit_valid times now v) as Hvalid.
  pose proof (checkRateLimit_stored_same times now v) as Hsame.
  pose proof (fun u => checkRateLimit_stored_other times now v u) as Hother.
  cbn [run_calls run_by_history].
  rewrite (in_window_recent_call v now sent)
    by (intros c Hc; specialize (Hold c Hc); lia).
  rewrite (Hinv v now Hlo) in Hvalid. rewrite length_map in Hvalid.
  destruct (checkRateLimit times now v) as [result times']. cbn [fst snd] in *.
  rewrite <- Hvalid.
  destruct (isValid result).
  - specialize (IH times' (sent ++ [(v, now)]) now Hrest).
    destruct (run_calls times' rest) as [sent' final]. cbn [fst] in *.
    f_equal. apply IH.
    + intros c Hc. apply in_app_iff in Hc. destruct Hc as [Hc|[<-|[]]].
      * specialize (Hold c Hc). lia.
      * cbn. lia.
    + intros u now' Hle. rewrite filter_app, map_app.
      destruct (string_dec v u) as [->|Hne].
      * rewrite Hsame. unfold recent at 1. rewrite filter_app.
        fold (recent now' (recent now (stored times u))).
        rewrite recent_recent by exact Hle.
        rewrite (Hinv u now') by lia. f_equal.
        cbn [filter]. unfold recent_call. cbn [fst snd].
        rewrite String.eqb_refl. cbn [andb].
        destruct (now' - now <? timeWindow)%Z; reflexivity.
      * rewrite Hother by exact Hne. rewrite (Hinv u now') by lia.
        cbn [filter]. unfold recent_call. cbn [fst snd].
        destruct (String.eqb v u) eqn:E; [apply String.eqb_eq in E; contradiction|].
        cbn. rewrite app_nil_r. reflexivity.
  - specialize (IH times' sent now Hrest).
    destruct (run_calls times' rest) as [sent' final]. cbn [fst] in *.
    apply IH.
    + intros c Hc. specialize (Hold c Hc). lia.
    + intros u now' Hle.
      destruct (string_dec v u) as [->|Hne].
      * rewrite Hsame. apply Hinv. lia.
      * rewrite Hother by exact Hne. apply Hinv. lia.
Qed.

(** X9.  The table of recent times decides as the full history would: when
    the clock never goes back, a call is let through exactly when fewer than
    ten calls of the same user were let through in the 60000 ms before it,
    so pruning the table on each accepted call loses nothing. *)
Theorem checkRateLimit_decides_by_history :
  forall (calls : list (string * Z)) (lo : Z),
    nondecreasing lo calls = true ->
    fst (run_calls [] calls) = run_by_history [] calls.
Proof.
  intros calls lo Hs.
  apply (run_calls_by_history [] [] calls lo Hs).
  - intros c [].
  - intros u now _. reflexivity.
Qed.

Lemma checkRateLimit_decides_by_history_witness :
  fst (run_calls [] burst) = run_by_history [] burst.
Proof.
  apply (checkRateLimit_decides_by_history burst 0).
  vm_compute. reflexivity.
Defined.

End RateLimitHistory.

(** ** unbanUser *)

Module UnbanFacts.

Import Model UserManager BanSpec BanHistory.

Lemma find_split {A} (p : A -> bool) (l : list A) x :
  find p l = Some x ->
  exists l1 l2, l = l1 ++ x :: l2 /\ filter p l1 = [] /\ p x = true.
Proof.
  induction l as [|a l IH]; [discriminate|]. cbn. destruct (p a) eqn:E.
  - intros [= <-]. exists [], l. auto.
  - intros H. destruct (IH H) as (l1 & l2 & -> & Hl1 & Hx).
    exists (a :: l1), l2. cbn. rewrite E. auto.
Qed.

Lemma find_none_filter {A} (p : A -> bool) (l : list A) :
  find p l = None <-> filter p l = [].
Proof.
  induction l as [|a l IH]; cbn; [tauto|].
  destruct (p a); [split; discriminate | exact IH].
Qed.

Lemma read_at {A} (l1 l2 : Store.Node A) k v :
  ~ In k (map fst l1) -> Store.read (l1 ++ (k, v) :: l2) k = Some v.
Proof.
  induction l1 as [|[k' v'] l1 IH]; cbn; intros Hnot.
  - rewrite String.eqb_refl. reflexivity.
  - destruct (String.eqb k' k) eqn:E.
    + apply String.eqb_eq in E. tauto.
    + apply IH. tauto.
Qed.

Lemma replace_at {A} (l1 l2 : Store.Node A) k v g :
  ~ In k (map fst l1) ->
  Store.replace (l1 ++ (k, v) :: l2) k g = l1 ++ (k, g v) :: l2.
Proof.
  induction l1 as [|[k' v'] l1 IH]; cbn; intros Hnot.
  - rewrite String.eqb_refl. reflexivity.
  - destruct (String.eqb k' k) eqn:E.
    + apply String.eqb_eq in E. tauto.
    + rewrite IH by tauto. reflexivity.
Qed.

Lemma write_at {A} (l1 l2 : Store.Node A) k v f :
  ~ In k (map fst l1) ->
  Store.write (l1 ++ (k, v) :: l2) k f = l1 ++ (k, f (Some v)) :: l2.
Proof.
  intros Hnot. unfold Store.write. rewrite read_at by exact Hnot.
  exact (replace_at l1 l2 k v (fun v0 => f (Some v0)) Hnot).
Qed.

Lemma filter_snd_entries {A} (p : A -> bool) (n : Store.Node A) :
  map snd (filter (fun entry => p (snd entry)) n) = filter p (map snd n).
Proof.
  induction n as [|[k v] n IH]; [reflexivity|]. cbn.
  destruct (p v); cbn; rewrite IH; reflexivity.
Qed.

Lemma other_user_not_active u other b :
  BanRecord.userId b = u -> other <> u -> is_active_ban_of other b = false.
Proof.
  intros <- Hne. unfold is_active_ban_of.
  destruct (String.eqb (BanRecord.userId b) other) eqn:E; [|reflexivity].
  apply String.eqb_eq in E. congruence.
Qed.

Lemma revoke_userId b revokedBy now revokeReason :
  BanRecord.userId (revoke b revokedBy now revokeReason) = BanRecord.userId b.
Proof. reflexivity. Qed.

(** X10.  [unbanUser] revokes one ban or does nothing. Without an active ban
    of the user it returns [false] and leaves the database as it was. With
    one, in a store whose ban keys are distinct, it returns [true], the user
    has one active ban fewer, the active bans of every other user are the
    same, the user's status is active, and the copies under the user's
    [banHistory] are not touched: the copy of the revoked ban stays as it
    was written. *)
Theorem unbanUser_revokes_one_ban :
  forall (db : Database) (now : Z) (userId revokedBy revokeReason : string),
    distinct_keys (bans db) ->
    let result := unbanUser db now userId revokedBy revokeReason in
    (active_bans db userId = [] -> result = (false, db)) /\
    (active_bans db userId <> [] ->
     fst result = true /\
     List.length (active_bans (snd result) userId) + 1
       = List.length (active_bans db userId) /\
     (forall other, other <> userId ->
        active_bans (snd result) other = active_bans db other) /\
     status_of (snd result) userId = Some Active /\
     history_of (snd result) userId = history_of db userId).
Proof.
  intros db now userId revokedBy revokeReason Hkeys. cbv zeta.
  unfold unbanUser, Store.entries.
  destruct (find _ (bans db)) as [[banId banData]|] eqn:Efind.
  - split.
    + intros Hnone. apply find_split in Efind.
      destruct Efind as (l1 & l2 & Hbans & _ & Hact). cbn [snd] in Hact.
      unfold active_bans, Store.values in Hnone. rewrite Hbans in Hnone.
      rewrite map_app, filter_app in Hnone. cbn in Hnone. rewrite Hact in Hnone.
      destruct (filter _ (map snd l1)); discriminate.
    + intros _. apply find_split in Efind.
      destruct Efind as (l1 & l2 & Hbans & Hl1 & Hact). cbn [snd] in Hact.
      assert (Hnot : ~ In banId (map fst l1)).
      { unfold distinct_keys in Hkeys. rewrite Hbans, map_app in Hkeys. cbn in Hkeys.
        apply NoDup_remove_2 in Hkeys. intros Hin. apply Hkeys.
        apply in_or_app. left. exact Hin. }
      assert (Hl1' : filter (is_active_ban_of userId) (map snd l1) = []).
      { rewrite <- filter_snd_entries. rewrite Hl1. reflexivity. }
      assert (Huser : BanRecord.userId banData = userId).
      { unfold is_active_ban_of in Hact. apply andb_prop in Hact.
        apply String.eqb_eq. tauto. }
      cbn [fst snd]. unfold active_bans, status_of, history_of, logActivity. cbn.
      rewrite Hbans, write_at by exact Hnot. unfold Store.values.
      rewrite !map_app, !filter_app. cbn [map filter snd].
      rewrite BanFacts.revoke_not_active, Hact, Hl1'. cbn.
      rewrite StoreFacts.read_write_same. cbn.
      split; [reflexivity|]. split; [lia|]. split; [|split].
      * intros other Hne. rewrite !filter_app. cbn [filter].
        rewrite (other_user_not_active userId other banData Huser Hne).
        rewrite (other_user_not_active userId other (revoke banData _ _ _));
          [reflexivity | exact Huser | exact Hne].
      * reflexivity.
      * destruct (Store.read (users db) userId); reflexivity.
  - split; [reflexivity|].
    intros Hsome. exfalso. apply Hsome.
    unfold active_bans, Store.values. rewrite <- filter_snd_entries.
    apply find_none_filter in Efind. rewrite Efind. reflexivity.
Qed.

Lemma unbanUser_revokes_one_ban_witness :
  active_bans banned_for_a_day "alice" <> [] /\
  active_bans (snd (unbanUser banned_for_a_day 3000 "alice" "admin" "appeal")) "alice"
  = [] /\
  option_map BanRecord.isActive
    (Store.read
       (history_of (snd (unbanUser banned_for_a_day 3000 "alice" "admin" "appeal"))
          "alice") "-ban1")
  = Some true.
Proof.
  pose proof (unbanUser_revokes_one_ban banned_for_a_day 3000 "alice" "admin" "appeal"
                ltac:(vm_compute; repeat constructor; intros [])) as [_ H].
  assert (Hsome : active_bans banned_for_a_day "alice" <> [])
    by (vm_compute; discriminate).
  destruct (H Hsome) as (_ & Hlen & _ & _ & Hhist).
  split; [exact Hsome|]. split.
  - destruct (active_bans (snd (unbanUser _ _ _ _ _)) "alice"); [reflexivity|].
    exfalso.
    assert (Hone : List.length (active_bans banned_for_a_day "alice") = 1%nat)
      by (vm_compute; reflexivity).
    rewrite Hone in Hlen. cbn [List.length] in Hlen. lia.
  - rewrite Hhist. vm_compute. reflexivity.
Defined.

End UnbanFacts.

(** ** Accounts: permissions, suspensions and roles *)

Module AccountFacts.

Import Model Accounts.

Lemma read_replace_other {A} (n : Store.Node A) key key' g :
  key' <> key -> Store.read (Store.replace n key g) key' = Store.read n key'.
Proof.
  intros Hne. induction n as [|[k v] n IH]; [reflexivity|]. cbn.
  destruct (String.eqb k key) eqn:E; cbn.
  - apply String.eqb_eq in E. subst k.
    destruct (String.eqb key key') eqn:E'; [|reflexivity].
    apply String.eqb_eq in E'. congruence.
  - rewrite IH. reflexivity.
Qed.

Lemma read_insert_other {A} (n : Store.Node A) key key' v :
  key' <> key -> Store.read (Store.insert n key v) key' = Store.read n key'.
Proof.
  intros Hne. induction n as [|[k v'] n IH]; cbn.
  - destruct (String.eqb key key') eqn:E; [|reflexivity].
    apply String.eqb_eq in E. congruence.
  - destruct (String.ltb key k); cbn.
    + destruct (String.eqb key key') eqn:E; [|reflexivity].
      apply String.eqb_eq in E. congruence.
    + rewrite IH. reflexivity.
Qed.

Lemma read_write_other {A} (n : Store.Node A) key key' f :
  key' <> key -> Store.read (Store.write n key f) key' = Store.read n key'.
Proof.
  intros Hne. unfold Store.write. destruct (Store.read n key).
  - apply read_replace_other. exact Hne.
  - apply read_insert_other. exact Hne.
Qed.

Lemma read_update_same s uid f :
  Store.read (accounts (update_account s uid f)) uid
  = Some (f (or_empty (Store.read (accounts s) uid))).
Proof.
  exact (StoreFacts.read_write_same (accounts s) uid (fun old => f (or_empty old))).
Qed.

Lemma read_update_other s uid uid' f :
  uid' <> uid ->
  Store.read (accounts (update_account s uid f)) uid' = Store.read (accounts s) uid'.
Proof. intros H. unfold update_account. cbn. apply read_write_other. exact H. Qed.

(** X11.  Whoever is allowed to act is an active user with the permission: a
    [true] answer is only given for a stored account whose permissions
    contain the action and whose status was active, or suspended with a time
    that has passed; after the call the status is active. A banned user is
    never allowed. *)
Theorem canUserPerformAction_needs_active :
  forall (s : State) (now : Z) (userId : string) (action : PermissionKey),
    fst (canUserPerformAction s now userId action) = true ->
    exists a,
      getUserProfile s userId = Some a /\
      allowed a action = true /\
      (UserProfile.status (profile a) = Some Active \/
       UserProfile.status (profile a) = Some Suspended /\
       exists t, suspendedUntil a = Some t /\ (t < now)%Z) /\
      status_of (snd (canUserPerformAction s now userId action)) userId = Some Active.
Proof.
  intros s now userId action. unfold canUserPerformAction, getUserProfile, status_of.
  destruct (Store.read (accounts s) userId) as [a|] eqn:Eread; [|discriminate].
  destruct (UserProfile.status (profile a)) as [[| |]|] eqn:Estatus; cbn.
  - intros Hallowed. exists a. rewrite Eread, Estatus. auto.
  - discriminate.
  - destruct (suspendedUntil a) as [t|] eqn:Euntil; cbn; [|discriminate].
    destruct (t =? 0)%Z; cbn; [discriminate|].
    destruct (t <? now)%Z eqn:Et; cbn; [|discriminate].
    intros Hallowed. exists a.
    change (Store.read (Store.write (accounts s) userId _) userId)
      with (Store.read (accounts (update_account s userId
              (fun a' => mkAccount (UserProfile.with_status Active (profile a'))
                           None None (lastWarning a')))) userId).
    rewrite read_update_same. cbn.
    apply Z.ltb_lt in Et. repeat split; eauto.
  - discriminate.
Qed.

Lemma canUserPerformAction_needs_active_witness :
  status_of (snd (canUserPerformAction signed_in 5000 "u-bob" CanSendMessages)) "u-bob"
  = Some Active.
Proof.
  destruct (canUserPerformAction_needs_active signed_in 5000 "u-bob" CanSendMessages
              ltac:(vm_compute; reflexivity)) as (a & _ & _ & _ & H).
  exact H.
Defined.



End AccountFacts.

Module RoleFacts.

Import Model Accounts AccountFacts.

Lemma empty_role_has_its_permissions : role_has_its_permissions empty.
Proof. intros role H. discriminate. Qed.

Lemma or_empty_agrees s uid :
  roles_agree s -> role_has_its_permissions (or_empty (Store.read (accounts s) uid)).
Proof.
  intros H. destruct (Store.read (accounts s) uid) eqn:E; cbn.
  - exact (H uid a E).
  - exact empty_role_has_its_permissions.
Qed.

Lemma update_account_agrees s uid f :
  roles_agree s ->
  (forall a, role_has_its_permissions a -> role_has_its_permissions (f a)) ->
  roles_agree (update_account s uid f).
Proof.
  intros Hs Hf uid' a Hread.
  destruct (string_dec uid' uid) as [->|Hne].
  - rewrite read_update_same in Hread. injection Hread as <-.
    apply Hf. apply or_empty_agrees. exact Hs.
  - rewrite read_update_other in Hread by exact Hne. exact (Hs uid' a Hread).
Qed.

Lemma logActivity_agrees s now userId action details :
  roles_agree s -> roles_agree (logActivity s now userId action details).
Proof. intros H. destruct details; exact H. Qed.

Lemma step_agrees s s' : step s s' -> roles_agree s -> roles_agree s'.
Proof.
  intros Hstep Hs.
  destruct Hstep as [s now uid email displayName | s now uid newRole updatedBy
                    | s now uid suspendedBy reason hours | s now uid warnedBy reason
                    | s now uid | s uid | s now uid action].
  - unfold initializeUser.
    destruct (Store.read (accounts s) uid) eqn:E.
    + destruct (if truthy_string displayName then displayName
                else UserProfile.displayName (profile a)); [|exact Hs].
      apply logActivity_agrees, update_account_agrees; [exact Hs|].
      intros a0 Ha role Hrole. cbn in *. exact (Ha role Hrole).
    + destruct displayName; [|exact Hs].
      apply logActivity_agrees, update_account_agrees; [exact Hs|].
      intros a0 _ role Hrole. cbn in *. injection Hrole as <-. reflexivity.
  - apply logActivity_agrees, update_account_agrees; [exact Hs|].
    intros a _ role Hrole. cbn in *. injection Hrole as <-. reflexivity.
  - apply logActivity_agrees, update_account_agrees; [exact Hs|].
    intros a Ha role Hrole. cbn in *. exact (Ha role Hrole).
  - apply logActivity_agrees, update_account_agrees; [exact Hs|].
    intros a Ha role Hrole. cbn in *. exact (Ha role Hrole).
  - apply update_account_agrees; [exact Hs|].
    intros a Ha role Hrole. cbn in *. exact (Ha role Hrole).
  - apply update_account_agrees; [exact Hs|].
    intros a Ha role Hrole. cbn in *. exact (Ha role Hrole).
  - unfold canUserPerformAction, getUserProfile.
    destruct (Store.read (accounts s) uid) as [a|]; [|exact Hs].
    destruct (_ && _)%bool.
    + destruct (_ <? now)%Z; [|exact Hs]. cbn [snd].
      apply update_account_agrees; [exact Hs|].
      intros a0 Ha role Hrole. cbn in *. exact (Ha role Hrole).
    + destruct (negb _); exact Hs.
Qed.

(** X13.  Role and permissions stay together. In every state that the
    operations of the module reach from the empty one, an account that has a
    role has exactly the permissions of that role; and the permission sets
    grow with the role, from user over moderator to admin. *)
Theorem role_decides_permissions :
  forall s : State,
    reachable s ->
    roles_agree s /\
    permits_at_most (rolePermissions RoleUser) (rolePermissions RoleModerator) /\
    permits_at_most (rolePermissions RoleModerator) (rolePermissions RoleAdmin).
Proof.
  intros s Hreach. split; [|split].
  - induction Hreach as [|s s' _ IH Hstep].
    + intros uid a H. discriminate.
    + exact (step_agrees s s' Hstep IH).
  - intros [] H; cbn in *; congruence.
  - intros [] H; cbn in *; congruence.
Qed.

Lemma role_decides_permissions_witness : roles_agree suspended_bob.
Proof.
  apply role_decides_permissions.
  apply (reach_step signed_in).
  - apply (reach_step emptyState); [apply reach_empty|].
    apply (step_initializeUser emptyState 1000 "u-bob" "bob@example.com"
             (Some "Bob"%string)).
  - apply (step_suspendUser signed_in 2000 "u-bob" "u-admin" "flooding" 2).
Defined.

(** X14.  A login changes nothing in what a user may do. For an account that
    exists, [initializeUser] leaves role, status, permissions, counters and
    the suspension as they are, so every later permission check gives the
    answer it would have given without the login: a banned user stays
    banned, and a node that another operation created without role and
    permissions never receives them. When the caller gives a display name,
    or the account has one, the login stores the name and stamps
    [lastActive]; when neither has one the update is refused and the state
    stays as it is. In both cases the login adds nothing to the activity
    log. *)
Theorem initializeUser_keeps_existing_account :
  forall (s : State) (now : Z) (uid email : string) (displayName : option string)
         (a : Account),
    Store.read (accounts s) uid = Some a ->
    let s' := initializeUser s now uid email displayName in
    let name := if truthy_string displayName then displayName
                else UserProfile.displayName (profile a) in
    (exists a',
        Store.read (accounts s') uid = Some a' /\
        UserProfile.role (profile a') = UserProfile.role (profile a) /\
        UserProfile.status (profile a') = UserProfile.status (profile a) /\
        UserProfile.permissions (profile a') = UserProfile.permissions (profile a) /\
        UserProfile.createdAt (profile a') = UserProfile.createdAt (profile a) /\
        UserProfile.messageCount (profile a') = UserProfile.messageCount (profile a) /\
        suspendedUntil a' = suspendedUntil a /\
        (name <> None ->
         UserProfile.lastActive (profile a') = Some now /\
         UserProfile.displayName (profile a') = name)) /\
    (name = None -> s' = s) /\
    activity s' = activity s /\
    (forall later action,
        fst (canUserPerformAction s' later uid action)
        = fst (canUserPerformAction s later uid action)).
Proof.
  intros s now uid email displayName a Hread. cbv zeta.
  unfold initializeUser. rewrite Hread.
  destruct (if truthy_string displayName then displayName
            else UserProfile.displayName (profile a)) as [name|] eqn:Ename.
  - split; [|split; [|split]].
    + eexists. cbn [logActivity accounts]. rewrite read_update_same, Hread.
      split; [reflexivity|]. cbn. repeat split; reflexivity.
    + discriminate.
    + reflexivity.
    + intros later action. unfold canUserPerformAction, getUserProfile.
      cbn [logActivity accounts]. rewrite read_update_same, Hread. cbn.
      destruct (is_value Status_eqb (UserProfile.status (profile a)) Suspended
                && truthy_Z (suspendedUntil a))%bool.
      * destruct (_ <? later)%Z; reflexivity.
      * destruct (negb _); reflexivity.
  - split; [|split; [|split]]; try reflexivity.
    exists a. split; [exact Hread|].
    do 6 (split; [reflexivity|]). intros Hnone. contradiction.
Qed.

Lemma initializeUser_keeps_existing_account_witness :
  fst (canUserPerformAction
         (initializeUser suspended_bob 3000 "u-bob" "bob@example.com" None)
         4000 "u-bob" CanSendMessages)
  = false.
Proof.
  destruct (initializeUser_keeps_existing_account suspended_bob 3000 "u-bob"
              "bob@example.com" None
              (mkAccount
                 (UserProfile.mk (Some "u-bob"%string) (Some "bob@example.com"%string)
                    (Some "Bob"%string) (Some RoleUser) (Some Suspended) (Some 1000%Z)
                    (Some 1000%Z) (Some 0%Z) (Some 0%Z) (Some 0%Z) []
                    (Some defaultPermissions))
                 (Some 7202000%Z) (Some "flooding"%string) None)
              ltac:(vm_compute; reflexivity)) as (_ & _ & _ & H).
  rewrite H. vm_compute. reflexivity.
Defined.

End RoleFacts.

(** ** Array.prototype.sort, as the embedding has it *)

Module SortFacts.

Import Order.

Lemma in_insert {A} (before : A -> A -> bool) x l z :
  In z (JSArray.insert before x l) <-> z = x \/ In z l.
Proof.
  induction l as [|y l IH]; cbn.
  - intuition congruence.
  - destruct (before x y); cbn; [intuition congruence|].
    rewrite IH. intuition congruence.
Qed.

Lemma sort_cons {A} (before : A -> A -> bool) x l :
  JSArray.sort before (x :: l) = JSArray.insert before x (JSArray.sort before l).
Proof. reflexivity. Qed.

Lemma in_sort {A} (before : A -> A -> bool) l z :
  In z (JSArray.sort before l) <-> In z l.
Proof.
  induction l as [|x l IH]; [cbn; tauto|].
  rewrite sort_cons, in_insert, IH. cbn. intuition congruence.
Qed.

Lemma length_insert {A} (before : A -> A -> bool) x l :
  List.length (JSArray.insert before x l) = S (List.length l).
Proof.
  induction l as [|y l IH]; cbn; [reflexivity|].
  destruct (before x y); cbn; [reflexivity|]. rewrite IH. reflexivity.
Qed.

Lemma length_sort {A} (before : A -> A -> bool) l :
  List.length (JSArray.sort before l) = List.length l.
Proof.
  induction l as [|x l IH]; [reflexivity|].
  rewrite sort_cons, length_insert, IH. reflexivity.
Qed.

Lemma forall_sort {A} (before : A -> A -> bool) (P : A -> Prop) l :
  Forall P l -> Forall P (JSArray.sort before l).
Proof.
  intros H. apply Forall_forall. intros z Hz. apply in_sort in Hz.
  rewrite Forall_forall in H. exact (H z Hz).
Qed.

Section Sorted.

Context {A : Type} (before : A -> A -> bool) (P : A -> Prop).
Hypothesis total : forall a b, P a -> P b -> before a b = false -> before b a = true.
Hypothesis trans :
  forall a b c, P a -> P b -> P c ->
                before a b = true -> before b c = true -> before a c = true.

Lemma insert_ordered x l :
  P x -> Forall P l ->
  ordered (fun a b => before a b = true) l ->
  ordered (fun a b => before a b = true) (JSArray.insert before x l).
Proof.
  intros Hx. induction l as [|y l IH]; intros HP Hord; cbn.
  - auto.
  - inversion HP as [|? ? Hy HPl]; subst. destruct Hord as [Hy_all Hord].
    destruct (before x y) eqn:E; cbn.
    + split; [|split; assumption].
      constructor; [exact E|].
      rewrite Forall_forall in *. intros z Hz.
      exact (trans x y z Hx Hy (HPl z Hz) E (Hy_all z Hz)).
    + split; [|apply IH; assumption].
      apply Forall_forall. intros z Hz. apply in_insert in Hz.
      destruct Hz as [->|Hz].
      * exact (total x y Hx Hy E).
      * rewrite Forall_forall in Hy_all. exact (Hy_all z Hz).
Qed.

Lemma sort_ordered l :
  Forall P l -> ordered (fun a b => before a b = true) (JSArray.sort before l).
Proof.
  induction l as [|x l IH]; intros HP; [exact I|].
  inversion HP; subst. rewrite sort_cons.
  apply insert_ordered; [assumption | apply forall_sort; assumption | auto].
Qed.

End Sorted.

Lemma firstn_ordered {A} (R : A -> A -> Prop) n l :
  ordered R l -> ordered R (firstn n l).
Proof.
  revert l. induction n as [|n IH]; intros [|x l] H; cbn; auto.
  destruct H as [Hx H]. split; [|apply IH; exact H].
  apply Forall_forall. intros z Hz. rewrite Forall_forall in Hx.
  apply Hx. revert Hz. clear. revert l. induction n as [|n IH]; intros [|y l]; cbn; try tauto.
  intros [->|H]; [left; reflexivity | right; apply IH; exact H].
Qed.

Lemma firstn_in {A} n (l : list A) z : In z (firstn n l) -> In z l.
Proof.
  revert l. induction n as [|n IH]; intros [|y l]; cbn; try tauto.
  intros [->|H]; [left; reflexivity | right; apply IH; exact H].
Qed.

Lemma map_ordered {A B} (f : A -> B) (R : A -> A -> Prop) (S : B -> B -> Prop) l :
  (forall a b, In a l -> In b l -> R a b -> S (f a) (f b)) ->
  ordered R l -> ordered S (map f l).
Proof.
  induction l as [|x l IH]; intros Hf H; cbn; [exact I|].
  destruct H as [Hx H]. split.
  - apply Forall_forall. intros z Hz. apply in_map_iff in Hz.
    destruct Hz as (y & <- & Hy). rewrite Forall_forall in Hx.
    apply Hf; [left; reflexivity | right; exact Hy | exact (Hx y Hy)].
  - apply IH; [|exact H]. intros a b Ha Hb. apply Hf; right; assumption.
Qed.

Lemma ordered_impl {A} (R S : A -> A -> Prop) l :
  (forall a b, R a b -> S a b) -> ordered R l -> ordered S l.
Proof.
  intros HRS. induction l as [|x l IH]; cbn; [auto|].
  intros [Hx H]. split; [|exact (IH H)].
  apply Forall_forall. intros z Hz. rewrite Forall_forall in Hx. exact (HRS x z (Hx z Hz)).
Qed.

End SortFacts.

(** ** getUserStats *)

Module UserStatsFacts.

Import Model Accounts Order SortFacts.

Lemma status_split (users : list UserProfile.t) :
  List.length (filter (fun user => is_value Status_eqb (UserProfile.status user) Banned) users)
  + List.length (filter (fun user => is_value Status_eqb (UserProfile.status user) Suspended)
                        users)
  <= List.length users.
Proof.
  induction users as [|u users IH]; cbn; [lia|].
  destruct (UserProfile.status u) as [[| |]|]; cbn; lia.
Qed.

Lemma by_messageCount_total a b :
  has_messages a -> has_messages b ->
  by_messageCount_desc a b = false -> by_messageCount_desc b a = true.
Proof.
  intros (x & Hx & _) (y & Hy & _). unfold by_messageCount_desc. rewrite Hx, Hy.
  intros H. apply Z.leb_gt in H. apply Z.leb_le. lia.
Qed.

Lemma by_messageCount_trans a b c :
  has_messages a -> has_messages b -> has_messages c ->
  by_messageCount_desc a b = true -> by_messageCount_desc b c = true ->
  by_messageCount_desc a c = true.
Proof.
  intros (x & Hx & _) (y & Hy & _) (z & Hz & _). unfold by_messageCount_desc.
  rewrite Hx, Hy, Hz. intros H1 H2.
  apply Z.leb_le in H1. apply Z.leb_le in H2. apply Z.leb_le. lia.
Qed.

(** X15.  The figures of [getUserStats] are consistent. The banned and the
    suspended users together, the recently active and the new ones are each
    at most all users; the most active users are at most ten, each with a
    positive message count, listed by falling count; the recent activity has
    at most fifty entries of the log, newest first. *)
Theorem getUserStats_bounds :
  forall (s : State) (now : Z),
    let stats := getUserStats s now in
    totalUsers stats = List.length (accounts s) /\
    bannedUsers stats + suspendedUsers stats <= totalUsers stats /\
    activeUsers stats <= totalUsers stats /\
    newUsersToday stats <= totalUsers stats /\
    List.length (mostActiveUsers stats) <= 10 /\
    (exists counts,
        map au_messageCount (mostActiveUsers stats) = map Some counts /\
        Forall (fun c => (0 < c)%Z) counts /\
        ordered Z.ge counts) /\
    List.length (recentActivity stats) = Nat.min 50 (List.length (activity s)) /\
    (forall entry, In entry (recentActivity stats) -> In entry (activity s)) /\
    ordered (fun a b => (timestamp b <= timestamp a)%Z) (recentActivity stats).
Proof.
  intros s now. cbv zeta. unfold getUserStats. cbn [totalUsers bannedUsers
    suspendedUsers activeUsers newUsersToday mostActiveUsers recentActivity].
  set (users := map profile (Store.values (accounts s))).
  set (active := filter (fun user => above (UserProfile.messageCount user) 0) users).
  assert (Hactive : Forall has_messages active).
  { apply Forall_forall. intros u Hu. apply filter_In in Hu. destruct Hu as [_ Hu].
    unfold above in Hu. destruct (UserProfile.messageCount u) as [c|] eqn:E; [|discriminate].
    exists c. split; [exact E|]. apply Z.ltb_lt. exact Hu. }
  set (top := JSArray.slice_to 10 (JSArray.sort by_messageCount_desc active)).
  assert (Htop : Forall has_messages top).
  { apply Forall_forall. intros u Hu. apply firstn_in in Hu.
    apply in_sort in Hu. rewrite Forall_forall in Hactive. exact (Hactive u Hu). }
  assert (Hord : ordered (fun a b => by_messageCount_desc a b = true) top).
  { apply firstn_ordered.
    apply (sort_ordered by_messageCount_desc has_messages
             by_messageCount_total by_messageCount_trans). exact Hactive. }
  split; [|split; [|split; [|split; [|split; [|split; [|split; [|split]]]]]]].
  - unfold users, Store.values. rewrite !length_map. reflexivity.
  - apply status_split.
  - apply ObjectFacts.length_filter_le.
  - apply ObjectFacts.length_filter_le.
  - rewrite length_map. unfold top, JSArray.slice_to. rewrite length_firstn. lia.
  - exists (map count_of top). split; [|split].
    + rewrite !map_map. apply map_ext_in. intros u Hu. cbn.
      rewrite Forall_forall in Htop. destruct (Htop u Hu) as (c & Hc & _).
      unfold count_of. rewrite Hc. reflexivity.
    + apply Forall_forall. intros c Hc. apply in_map_iff in Hc.
      destruct Hc as (u & <- & Hu). rewrite Forall_forall in Htop.
      destruct (Htop u Hu) as (c & Hc & Hpos). unfold count_of. rewrite Hc. exact Hpos.
    + apply (map_ordered count_of (fun a b => by_messageCount_desc a b = true)).
      * intros a b Ha Hb. rewrite Forall_forall in Htop.
        destruct (Htop a Ha) as (x & Hx & _). destruct (Htop b Hb) as (y & Hy & _).
        unfold by_messageCount_desc, count_of. rewrite Hx, Hy.
        intros H. apply Z.leb_le in H. lia.
      * exact Hord.
  - unfold JSArray.slice_to. rewrite length_firstn, length_sort. reflexivity.
  - intros entry H. apply firstn_in in H. apply in_sort in H. exact H.
  - apply firstn_ordered.
    apply (ordered_impl (fun a b => by_timestamp_desc a b = true)).
    + intros a b H. unfold by_timestamp_desc in H. apply Z.leb_le. exact H.
    + apply (sort_ordered by_timestamp_desc (fun _ => True)).
      * intros a b _ _ H. unfold by_timestamp_desc in *.
        apply Z.leb_gt in H. apply Z.leb_le. lia.
      * intros a b c _ _ _ H1 H2. unfold by_timestamp_desc in *.
        apply Z.leb_le in H1. apply Z.leb_le in H2. apply Z.leb_le. lia.
      * apply Forall_forall. intros; exact I.
Qed.

End UserStatsFacts.

(** ** Flag records: listings and re-flagging *)

Module FlagListingFacts.

Import Model MessageModerator FlagViews.

Lemma filter_filter {A} (p q : A -> bool) (l : list A) :
  filter p (filter q l) = filter (fun x => p x && q x)%bool l.
Proof.
  induction l as [|a l IH]; [reflexivity|]. cbn.
  destruct (q a); cbn; rewrite ?andb_true_r, ?andb_false_r.
  - destruct (p a); rewrite IH; reflexivity.
  - exact IH.
Qed.

Lemma reason_split_length (l : list FlaggedMessage.t) :
  List.length (filter (fun msg => FlagReason_eqb (FlaggedMessage.flagReason msg) Profanity) l)
  + List.length (filter (fun msg => FlagReason_eqb (FlaggedMessage.flagReason msg) Spam) l)
  + List.length (filter (fun msg => FlagReason_eqb (FlaggedMessage.flagReason msg) Harassment) l)
  + List.length (filter (fun msg => FlagReason_eqb (FlaggedMessage.flagReason msg) Inappropriate) l)
  + List.length (filter (fun msg => FlagReason_eqb (FlaggedMessage.flagReason msg) Manual) l)
  = List.length l.
Proof.
  induction l as [|m l IH]; [reflexivity|]. cbn.
  destruct (FlaggedMessage.flagReason m); cbn; lia.
Qed.

(** X16.  The statistics count what the listings list. Each severity count
    is the length of [getFlaggedMessagesBySeverity] and each reason count
    the length of [getFlaggedMessagesByReason]; the five reason counts add
    up to the unreviewed flags, and so do the automatic and the manual ones. *)
Theorem stats_agree_with_listings :
  forall flaggedMessages : list FlaggedMessage.t,
    let stats := getFlaggedMessagesStats flaggedMessages in
    (forall sev,
        severity_count (bySeverity stats) sev
        = List.length (getFlaggedMessagesBySeverity flaggedMessages sev)) /\
    (forall reason,
        reason_count (byReason stats) reason
        = List.length (getFlaggedMessagesByReason flaggedMessages reason)) /\
    profanity (byReason stats) + spam (byReason stats) + harassment (byReason stats)
      + inappropriate (byReason stats) + manual (byReason stats)
      = unreviewed stats /\
    autoFlagged stats + manualFlagged stats = unreviewed stats.
Proof.
  intros l. cbv zeta. unfold getFlaggedMessagesStats.
  cbn [bySeverity byReason unreviewed autoFlagged manualFlagged].
  split; [|split; [|split]].
  - intros []; cbn [severity_count low medium high];
      unfold getFlaggedMessagesBySeverity; rewrite filter_filter; reflexivity.
  - intros []; cbn [reason_count profanity spam harassment inappropriate manual];
      unfold getFlaggedMessagesByReason; rewrite filter_filter; reflexivity.
  - cbn [profanity spam harassment inappropriate manual]. apply reason_split_length.
  - rewrite Nat.add_comm. apply FlagStoreFacts.filter_split_length.
Qed.

End FlagListingFacts.

Module ReflagFacts.

Import Model MessageModerator FlagViews.

(** A review does not ask whether there is a flag.  For a message id
    without a flag record, [reviewFlaggedMessage] succeeds and creates a
    record that holds the four review properties and nothing else: no
    text, no reason, no severity and no flag time. *)
Theorem review_without_flag_creates_record :
  forall (db : Database) (now : Z) (messageId reviewerId : string)
         (action : ReviewAction),
    flag_at db messageId = None ->
    let result := reviewFlaggedMessage db now messageId reviewerId action in
    fst result = true /\
    flag_at (snd result) messageId
    = Some (FlaggedNode.mk None None None None None None None None None None
              (Some true) (Some reviewerId) (Some now) (Some action)) /\
    List.length (flaggedMessages (snd result)) = S (List.length (flaggedMessages db)).
Proof.
  intros db now messageId reviewerId action Hnone. cbv zeta.
  unfold flag_at in *. unfold reviewFlaggedMessage.
  split; [reflexivity|].
  assert (Hflags :
    flaggedMessages
      (snd (reviewFlaggedMessage db now messageId reviewerId action))
    = Store.write (flaggedMessages db) messageId
        (fun old =>
           FlaggedNode.merge
             (match old with Some o => o | None => FlaggedNode.empty end)
             (FlaggedNode.mk None None None None None None None None None None
                (Some true) (Some reviewerId) (Some now) (Some action)))).
  { unfold reviewFlaggedMessage. destruct (ReviewAction_eqb action Deleted); reflexivity. }
  unfold reviewFlaggedMessage in Hflags. cbn [snd] in *. rewrite Hflags.
  split.
  - rewrite StoreFacts.read_write_same, Hnone. reflexivity.
  - unfold Store.write. rewrite Hnone.
    pose proof (StoreFacts.count_insert (fun _ => true) (flaggedMessages db) messageId
                  (FlaggedNode.merge FlaggedNode.empty
                     (FlaggedNode.mk None None None None None None None None None None
                        (Some true) (Some reviewerId) (Some now) (Some action)))) as Hc.
    unfold Store.count, Store.values in Hc.
    assert (Hall : forall (n : Store.Node FlaggedNode.t),
               List.length (filter (fun _ => true) (map snd n)) = List.length n).
    { intros n. induction n as [|e n IH]; cbn; [reflexivity|]. rewrite IH. reflexivity. }
    rewrite !Hall in Hc. rewrite Hc. lia.
Qed.

Lemma review_without_flag_creates_record_witness :
  option_map FlaggedNode.severity
    (flag_at (snd (reviewFlaggedMessage emptyDatabase 7000 "-m9" "u-admin" Approved))
       "-m9")
  = Some None.
Proof.
  destruct (review_without_flag_creates_record emptyDatabase 7000 "-m9" "u-admin"
              Approved ltac:(reflexivity)) as (_ & H & _).
  rewrite H. reflexivity.
Defined.

(** X17.  Flagging a reviewed message again opens it without clearing the
    review. After a review and a second [flagMessage] for the same id by a
    flagger, the call succeeds and the record is unreviewed and carries the
    new reason, severity, flag time and flagger, while reviewer, review time
    and action are still those of the earlier review. Without a flagger the
    second [flagMessage] fails, and the store stays as the review left it. *)
Theorem reflag_keeps_review_stamps :
  forall (db : Database) (reviewTime flagTime : Z)
         (messageId reviewerId text user : string) (action : ReviewAction)
         (userId : option string) (flaggedBy : string) (timestamp : Z)
         (reason : FlagReason) (sev : Severity) (auto : bool),
    let reviewed := snd (reviewFlaggedMessage db reviewTime messageId reviewerId action) in
    let result :=
      flagMessage reviewed flagTime messageId text user userId timestamp reason sev
        (Some flaggedBy) auto in
    fst result = true /\
    (exists flag,
        flag_at (snd result) messageId = Some flag /\
        FlaggedNode.reviewed flag = Some false /\
        FlaggedNode.flagReason flag = Some reason /\
        FlaggedNode.severity flag = Some sev /\
        FlaggedNode.flaggedAt flag = Some flagTime /\
        FlaggedNode.flaggedBy flag = Some flaggedBy /\
        FlaggedNode.reviewedBy flag = Some reviewerId /\
        FlaggedNode.reviewedAt flag = Some reviewTime /\
        FlaggedNode.action flag = Some action) /\
    flagMessage reviewed flagTime messageId text user userId timestamp reason sev
      None auto
    = (false, reviewed).
Proof.
  intros db reviewTime flagTime messageId reviewerId text user action userId flaggedBy
         timestamp reason sev auto. cbv zeta.
  split; [reflexivity|]. split; [|reflexivity].
  unfold flag_at, flagMessage. cbn [snd flaggedMessages set_flaggedMessages].
  rewrite StoreFacts.read_write_same.
  assert (Hrev : exists old,
    Store.read
      (flaggedMessages (snd (reviewFlaggedMessage db reviewTime messageId reviewerId action)))
      messageId = Some old /\
    FlaggedNode.reviewedBy old = Some reviewerId /\
    FlaggedNode.reviewedAt old = Some reviewTime /\
    FlaggedNode.action old = Some action).
  { unfold reviewFlaggedMessage.
    destruct (ReviewAction_eqb action Deleted); cbn [snd deleteMessage flaggedMessages
      set_flaggedMessages set_messages];
      rewrite StoreFacts.read_write_same; eexists; (split; [reflexivity|]); cbn; auto. }
  destruct Hrev as (old & -> & Hby & Hat & Hact).
  eexists. split; [reflexivity|]. cbn. rewrite Hby, Hat, Hact. auto 10.
Qed.

End ReflagFacts.

(** ** Tallies kept in objects *)

Module TallyFacts.

Import Tally SortFacts ObjectFacts.
Local Open Scope nat_scope.

Lemma in_set_keys {A} (o : JSObject.t A) k v k' :
  In k' (map fst (JSObject.set o k v)) <-> k' = k \/ In k' (map fst o).
Proof.
  induction o as [|[k0 v0] o IH]; cbn.
  - intuition congruence.
  - destruct (String.eqb k0 k) eqn:E; cbn.
    + apply String.eqb_eq in E. subst k0. intuition congruence.
    + rewrite IH. intuition congruence.
Qed.

Lemma set_keys_distinct {A} (o : JSObject.t A) k v :
  NoDup (map fst o) -> NoDup (map fst (JSObject.set o k v)).
Proof.
  induction o as [|[k0 v0] o IH]; cbn; intros H.
  - constructor; [tauto | constructor].
  - inversion H as [|? ? Hnot Hrest]; subst.
    destruct (String.eqb k0 k) eqn:E; cbn.
    + constructor; assumption.
    + constructor; [|apply IH; exact Hrest].
      rewrite in_set_keys. intros [->|Hin]; [|contradiction].
      rewrite String.eqb_refl in E. discriminate.
Qed.

Lemma in_get {A} (o : JSObject.t A) k v :
  NoDup (map fst o) -> In (k, v) o -> JSObject.get o k = Some v.
Proof.
  induction o as [|[k0 v0] o IH]; cbn; intros Hnd Hin; [contradiction|].
  inversion Hnd as [|? ? Hnot Hrest]; subst.
  destruct Hin as [[= -> ->]|Hin].
  - rewrite String.eqb_refl. reflexivity.
  - destruct (String.eqb k0 k) eqn:E.
    + apply String.eqb_eq in E. subst k0. exfalso. apply Hnot.
      apply in_map_iff. exists (k, v). auto.
    + apply IH; assumption.
Qed.

Lemma get_in {A} (o : JSObject.t A) k v :
  JSObject.get o k = Some v -> In (k, v) o.
Proof.
  induction o as [|[k0 v0] o IH]; cbn; [discriminate|].
  destruct (String.eqb k0 k) eqn:E.
  - apply String.eqb_eq in E. intros [= ->]. left. congruence.
  - intros H. right. exact (IH H).
Qed.

Lemma in_entries {A} (o : JSObject.t A) e :
  In e (JSObject.entries o) <-> In e o.
Proof.
  unfold JSObject.entries. rewrite in_app_iff, in_sort, !filter_In.
  destruct (JSObject.array_index (fst e)); cbn; intuition congruence.
Qed.

Lemma sum_of_app {A} (f : A -> nat) l1 l2 :
  sum_of f (l1 ++ l2) = sum_of f l1 + sum_of f l2.
Proof. induction l1 as [|x l1 IH]; cbn; [reflexivity|]. rewrite IH. lia. Qed.

Lemma sum_of_insert {A} (f : A -> nat) before x l :
  sum_of f (JSArray.insert before x l) = f x + sum_of f l.
Proof.
  induction l as [|y l IH]; cbn; [reflexivity|].
  destruct (before x y); cbn; [reflexivity|]. rewrite IH. lia.
Qed.

Lemma sum_of_sort {A} (f : A -> nat) before l :
  sum_of f (JSArray.sort before l) = sum_of f l.
Proof.
  induction l as [|x l IH]; [reflexivity|].
  rewrite sort_cons, sum_of_insert, IH. reflexivity.
Qed.

Lemma sum_of_split {A} (f : A -> nat) (p : A -> bool) l :
  sum_of f (filter p l) + sum_of f (filter (fun x => negb (p x)) l) = sum_of f l.
Proof.
  induction l as [|x l IH]; cbn; [reflexivity|]. destruct (p x); cbn; lia.
Qed.

Lemma sum_of_entries {A} (f : string * A -> nat) (o : JSObject.t A) :
  sum_of f (JSObject.entries o) = sum_of f o.
Proof.
  unfold JSObject.entries. rewrite sum_of_app, sum_of_sort. apply sum_of_split.
Qed.

Lemma sum_of_map {A B} (f : B -> nat) (g : A -> B) l :
  sum_of f (map g l) = sum_of (fun x => f (g x)) l.
Proof. induction l as [|x l IH]; cbn; [reflexivity|]. rewrite IH. reflexivity. Qed.

Lemma sum_of_filter_length {A} (p : A -> bool) l :
  sum_of (fun x => if p x then 1 else 0) l = List.length (filter p l).
Proof.
  induction l as [|x l IH]; cbn; [reflexivity|]. destruct (p x); cbn; lia.
Qed.

Section Group.

Context {X S : Type} (key : X -> option string) (zero : S) (upd : S -> X -> S).

Lemma get_or_set_same (o : JSObject.t S) k v :
  get_or zero (JSObject.set o k v) k = v.
Proof. unfold get_or. rewrite get_set_same. reflexivity. Qed.

Lemma get_or_set_other (o : JSObject.t S) k k' v :
  k <> k' -> get_or zero (JSObject.set o k v) k' = get_or zero o k'.
Proof. intros H. unfold get_or. rewrite get_set_other by exact H. reflexivity. Qed.

Lemma group_cons x l acc :
  group key zero upd (x :: l) acc
  = group key zero upd l
      (match key x with
       | Some k => JSObject.set acc k (upd (get_or zero acc k) x)
       | None => acc
       end).
Proof. reflexivity. Qed.

(** What is tallied under [k]: the elements with that key, folded in
    their order. *)
Lemma group_get l : forall acc k,
  JSObject.get (group key zero upd l acc) k
  = match filter (has_key key k) l with
    | [] => JSObject.get acc k
    | xs => Some (fold_left upd xs (get_or zero acc k))
    end.
Proof.
  induction l as [|x l IH]; intros acc k; [reflexivity|].
  rewrite group_cons, IH. cbn [filter]. unfold has_key at 2.
  destruct (key x) as [k'|] eqn:Ekey.
  - destruct (String.eqb k' k) eqn:E.
    + apply String.eqb_eq in E. subst k'.
      rewrite get_or_set_same, get_set_same.
      destruct (filter (has_key key k) l); reflexivity.
    + assert (Hne : k' <> k) by (intros ->; rewrite String.eqb_refl in E; discriminate).
      rewrite (get_or_set_other acc k' k _ Hne), (get_set_other acc k' k _ Hne).
      reflexivity.
  - reflexivity.
Qed.

Lemma group_keys_distinct l : forall acc,
  NoDup (map fst acc) -> NoDup (map fst (group key zero upd l acc)).
Proof.
  induction l as [|x l IH]; intros acc H; [exact H|].
  rewrite group_cons. apply IH. destruct (key x); [|exact H].
  apply set_keys_distinct. exact H.
Qed.

(** An entry of the tally holds the fold of the elements with its key,
    of which there is at least one. *)
Lemma group_entry l k s :
  In (k, s) (JSObject.entries (group key zero upd l [])) ->
  filter (has_key key k) l <> [] /\
  s = fold_left upd (filter (has_key key k) l) zero.
Proof.
  intros Hin. apply (proj1 (in_entries _ _)) in Hin.
  apply in_get in Hin; [|apply group_keys_distinct; constructor].
  rewrite group_get in Hin.
  destruct (filter (has_key key k) l) eqn:E; [discriminate|].
  split; [discriminate|]. cbn in Hin. injection Hin as <-. reflexivity.
Qed.

Lemma group_has_entry l x k :
  In x l -> key x = Some k ->
  exists s, In (k, s) (JSObject.entries (group key zero upd l [])).
Proof.
  intros Hin Hkey.
  assert (Hf : In x (filter (has_key key k) l)).
  { apply filter_In. split; [exact Hin|]. unfold has_key. rewrite Hkey.
    apply String.eqb_refl. }
  pose proof (group_get l [] k) as Hget.
  destruct (filter (has_key key k) l) eqn:E; [destruct Hf|].
  eexists. apply (proj2 (in_entries _ _)). apply get_in. exact Hget.
Qed.

Context (m : S -> nat) (w : X -> nat).
Hypothesis m_zero : m zero = 0.
Hypothesis m_upd : forall s x, m (upd s x) = m s + w x.

Lemma m_fold xs : forall s, m (fold_left upd xs s) = m s + sum_of w xs.
Proof.
  induction xs as [|x xs IH]; intros s; cbn; [lia|].
  rewrite IH, m_upd. lia.
Qed.

Lemma sum_set (o : JSObject.t S) k v :
  sum_of (fun e => m (snd e)) (JSObject.set o k v) + m (get_or zero o k)
  = sum_of (fun e => m (snd e)) o + m v.
Proof.
  unfold get_or. induction o as [|[k0 v0] o IH]; cbn.
  - rewrite m_zero. lia.
  - destruct (String.eqb k0 k); cbn; [lia|].
    cbn in IH. lia.
Qed.

Lemma group_sum l : forall acc,
  sum_of (fun e => m (snd e)) (group key zero upd l acc)
  = sum_of (fun e => m (snd e)) acc
    + sum_of (fun x => match key x with Some _ => w x | None => 0 end) l.
Proof.
  induction l as [|x l IH]; intros acc; [cbn; lia|].
  rewrite group_cons, IH. cbn [sum_of].
  destruct (key x) as [k|]; [|lia].
  pose proof (sum_set acc k (upd (get_or zero acc k) x)) as H.
  rewrite m_upd in H. lia.
Qed.

End Group.

End TallyFacts.

(** ** analyzeModerationEffectiveness: the figures per moderator and per rule *)

Module EffectivenessFacts.

Import Model AnalyticsManager Tally TallyFacts.
Local Open Scope nat_scope.

Lemma moderatorStatsOf_group l :
  moderatorStatsOf l = group reviewer_of (mkModeratorStats 0 [] 0) add_review l [].
Proof.
  unfold moderatorStatsOf, group. generalize (@nil (string * ModeratorStats)).
  induction l as [|flag l IH]; intros acc; [reflexivity|].
  cbn [fold_left]. rewrite IH. f_equal.
  unfold reviewer_of. destruct (FlaggedNode.reviewedBy flag) as [r|]; [|reflexivity].
  destruct (String.eqb r EmptyString); reflexivity.
Qed.

Lemma ruleStatsOf_group l :
  ruleStatsOf l
  = group (fun flag => Some (rule_of flag)) (mkRuleStats 0 0 0) add_trigger l [].
Proof.
  unfold ruleStatsOf, group. generalize (@nil (string * RuleStats)).
  induction l as [|flag l IH]; intros acc; [reflexivity|].
  cbn [fold_left]. rewrite IH. reflexivity.
Qed.

Lemma deleted_is_not_approved flag :
  has_action Deleted flag = true -> has_action Approved flag = false.
Proof.
  unfold has_action, is_value. destruct (FlaggedNode.action flag) as [[]|]; cbn; congruence.
Qed.

Lemma sum_of_ones {A} (l : list A) : sum_of (fun _ => 1) l = List.length l.
Proof. induction l as [|x l IH]; cbn; [reflexivity|]. rewrite IH. reflexivity. Qed.

Lemma sum_of_ext {A} (f g : A -> nat) l :
  (forall x, f x = g x) -> sum_of f l = sum_of g l.
Proof. intros H. induction l as [|x l IH]; cbn; [reflexivity|]. rewrite H, IH. reflexivity. Qed.

(** X18.  The figures of a moderator count that moderator's reviews. Every
    entry of [moderatorPerformance] belongs to a moderator who reviewed at
    least one flag of the window, and its review count is the number of
    those flags; every reviewer of a flag of the window has an entry; and
    the review counts add up to the reviewed flags that name a reviewer,
    which are at most [totalReviews]. *)
Theorem moderator_figures_count_reviews :
  forall (db : Database) (now days : Z),
    let result := analyzeModerationEffectiveness db now days in
    let recent := recentFlaggedOf db now days in
    (forall p, In p (moderatorPerformance result) ->
       0 < ModeratorPerformance.reviewCount p /\
       ModeratorPerformance.reviewCount p
       = List.length (filter (reviewed_by (ModeratorPerformance.moderatorId p)) recent)) /\
    (forall flag moderatorId,
       In flag recent -> reviewer_of flag = Some moderatorId ->
       exists p, In p (moderatorPerformance result) /\
                 ModeratorPerformance.moderatorId p = moderatorId) /\
    sum_of ModeratorPerformance.reviewCount (moderatorPerformance result)
    = List.length (filter has_reviewer recent) /\
    sum_of ModeratorPerformance.reviewCount (moderatorPerformance result)
    <= totalReviews result.
Proof.
  intros db now days. cbv zeta. unfold analyzeModerationEffectiveness.
  cbn [moderatorPerformance totalReviews].
  set (recent := recentFlaggedOf db now days).
  rewrite moderatorStatsOf_group.
  set (zero := mkModeratorStats 0 [] 0).
  assert (Hm : forall xs s,
             stat_reviewCount (fold_left add_review xs s)
             = stat_reviewCount s + sum_of (fun _ => 1) xs).
  { intros xs s.
    apply (m_fold zero add_review stat_reviewCount (fun _ => 1) eq_refl).
    intros; cbn; lia. }
  assert (Hsum :
    sum_of ModeratorPerformance.reviewCount
      (map (fun entry =>
              ModeratorPerformance.mk (fst entry) "moderator@example.com"
                (stat_reviewCount (snd entry))
                (minutes_average (stat_reviewTimes (snd entry)))
                (percentage (stat_correctDecisions (snd entry))
                            (stat_reviewCount (snd entry))))
           (JSObject.entries (group reviewer_of zero add_review recent [])))
    = List.length (filter has_reviewer recent)).
  { rewrite sum_of_map. cbn [ModeratorPerformance.reviewCount].
    rewrite (sum_of_entries (fun e => stat_reviewCount (snd e))).
    rewrite (group_sum reviewer_of zero add_review stat_reviewCount (fun _ => 1)
               eq_refl ltac:(intros; cbn; lia)).
    cbn [sum_of]. rewrite <- sum_of_filter_length.
    apply sum_of_ext. intros x. unfold has_reviewer. destruct (reviewer_of x); reflexivity. }
  split; [|split; [|split]].
  - intros p Hp. apply in_map_iff in Hp. destruct Hp as ([k s] & <- & Hin).
    cbn [ModeratorPerformance.reviewCount ModeratorPerformance.moderatorId fst snd].
    destruct (group_entry reviewer_of zero add_review recent k s Hin) as [Hne ->].
    rewrite Hm, sum_of_ones. cbn [stat_reviewCount zero]. unfold reviewed_by.
    destruct (filter (has_key reviewer_of k) recent); [contradiction|]. cbn. lia.
  - intros flag moderatorId Hin Hkey.
    destruct (group_has_entry reviewer_of zero add_review recent flag moderatorId Hin Hkey)
      as [s Hs].
    eexists. split; [apply in_map_iff; exists (moderatorId, s); split; [reflexivity|exact Hs]|].
    reflexivity.
  - exact Hsum.
  - rewrite Hsum. apply ObjectFacts.length_filter_le.
Qed.

(** X19.  The figures of the rules partition the reviews. Every entry of
    [ruleEffectiveness] counts the reviewed flags of its rule: how many
    there are, how many of them were deleted, and how many approved. Over
    all rules the trigger counts add up to [totalReviews], the correct flags
    to the deleted reviews and the false positives to the approved ones,
    which are the numerators of the two overall rates. *)
Theorem rule_figures_partition_reviews :
  forall (db : Database) (now days : Z),
    let result := analyzeModerationEffectiveness db now days in
    let recent := recentFlaggedOf db now days in
    (forall e, In e (ruleEffectiveness result) ->
       let mine := filter (of_rule (RuleEffectiveness.ruleId e)) recent in
       0 < RuleEffectiveness.triggeredCount e /\
       RuleEffectiveness.triggeredCount e = List.length mine /\
       RuleEffectiveness.correctFlags e
       = List.length (filter (has_action Deleted) mine) /\
       RuleEffectiveness.falsePositives e
       = List.length (filter (has_action Approved) mine)) /\
    sum_of RuleEffectiveness.triggeredCount (ruleEffectiveness result)
    = totalReviews result /\
    sum_of RuleEffectiveness.correctFlags (ruleEffectiveness result)
    = List.length (filter (has_action Deleted) recent) /\
    sum_of RuleEffectiveness.falsePositives (ruleEffectiveness result)
    = List.length (filter (has_action Approved) recent).
Proof.
  intros db now days. cbv zeta. unfold analyzeModerationEffectiveness.
  cbn [ruleEffectiveness totalReviews].
  set (recent := recentFlaggedOf db now days).
  rewrite ruleStatsOf_group.
  set (key := fun flag => Some (rule_of flag)).
  set (zero := mkRuleStats 0 0 0).
  set (wd := fun flag => if has_action Deleted flag then 1 else 0).
  set (wa := fun flag => if has_action Approved flag then 1 else 0).
  assert (Ht : forall s x, stat_triggeredCount (add_trigger s x) = stat_triggeredCount s + 1)
    by (intros; cbn; lia).
  assert (Hd : forall s x, stat_correctFlags (add_trigger s x) = stat_correctFlags s + wd x)
    by (intros s x; unfold wd; cbn; destruct (has_action Deleted x); lia).
  assert (Ha : forall s x, stat_falsePositives (add_trigger s x) = stat_falsePositives s + wa x).
  { intros s x. unfold wa. cbn. destruct (has_action Deleted x) eqn:E.
    - rewrite (deleted_is_not_approved x E). lia.
    - destruct (has_action Approved x); lia. }
  assert (Hkey : forall (w : FlaggedNode.t -> nat) l,
             sum_of (fun x => match key x with Some _ => w x | None => 0 end) l
             = sum_of w l)
    by (intros w l; apply sum_of_ext; reflexivity).
  split; [|split; [|split]].
  - intros e He. apply in_map_iff in He. destruct He as ([k s] & <- & Hin).
    cbn [RuleEffectiveness.triggeredCount RuleEffectiveness.correctFlags
         RuleEffectiveness.falsePositives RuleEffectiveness.ruleId fst snd].
    destruct (group_entry key zero add_trigger recent k s Hin) as [Hne ->].
    unfold of_rule. fold key.
    rewrite (m_fold zero add_trigger stat_triggeredCount (fun _ => 1) eq_refl Ht),
            (m_fold zero add_trigger stat_correctFlags wd eq_refl Hd),
            (m_fold zero add_trigger stat_falsePositives wa eq_refl Ha).
    cbn [zero stat_triggeredCount stat_correctFlags stat_falsePositives].
    rewrite sum_of_ones. unfold wd, wa. rewrite !sum_of_filter_length.
    destruct (filter (has_key key k) recent); [contradiction|]. cbn [List.length]. 
    repeat split; lia.
  - rewrite sum_of_map. cbn [RuleEffectiveness.triggeredCount].
    rewrite (sum_of_entries (fun e => stat_triggeredCount (snd e))).
    rewrite (group_sum key zero add_trigger stat_triggeredCount (fun _ => 1) eq_refl Ht).
    rewrite Hkey, sum_of_ones. reflexivity.
  - rewrite sum_of_map. cbn [RuleEffectiveness.correctFlags].
    rewrite (sum_of_entries (fun e => stat_correctFlags (snd e))).
    rewrite (group_sum key zero add_trigger stat_correctFlags wd eq_refl Hd).
    rewrite Hkey. unfold wd. rewrite sum_of_filter_length. reflexivity.
  - rewrite sum_of_map. cbn [RuleEffectiveness.falsePositives].
    rewrite (sum_of_entries (fun e => stat_falsePositives (snd e))).
    rewrite (group_sum key zero add_trigger stat_falsePositives wa eq_refl Ha).
    rewrite Hkey. unfold wa. rewrite sum_of_filter_length. reflexivity.
Qed.

End EffectivenessFacts.

(** ** analyzeSentiment and extractKeywords *)

Module VocabularyFacts.

Import AnalyticsManager Vocabulary.
Local Open Scope nat_scope.

Lemma sentiment_lists_disjoint (word : string) :
  JSArray.includes positiveWords word = true ->
  JSArray.includes negativeWords word = false.
Proof.
  unfold JSArray.includes. intros H. apply existsb_exists in H.
  destruct H as (w & Hin & Heq). apply String.eqb_eq in Heq. subst w.
  cbn in Hin.
  repeat (destruct Hin as [<-|Hin]; [vm_compute; reflexivity|]). destruct Hin.
Qed.

Lemma sentiment_fold words : forall score positive negative,
  fold_left sentiment_step words (score, positive, negative)
  = ((score + Z.of_nat (List.length (filter (JSArray.includes positiveWords) words))
      - Z.of_nat (List.length (filter (JSArray.includes negativeWords) words)))%Z,
     positive ++ filter (JSArray.includes positiveWords) words,
     negative ++ filter (JSArray.includes negativeWords) words).
Proof.
  induction words as [|w words IH]; intros score positive negative.
  - cbn. rewrite !app_nil_r. f_equal. f_equal. lia.
  - cbn [fold_left filter]. unfold sentiment_step at 2.
    destruct (JSArray.includes positiveWords w) eqn:Ep.
    + rewrite (sentiment_lists_disjoint w Ep). rewrite IH.
      rewrite <- app_assoc. cbn [List.length app]. f_equal. f_equal. lia.
    + destruct (JSArray.includes negativeWords w) eqn:En; rewrite IH.
      * rewrite <- app_assoc. cbn [List.length app]. f_equal. f_equal. lia.
      * reflexivity.
Qed.

Lemma disjoint_filters_length (words : list string) :
  List.length (filter (JSArray.includes positiveWords) words)
  + List.length (filter (JSArray.includes negativeWords) words)
  <= List.length words.
Proof.
  induction words as [|w words IH]; cbn [filter List.length]; [lia|].
  destruct (JSArray.includes positiveWords w) eqn:Ep.
  - rewrite (sentiment_lists_disjoint w Ep). cbn [List.length]. lia.
  - destruct (JSArray.includes negativeWords w); cbn [List.length]; lia.
Qed.

(** X20.  The sentiment score counts words. The positive and the negative
    list are the words of the lower-cased text that are in the one and in
    the other word list, in their order; no word is in both; the score is
    the length of the first less the length of the second, so it lies
    between minus and plus the number of words. *)
Theorem analyzeSentiment_counts_words :
  forall text : string,
    let result := analyzeSentiment text in
    let words := words_of text in
    positive result = filter (JSArray.includes positiveWords) words /\
    negative result = filter (JSArray.includes negativeWords) words /\
    score result
    = (Z.of_nat (List.length (positive result))
       - Z.of_nat (List.length (negative result)))%Z /\
    List.length (positive result) + List.length (negative result)
    <= List.length words /\
    (- Z.of_nat (List.length words) <= score result <= Z.of_nat (List.length words))%Z.
Proof.
  intros text. cbv zeta. unfold analyzeSentiment, words_of.
  set (words := JSArray.split_ws (JS.toLowerCase text)).
  change (fold_left _ words (0%Z, [], [])) with
    (fold_left sentiment_step words (0%Z, [], [])).
  rewrite sentiment_fold. cbn [score positive negative app].
  pose proof (disjoint_filters_length words) as Hle.
  repeat split; try reflexivity; lia.
Qed.

(** *** extractKeywords *)

Lemma split_ws_from_chars s : forall skipping piece a,
  In piece (JSArray.split_ws_from s skipping) ->
  In a (list_ascii_of_string piece) ->
  In a (list_ascii_of_string s) /\ JS.isWhiteSpace a = false.
Proof.
  induction s as [|c s IH]; intros skipping piece a Hpiece Ha.
  - cbn in Hpiece. destruct Hpiece as [<-|[]]. destruct Ha.
  - cbn [JSArray.split_ws_from] in Hpiece.
    destruct (JS.isWhiteSpace c) eqn:Ews.
    + destruct skipping.
      * destruct (IH true piece a Hpiece Ha) as [H1 H2]. split; [right; exact H1 | exact H2].
      * destruct Hpiece as [<-|Hpiece]; [destruct Ha|].
        destruct (IH true piece a Hpiece Ha) as [H1 H2]. split; [right; exact H1 | exact H2].
    + destruct (JSArray.split_ws_from s false) as [|p ps] eqn:Esplit.
      * destruct Hpiece as [<-|[]]. cbn in Ha. destruct Ha as [<-|[]].
        split; [left; reflexivity | exact Ews].
      * destruct Hpiece as [<-|Hpiece].
        -- cbn in Ha. destruct Ha as [<-|Ha]; [split; [left; reflexivity | exact Ews]|].
           destruct (IH false p a) as [H1 H2];
             [rewrite Esplit; left; reflexivity | exact Ha |].
           split; [right; exact H1 | exact H2].
        -- destruct (IH false piece a) as [H1 H2];
             [rewrite Esplit; right; exact Hpiece | exact Ha |].
           split; [right; exact H1 | exact H2].
Qed.

Lemma strip_punctuation_chars s a :
  In a (list_ascii_of_string (strip_punctuation s)) ->
  In a (list_ascii_of_string s) /\ (JS.isWordChar a || JS.isWhiteSpace a)%bool = true.
Proof.
  induction s as [|c s IH]; cbn; [tauto|].
  destruct (JS.isWordChar c || JS.isWhiteSpace c)%bool eqn:E; cbn.
  - intros [<-|H]; [split; [left; reflexivity | exact E]|].
    destruct (IH H). split; [right; assumption | assumption].
  - intros H. destruct (IH H). split; [right; assumption | assumption].
Qed.

Lemma toLowerCase_chars s a :
  In a (list_ascii_of_string (JS.toLowerCase s)) ->
  exists b, a = JS.lower_char b.
Proof.
  induction s as [|c s IH]; cbn; [tauto|].
  intros [<-|H]; [exists c; reflexivity | exact (IH H)].
Qed.

Lemma lower_word_char b :
  JS.isWordChar (JS.lower_char b) = true ->
  keyword_char (JS.lower_char b) = true /\
  JS.lower_char (JS.lower_char b) = JS.lower_char b.
Proof.
  destruct b as [[] [] [] [] [] [] [] []]; vm_compute; intros H;
    first [discriminate H | split; reflexivity].
Qed.

Lemma toLowerCase_fixed s :
  (forall a, In a (list_ascii_of_string s) -> JS.lower_char a = a) ->
  JS.toLowerCase s = s.
Proof.
  induction s as [|c s IH]; intros H; cbn; [reflexivity|].
  rewrite (H c (or_introl eq_refl)), IH; [reflexivity|].
  intros a Ha. apply H. right. exact Ha.
Qed.

(** A keyword has lower-case letters, digits and underscores only. *)
Lemma keyword_chars (text keyword : string) :
  In keyword (extractKeywords text) -> all_chars keyword_char keyword = true.
Proof.
  intros Hin. unfold extractKeywords in Hin.
  apply filter_In in Hin. destruct Hin as [Hpiece _].
  unfold all_chars. apply forallb_forall. intros a Ha.
  destruct (split_ws_from_chars _ _ _ _ Hpiece Ha) as [Hin Hws].
  destruct (strip_punctuation_chars _ _ Hin) as [Hlow Hword].
  rewrite Hws, orb_false_r in Hword.
  destruct (toLowerCase_chars _ _ Hlow) as [b ->].
  exact (proj1 (lower_word_char b Hword)).
Qed.

(** Of the property names of [Object.prototype] only two can be
    keywords. *)
Lemma keyword_inherited (text keyword : string) :
  In keyword (extractKeywords text) ->
  JSObject.inherited keyword = true ->
  keyword = "constructor"%string \/ keyword = "__proto__"%string.
Proof.
  intros Hin Hinh. pose proof (keyword_chars text keyword Hin) as Hchars.
  unfold JSObject.inherited, JSArray.includes in Hinh.
  apply existsb_exists in Hinh. destruct Hinh as (name & Hname & Heq).
  apply String.eqb_eq in Heq. subst name.
  cbn in Hname.
  repeat (destruct Hname as [<-|Hname];
          [first [left; reflexivity | right; reflexivity
                 | vm_compute in Hchars; discriminate Hchars]|]).
  destruct Hname.
Qed.

(** X21.  What a keyword is: a word of more than two characters that is not
    a stop word, made of lower-case letters, digits and underscores only, so
    that it is its own lower case and free of punctuation and white space. *)
Theorem extractKeywords_shape :
  forall (text : string) (keyword : string),
    In keyword (extractKeywords text) ->
    2 < String.length keyword /\
    JSArray.includes stopWords keyword = false /\
    all_chars keyword_char keyword = true /\
    JS.toLowerCase keyword = keyword.
Proof.
  intros text keyword Hin. unfold extractKeywords in Hin.
  apply filter_In in Hin. destruct Hin as [Hpiece Hok].
  apply andb_prop in Hok. destruct Hok as [Hlen Hstop].
  apply Nat.ltb_lt in Hlen. apply negb_true_iff in Hstop.
  assert (Hchars : forall a, In a (list_ascii_of_string keyword) ->
                             keyword_char a = true /\ JS.lower_char a = a).
  { intros a Ha.
    destruct (split_ws_from_chars _ _ _ _ Hpiece Ha) as [Hin Hws].
    destruct (strip_punctuation_chars _ _ Hin) as [Hlow Hword].
    rewrite Hws, orb_false_r in Hword.
    destruct (toLowerCase_chars _ _ Hlow) as [b ->].
    exact (lower_word_char b Hword). }
  split; [exact Hlen|]. split; [exact Hstop|]. split.
  - unfold all_chars. apply forallb_forall. intros a Ha. apply Hchars. exact Ha.
  - apply toLowerCase_fixed. intros a Ha. apply Hchars. exact Ha.
Qed.

Lemma extractKeywords_shape_witness :
  2 < String.length "weather" /\ JS.toLowerCase "weather" = "weather"%string.
Proof.
  destruct (extractKeywords_shape "The weather, today!" "weather"
              ltac:(vm_compute; tauto)) as (H1 & _ & _ & H2).
  split; assumption.
Defined.

End VocabularyFacts.

(** ** The first places of a sorted array *)

Module TopFacts.

Import Order SortFacts.
Local Open Scope nat_scope.

Lemma ordered_app {A} (R : A -> A -> Prop) l1 l2 :
  ordered R (l1 ++ l2) -> forall a b, In a l1 -> In b l2 -> R a b.
Proof.
  induction l1 as [|x l1 IH]; cbn; intros H a b Ha Hb; [contradiction|].
  destruct H as [Hx H]. destruct Ha as [<-|Ha].
  - rewrite Forall_forall in Hx. apply Hx. apply in_or_app. right. exact Hb.
  - exact (IH H a b Ha Hb).
Qed.

Lemma top_largest {A} (before : A -> A -> bool) (P : A -> Prop) l n x y :
  (forall a b, P a -> P b -> before a b = false -> before b a = true) ->
  (forall a b c, P a -> P b -> P c ->
                 before a b = true -> before b c = true -> before a c = true) ->
  Forall P l ->
  In x (firstn n (JSArray.sort before l)) ->
  In y l -> ~ In y (firstn n (JSArray.sort before l)) ->
  before x y = true.
Proof.
  intros total trans HP Hx Hy Hny.
  pose proof (sort_ordered before P total trans l HP) as Hord.
  rewrite <- (firstn_skipn n (JSArray.sort before l)) in Hord.
  apply (ordered_app _ _ _ Hord x y Hx).
  apply (proj2 (in_sort before l y)) in Hy.
  rewrite <- (firstn_skipn n (JSArray.sort before l)) in Hy.
  apply in_app_or in Hy. tauto.
Qed.

Lemma insert_split {A} (before : A -> A -> bool) x l :
  exists l1 l2, l = l1 ++ l2 /\ JSArray.insert before x l = l1 ++ x :: l2.
Proof.
  induction l as [|y l IH]; cbn.
  - exists [], []. auto.
  - destruct (before x y).
    + exists [], (y :: l). auto.
    + destruct IH as (l1 & l2 & -> & ->). exists (y :: l1), l2. auto.
Qed.

Lemma sort_keys_distinct {A B} (f : A -> B) (before : A -> A -> bool) l :
  NoDup (map f l) -> NoDup (map f (JSArray.sort before l)).
Proof.
  induction l as [|x l IH]; intros H; [constructor|].
  rewrite sort_cons. cbn in H. inversion H as [|? ? Hnot Hrest]; subst.
  specialize (IH Hrest).
  destruct (insert_split before x (JSArray.sort before l)) as (l1 & l2 & Hl & ->).
  rewrite Hl in IH. rewrite map_app in *. cbn [map].
  apply NoDup_Add with (a := f x) (l := map f l1 ++ map f l2); [apply Add_app|].
  split; [exact IH|].
  intros Hin. apply Hnot. rewrite <- map_app, <- Hl in Hin.
  apply in_map_iff in Hin. destruct Hin as (z & Hz & Hin).
  apply in_map_iff. exists z. split; [exact Hz|]. apply in_sort in Hin. exact Hin.
Qed.

Lemma firstn_distinct {A} n (l : list A) : NoDup l -> NoDup (firstn n l).
Proof.
  revert l. induction n as [|n IH]; intros [|x l] H; cbn; try constructor.
  - inversion H; subst. intros Hin. apply firstn_in in Hin. contradiction.
  - inversion H; subst. apply IH. assumption.
Qed.

Lemma firstn_map {A B} (f : A -> B) n l : firstn n (map f l) = map f (firstn n l).
Proof.
  revert l. induction n as [|n IH]; intros [|x l]; cbn; try reflexivity.
  rewrite IH. reflexivity.
Qed.

End TopFacts.

(** ** analyzeUserBehavior: peak hours, top keywords and the score *)

Module BehaviorFacts.

Import Model Number AnalyticsManager Order SortFacts TopFacts Tally TallyFacts Peaks
       ObjectFacts.
Local Open Scope nat_scope.

Lemma lookup_absent counts h :
  Forall (fun k => h < k) (map fst counts) -> lookup counts h = 0.
Proof.
  induction counts as [|[k c] counts IH]; cbn; intros H; [reflexivity|].
  inversion H; subst. destruct (k =? h) eqn:E; [apply Nat.eqb_eq in E; lia|].
  apply IH. assumption.
Qed.

Lemma bump_keys h counts k :
  In k (map fst (bump h counts)) <-> k = h \/ In k (map fst counts).
Proof.
  induction counts as [|[k0 c0] counts IH]; cbn [bump map fst In].
  - intuition congruence.
  - destruct (k0 =? h) eqn:E; cbn [map fst In].
    + apply Nat.eqb_eq in E. subst. intuition congruence.
    + destruct (h <? k0); cbn [map fst In]; [intuition congruence|].
      rewrite IH. intuition congruence.
Qed.

Lemma bump_ascending h counts : ascending counts -> ascending (bump h counts).
Proof.
  unfold ascending.
  induction counts as [|[k c] counts IH]; cbn [bump map fst ordered]; intros H.
  - split; constructor.
  - destruct H as [Hk H]. destruct (k =? h) eqn:E; cbn [map fst ordered].
    + split; assumption.
    + destruct (h <? k) eqn:Elt; cbn [map fst ordered].
      * apply Nat.ltb_lt in Elt. split; [|split; assumption].
        constructor; [exact Elt|].
        rewrite Forall_forall in *. intros z Hz. specialize (Hk z Hz). lia.
      * apply Nat.ltb_ge in Elt. apply Nat.eqb_neq in E.
        split; [|exact (IH H)].
        apply Forall_forall. intros z Hz. apply bump_keys in Hz.
        destruct Hz as [->|Hz]; [lia|]. rewrite Forall_forall in Hk. exact (Hk z Hz).
Qed.

Lemma lookup_bump h counts h' :
  ascending counts ->
  lookup (bump h counts) h' = if h =? h' then S (lookup counts h') else lookup counts h'.
Proof.
  unfold ascending.
  induction counts as [|[k c] counts IH]; cbn [bump map fst ordered lookup]; intros H.
  - destruct (h =? h'); reflexivity.
  - destruct H as [Hk H]. destruct (k =? h) eqn:E; cbn [lookup].
    + apply Nat.eqb_eq in E. subst k. destruct (h =? h'); reflexivity.
    + apply Nat.eqb_neq in E. destruct (h <? k) eqn:Elt; cbn [lookup].
      * apply Nat.ltb_lt in Elt. destruct (h =? h') eqn:E'; [|reflexivity].
        apply Nat.eqb_eq in E'. subst h'.
        destruct (k =? h) eqn:E''; [apply Nat.eqb_eq in E''; lia|].
        rewrite lookup_absent; [reflexivity|].
        rewrite Forall_forall in *. intros z Hz. specialize (Hk z Hz). lia.
      * rewrite (IH H). destruct (k =? h') eqn:E'; [|reflexivity].
        apply Nat.eqb_eq in E'. subst h'.
        destruct (h =? k) eqn:E''; [apply Nat.eqb_eq in E''; lia | reflexivity].
Qed.

Lemma in_lookup counts h c :
  ascending counts -> In (h, c) counts -> lookup counts h = c.
Proof.
  unfold ascending. induction counts as [|[k c0] counts IH]; cbn; intros H Hin;
    [contradiction|].
  destruct H as [Hk H]. destruct Hin as [[= -> ->]|Hin].
  - rewrite Nat.eqb_refl. reflexivity.
  - destruct (k =? h) eqn:E; [|exact (IH H Hin)].
    apply Nat.eqb_eq in E. subst k. rewrite Forall_forall in Hk.
    assert (h < h); [|lia]. apply Hk. apply in_map_iff. exists (h, c). auto.
Qed.

Lemma lookup_in counts h : 0 < lookup counts h -> In (h, lookup counts h) counts.
Proof.
  induction counts as [|[k c] counts IH]; cbn; intros H; [lia|].
  destruct (k =? h) eqn:E.
  - apply Nat.eqb_eq in E. subst. left. reflexivity.
  - right. exact (IH H).
Qed.

Lemma ascending_distinct counts : ascending counts -> NoDup (map fst counts).
Proof.
  unfold ascending. induction (map fst counts) as [|k ks IH]; cbn; intros H; [constructor|].
  destruct H as [Hk H]. constructor; [|exact (IH H)].
  intros Hin. rewrite Forall_forall in Hk. specialize (Hk k Hin). lia.
Qed.

Lemma hourCounts_fold cal msgs : forall acc,
  ascending acc ->
  let counts := fold_left (fun acc msg => bump (getHours cal (Message.timestamp msg)) acc)
                          msgs acc in
  ascending counts /\
  forall h, lookup counts h = lookup acc h + hour_count cal h msgs.
Proof.
  induction msgs as [|msg msgs IH]; intros acc Hacc; cbn [fold_left].
  - split; [exact Hacc|]. intros h. cbn. lia.
  - destruct (IH (bump (getHours cal (Message.timestamp msg)) acc)
                 (bump_ascending _ _ Hacc)) as [Hasc Hlook].
    split; [exact Hasc|]. intros h. rewrite Hlook, lookup_bump by exact Hacc.
    unfold hour_count. cbn [filter].
    destruct (getHours cal (Message.timestamp msg) =? h); cbn [List.length]; lia.
Qed.

Lemma hourCounts_spec cal msgs :
  ascending (hourCountsOf cal msgs) /\
  forall h, lookup (hourCountsOf cal msgs) h = hour_count cal h msgs.
Proof.
  destruct (hourCounts_fold cal msgs [] I) as [H1 H2].
  split; [exact H1|]. intros h. exact (H2 h).
Qed.

Lemma bump_positive hour counts :
  (forall h c, In (h, c) counts -> 0 < c) ->
  forall h c, In (h, c) (bump hour counts) -> 0 < c.
Proof.
  induction counts as [|[k c0] counts IH]; intros Hacc h c; cbn [bump In].
  - intros [[= <- <-]|[]]. lia.
  - destruct (k =? hour); cbn [In].
    + intros [[= <- <-]|H]; [|apply (Hacc h c); right; exact H].
      assert (0 < c0) by (apply (Hacc k c0); left; reflexivity). lia.
    + destruct (hour <? k); cbn [In].
      * intros [[= <- <-]|H]; [lia|]. apply (Hacc h c). exact H.
      * intros [[= <- <-]|H]; [apply (Hacc k c0); left; reflexivity|].
        refine (IH _ h c H). intros h' c' H'. apply (Hacc h' c'). right. exact H'.
Qed.

Lemma hourCounts_positive cal msgs :
  forall h c, In (h, c) (hourCountsOf cal msgs) -> 0 < c.
Proof.
  unfold hourCountsOf.
  assert (Hgen : forall acc,
             (forall h c, In (h, c) acc -> 0 < c) ->
             forall h c,
               In (h, c) (fold_left
                            (fun acc msg => bump (getHours cal (Message.timestamp msg)) acc)
                            msgs acc) -> 0 < c).
  { induction msgs as [|msg msgs IH]; intros acc Hacc; [exact Hacc|].
    cbn [fold_left]. apply IH. apply bump_positive. exact Hacc. }
  apply Hgen. intros h c [].
Qed.

Lemma by_count_total {K} (a b : K * nat) :
  by_count_desc a b = false -> by_count_desc b a = true.
Proof.
  unfold by_count_desc. intros H. apply Nat.leb_gt in H. apply Nat.leb_le. lia.
Qed.

Lemma by_count_trans {K} (a b c : K * nat) :
  by_count_desc a b = true -> by_count_desc b c = true -> by_count_desc a c = true.
Proof.
  unfold by_count_desc. intros H1 H2.
  apply Nat.leb_le in H1. apply Nat.leb_le in H2. apply Nat.leb_le. lia.
Qed.

Lemma top_counts_largest {K} (l : list (K * nat)) n x y :
  In x (firstn n (JSArray.sort by_count_desc l)) ->
  In y l -> ~ In y (firstn n (JSArray.sort by_count_desc l)) ->
  snd y <= snd x.
Proof.
  intros Hx Hy Hny.
  assert (H : by_count_desc x y = true).
  { apply (top_largest by_count_desc (fun _ => True) l n x y); auto.
    - intros a b _ _. apply by_count_total.
    - intros a b c _ _ _. apply by_count_trans.
    - apply Forall_forall. intros; exact I. }
  apply Nat.leb_le. exact H.
Qed.

(** The peak hours of [msgs]: the first three places of the hour counts. *)
Lemma peak_hours_spec cal msgs :
  let peak := map fst (JSArray.slice_to 3
                         (JSArray.sort by_count_desc (hourCountsOf cal msgs))) in
  List.length peak <= 3 /\ NoDup peak /\
  (forall h, In h peak -> 0 < hour_count cal h msgs) /\
  (forall h h', In h peak -> ~ In h' peak ->
                hour_count cal h' msgs <= hour_count cal h msgs).
Proof.
  cbv zeta. unfold JSArray.slice_to.
  destruct (hourCounts_spec cal msgs) as [Hasc Hlook].
  set (counts := hourCountsOf cal msgs) in *.
  assert (Hin : forall h c, In (h, c) (firstn 3 (JSArray.sort by_count_desc counts)) ->
                            In (h, c) counts /\ c = hour_count cal h msgs).
  { intros h c H. apply firstn_in in H. apply in_sort in H.
    split; [exact H|]. rewrite <- Hlook. symmetry. apply in_lookup; assumption. }
  assert (Hpos : forall h c, In (h, c) counts -> 0 < c)
    by (apply hourCounts_positive).
  split; [|split; [|split]].
  - rewrite length_map, length_firstn. lia.
  - rewrite <- firstn_map. apply firstn_distinct.
    apply sort_keys_distinct. apply ascending_distinct. exact Hasc.
  - intros h Hh. apply in_map_iff in Hh. destruct Hh as ([h0 c] & <- & Hh). cbn [fst].
    destruct (Hin h0 c Hh) as [Hc ->]. exact (Hpos _ _ Hc).
  - intros h h' Hh Hh'. apply in_map_iff in Hh. destruct Hh as ([h0 c] & <- & Hh).
    cbn [fst]. destruct (Hin h0 c Hh) as [_ <-].
    destruct (Nat.eq_dec (hour_count cal h' msgs) 0) as [->|Hne]; [lia|].
    assert (Hy : In (h', hour_count cal h' msgs) counts).
    { rewrite <- Hlook. apply lookup_in. rewrite Hlook. lia. }
    apply (top_counts_largest counts 3 (h0, c) (h', hour_count cal h' msgs) Hh Hy).
    intros Hc. apply Hh'. apply in_map_iff. exists (h', hour_count cal h' msgs). auto.
Qed.

(** *** The keyword tally *)

Lemma occurrences_app w l1 l2 :
  occurrences w (l1 ++ l2) = occurrences w l1 + occurrences w l2.
Proof. unfold occurrences. rewrite filter_app, length_app. reflexivity. Qed.

Lemma occurrences_in w l : 0 < occurrences w l <-> In w l.
Proof.
  unfold occurrences. split.
  - intros H. destruct (filter (fun x => String.eqb x w) l) as [|x xs] eqn:E;
      [cbn in H; lia|].
    assert (Hx : In x (filter (fun x => String.eqb x w) l)) by (rewrite E; left; reflexivity).
    apply filter_In in Hx. destruct Hx as [Hx Heq]. apply String.eqb_eq in Heq.
    subst x. exact Hx.
  - intros H.
    assert (Hx : In w (filter (fun x => String.eqb x w) l))
      by (apply filter_In; split; [exact H | apply String.eqb_refl]).
    destruct (filter (fun x => String.eqb x w) l); [destruct Hx | cbn; lia].
Qed.

Lemma count_up_keys_distinct o k :
  NoDup (map fst o) -> NoDup (map fst (JSObject.count_up o k)).
Proof.
  intros H. unfold JSObject.count_up.
  destruct (JSObject.get o k) as [[n|name ones]|]; try (apply set_keys_distinct; exact H).
  destruct (String.eqb k "__proto__"); [exact H|].
  destruct (JSObject.inherited k); apply set_keys_distinct; exact H.
Qed.

Lemma tally_keys_distinct l : forall acc,
  NoDup (map fst acc) -> NoDup (map fst (fold_left JSObject.count_up l acc)).
Proof.
  induction l as [|x l IH]; intros acc H; [exact H|].
  cbn [fold_left]. apply IH. apply count_up_keys_distinct. exact H.
Qed.

Lemma get_count_up_other o x k :
  x <> k -> JSObject.get (JSObject.count_up o x) k = JSObject.get o k.
Proof.
  intros Hne. unfold JSObject.count_up.
  destruct (JSObject.get o x) as [[n|name ones]|];
    try (apply get_set_other; exact Hne).
  destruct (String.eqb x "__proto__"); [reflexivity|].
  destruct (JSObject.inherited x); apply get_set_other; exact Hne.
Qed.

(** What the tally holds under a key after the keywords [l]: nothing for
    [__proto__] and for a word that does not occur; the number of its
    occurrences for a word that no prototype has; for an inherited name
    the text with one digit for each occurrence. *)
Lemma tally_get l k :
  JSObject.get (fold_left JSObject.count_up l []) k
  = if String.eqb k "__proto__" then None
    else match occurrences k l with
         | 0 => None
         | S n => Some (if JSObject.inherited k then JSObject.Text k (S n)
                        else JSObject.Times (S n))
         end.
Proof.
  induction l as [|x l IH] using rev_ind.
  - cbn. destruct (String.eqb k "__proto__"); reflexivity.
  - rewrite fold_left_app, occurrences_app. cbn [fold_left].
    set (o := fold_left JSObject.count_up l []) in *.
    destruct (string_dec x k) as [->|Hne].
    + unfold JSObject.count_up. rewrite IH.
      replace (occurrences k [k]) with 1
        by (unfold occurrences; cbn; rewrite String.eqb_refl; reflexivity).
      rewrite Nat.add_1_r.
      destruct (String.eqb k "__proto__") eqn:Ep.
      * exact IH.
      * destruct (occurrences k l) as [|n].
        -- destruct (JSObject.inherited k); apply get_set_same.
        -- destruct (JSObject.inherited k); apply get_set_same.
    + rewrite get_count_up_other by exact Hne. rewrite IH.
      replace (occurrences k [x]) with 0; [rewrite Nat.add_0_r; reflexivity|].
      unfold occurrences. cbn.
      destruct (String.eqb x k) eqn:E; [apply String.eqb_eq in E; contradiction|].
      reflexivity.
Qed.

Lemma tally_entry l k c :
  In (k, c) (JSObject.entries (fold_left JSObject.count_up l [])) ->
  k <> "__proto__"%string /\ 0 < occurrences k l /\
  c = if JSObject.inherited k then JSObject.Text k (occurrences k l)
      else JSObject.Times (occurrences k l).
Proof.
  intros Hin. apply (proj1 (in_entries _ _)) in Hin.
  apply in_get in Hin; [|apply tally_keys_distinct; constructor].
  rewrite tally_get in Hin.
  destruct (String.eqb k "__proto__") eqn:Ep; [discriminate|].
  destruct (occurrences k l) as [|n]; [discriminate|].
  injection Hin as <-. split; [|split; [lia | reflexivity]].
  intros ->. discriminate.
Qed.

Lemma tally_has_entry l k :
  In k l -> k <> "__proto__"%string ->
  exists c, In (k, c) (JSObject.entries (fold_left JSObject.count_up l [])).
Proof.
  intros Hin Hne. pose proof (tally_get l k) as Hget.
  destruct (String.eqb k "__proto__") eqn:Ep; [apply String.eqb_eq in Ep; contradiction|].
  apply occurrences_in in Hin.
  destruct (occurrences k l) as [|n]; [lia|].
  eexists. apply (proj2 (in_entries _ _)). apply get_in. exact Hget.
Qed.

Lemma by_tally_total {K} (a b : K * JSObject.Count) :
  is_number a -> is_number b ->
  JSObject.by_tally_desc a b = false -> JSObject.by_tally_desc b a = true.
Proof.
  intros [x Ha] [y Hb]. unfold JSObject.by_tally_desc. rewrite Ha, Hb.
  intros H. apply Nat.leb_gt in H. apply Nat.leb_le. lia.
Qed.

Lemma by_tally_trans {K} (a b c : K * JSObject.Count) :
  is_number a -> is_number b -> is_number c ->
  JSObject.by_tally_desc a b = true -> JSObject.by_tally_desc b c = true ->
  JSObject.by_tally_desc a c = true.
Proof.
  intros [x Ha] [y Hb] [z Hc]. unfold JSObject.by_tally_desc. rewrite Ha, Hb, Hc.
  intros H1 H2. apply Nat.leb_le in H1. apply Nat.leb_le in H2. apply Nat.leb_le. lia.
Qed.

(** The first [n] places of the tally of the keywords [l]. *)
Lemma top_keywords_spec (n : nat) (l : list string) :
  let top := JSArray.slice_to n
               (JSArray.sort JSObject.by_tally_desc
                  (JSObject.entries (fold_left JSObject.count_up l []))) in
  List.length top <= n /\
  (forall e, In e top ->
     fst e <> "__proto__"%string /\ 0 < occurrences (fst e) l /\
     snd e = if JSObject.inherited (fst e)
             then JSObject.Text (fst e) (occurrences (fst e) l)
             else JSObject.Times (occurrences (fst e) l)) /\
  ((forall k, In k l -> k <> "__proto__"%string -> JSObject.inherited k = false) ->
   forall e w, In e top -> ~ In w (map fst top) -> w <> "__proto__"%string ->
               snd e = JSObject.Times (occurrences (fst e) l) /\
               occurrences w l <= occurrences (fst e) l).
Proof.
  cbv zeta. unfold JSArray.slice_to.
  set (counts := JSObject.entries (fold_left JSObject.count_up l [])).
  assert (Hin : forall e, In e (firstn n (JSArray.sort JSObject.by_tally_desc counts)) ->
                          In e counts).
  { intros e H. apply firstn_in in H. apply in_sort in H. exact H. }
  split; [|split].
  - rewrite length_firstn. lia.
  - intros [k c] H. exact (tally_entry l k c (Hin _ H)).
  - intros Hplain e w He Hw Hproto.
    assert (Hnum : forall k c, In (k, c) counts -> c = JSObject.Times (occurrences k l)).
    { intros k c H. destruct (tally_entry l k c H) as (Hne & Hpos & ->).
      rewrite (Hplain k (proj1 (occurrences_in k l) Hpos) Hne). reflexivity. }
    destruct e as [k c]. cbn [fst snd].
    pose proof (Hnum k c (Hin _ He)) as Hc. split; [exact Hc|].
    destruct (Nat.eq_dec (occurrences w l) 0) as [->|Hpos]; [lia|].
    assert (Hwl : In w l) by (apply occurrences_in; lia).
    destruct (tally_has_entry l w Hwl Hproto) as [c' Hc'].
    pose proof (Hnum w c' Hc') as ->.
    assert (H : JSObject.by_tally_desc (k, c) (w, JSObject.Times (occurrences w l)) = true).
    { apply (top_largest JSObject.by_tally_desc is_number counts n); auto.
      - intros a b. apply by_tally_total.
      - intros a b d. apply by_tally_trans.
      - apply Forall_forall. intros [k0 c0] H0. exists (occurrences k0 l).
        exact (Hnum k0 c0 H0).
      - intros Hcontra. apply Hw. apply in_map_iff.
        exists (w, JSObject.Times (occurrences w l)). auto. }
    unfold JSObject.by_tally_desc in H. cbn [snd] in H. rewrite Hc in H.
    apply Nat.leb_le. exact H.
Qed.

(** Among keywords, the names that a plain object inherits. *)
Lemma keywords_inherited msgs k :
  In k (keywordsOf msgs) -> JSObject.inherited k = true ->
  k = "constructor"%string \/ k = "__proto__"%string.
Proof.
  unfold keywordsOf. intros Hin. apply in_flat_map in Hin.
  destruct Hin as (msg & _ & Hin). exact (VocabularyFacts.keyword_inherited _ _ Hin).
Qed.

Lemma analyzeUserBehavior_userId cal db now uid days m :
  analyzeUserBehavior cal db now uid days = Some m -> userId m = uid.
Proof.
  unfold analyzeUserBehavior.
  destruct (Store.read (users db) uid) as [user|]; [|discriminate].
  destruct (userMessagesOf db now uid days); intros [= <-]; reflexivity.
Qed.

(** X22.  What the behaviour record of a user says. The message total is the
    number of the user's messages in the window. The peak hours are at most
    three different hours in which the user wrote, and no other hour has
    more messages than one of them. The top keywords are at most ten;
    [__proto__] is never one of them; each is listed with the number of its
    occurrences among the keywords of these messages, except [constructor],
    whose count is the text of the inherited function followed by one digit
    1 for each occurrence. When [constructor] is not among the keywords, no
    other keyword but [__proto__] occurs more often than a listed one. The
    risk score is a whole number from 0 to 100. *)
Theorem analyzeUserBehavior_shape :
  forall (cal : Calendar) (db : Database) (now : Z) (uid : string) (days : Z)
         (m : UserBehaviorMetrics),
    analyzeUserBehavior cal db now uid days = Some m ->
    let msgs := userMessagesOf db now uid days in
    userId m = uid /\
    totalMessages m = List.length msgs /\
    (List.length (peakActivityHours m) <= 3 /\ NoDup (peakActivityHours m) /\
     (forall h, In h (peakActivityHours m) -> 0 < hour_count cal h msgs) /\
     (forall h h', In h (peakActivityHours m) -> ~ In h' (peakActivityHours m) ->
                   hour_count cal h' msgs <= hour_count cal h msgs)) /\
    (List.length (topKeywords m) <= 10 /\
     (forall k, In k (topKeywords m) ->
        word k <> "__proto__"%string /\
        0 < occurrences (word k) (keywordsOf msgs) /\
        count k
        = if String.eqb (word k) "constructor"
          then JSObject.Text "constructor" (occurrences (word k) (keywordsOf msgs))
          else JSObject.Times (occurrences (word k) (keywordsOf msgs))) /\
     (~ In "constructor"%string (keywordsOf msgs) ->
      forall k w, In k (topKeywords m) -> ~ In w (map word (topKeywords m)) ->
                  w <> "__proto__"%string ->
                  occurrences w (keywordsOf msgs)
                  <= occurrences (word k) (keywordsOf msgs))) /\
    exists z, (0 <= z <= 100)%Z /\ riskScore m = of_Z z.
Proof.
  intros cal db now uid days m. unfold analyzeUserBehavior.
  destruct (Store.read (users db) uid) as [user|]; [|discriminate].
  destruct (userMessagesOf db now uid days) as [|first rest].
  - intros [= <-]. cbv zeta. cbn.
    repeat split; try lia; try constructor; try contradiction.
    exists 0%Z. split; [lia | reflexivity].
  - set (msgs := first :: rest). intros [= <-]. cbv zeta.
    cbn [with_riskScore userId totalMessages peakActivityHours topKeywords riskScore].
    split; [reflexivity|]. split; [reflexivity|]. split; [|split].
    + exact (peak_hours_spec cal msgs).
    + destruct (top_keywords_spec 10 (keywordsOf msgs)) as (H1 & H2 & H3).
      fold (keywordsOf msgs). split; [|split].
      * rewrite length_map. exact H1.
      * intros k Hk. apply in_map_iff in Hk. destruct Hk as (e & <- & He).
        cbn [word count].
        destruct (H2 e He) as (Hproto & Hpos & Hc).
        split; [exact Hproto|]. split; [exact Hpos|]. rewrite Hc.
        destruct (JSObject.inherited (fst e)) eqn:Einh.
        -- destruct (keywords_inherited msgs (fst e)
                       (proj1 (occurrences_in _ _) Hpos) Einh) as [->|Hp];
             [reflexivity | contradiction].
        -- destruct (String.eqb (fst e) "constructor") eqn:Ec; [|reflexivity].
           apply String.eqb_eq in Ec. rewrite Ec in Einh. discriminate.
      * intros Hnone k w Hk Hw Hproto.
        apply in_map_iff in Hk. destruct Hk as (e & <- & He). cbn [word].
        refine (proj2 (H3 _ e w He _ Hproto)).
        -- intros k Hk Hne. destruct (JSObject.inherited k) eqn:Einh; [|reflexivity].
           destruct (keywords_inherited msgs k Hk Einh) as [-> | ->]; contradiction.
        -- intros Hc. apply Hw. rewrite map_map. cbn. exact Hc.
    + rewrite RiskFacts.calculateRiskScore_weighted.
      eexists. split; [apply RiskFacts.weighted_score_range | reflexivity].
Qed.

Lemma analyzeUserBehavior_shape_witness :
  exists m,
    analyzeUserBehavior Examples.utc busy_store 4000000 "u-alice" 30 = Some m /\
    totalMessages m = 3 /\ List.length (peakActivityHours m) <= 3 /\
    forall k, In k (topKeywords m) -> word k <> "__proto__"%string.
Proof.
  destruct (analyzeUserBehavior Examples.utc busy_store 4000000 "u-alice" 30)
    as [m|] eqn:E; [|vm_compute in E; discriminate].
  exists m. split; [reflexivity|].
  destruct (analyzeUserBehavior_shape Examples.utc busy_store 4000000 "u-alice" 30 m E)
    as (_ & Htotal & (Hpeak & _) & (_ & Hkeys & _) & _).
  split; [|split; [exact Hpeak|]].
  - rewrite Htotal. vm_compute. reflexivity.
  - intros k Hk. exact (proj1 (Hkeys k Hk)).
Defined.

(** The keyword tally of messages that speak of [constructor] and of
    [__proto__]: the one is listed with a text for a count, the other is
    not listed. *)
Lemma inherited_names_in_the_tally :
  option_map topKeywords
    (analyzeUserBehavior Examples.utc code_talk_store 4000000 "u-alice" 30)
  = Some [mkKeywordCount "constructor" (JSObject.Text "constructor" 2);
          mkKeywordCount "again" (JSObject.Times 1);
          mkKeywordCount "see" (JSObject.Times 1);
          mkKeywordCount "tomorrow" (JSObject.Times 1)].
Proof. vm_compute. reflexivity. Qed.

End BehaviorFacts.

(** ** generateChatAnalytics *)

Module ChatAnalyticsFacts.

Import Model Number AnalyticsManager Order SortFacts TopFacts Tally TallyFacts Peaks
       BehaviorFacts ChatAnalytics.
Local Open Scope nat_scope.

Lemma sum_bump hour counts :
  sum_of snd (bump hour counts) = S (sum_of snd counts).
Proof.
  induction counts as [|[k c] counts IH]; cbn [bump sum_of snd]; [reflexivity|].
  destruct (k =? hour); cbn [sum_of snd]; [lia|].
  destruct (hour <? k); cbn [sum_of snd]; [lia|]. rewrite IH. lia.
Qed.

Lemma sum_hourCounts cal msgs :
  sum_of snd (hourCountsOf cal msgs) = List.length msgs.
Proof.
  unfold hourCountsOf.
  assert (H : forall acc,
             sum_of snd (fold_left
                           (fun acc msg => bump (getHours cal (Message.timestamp msg)) acc)
                           msgs acc)
             = sum_of snd acc + List.length msgs).
  { induction msgs as [|msg msgs IH]; intros acc; cbn [fold_left List.length]; [lia|].
    rewrite IH, sum_bump. lia. }
  apply H.
Qed.

Lemma sum_firstn_le {A} (f : A -> nat) n l : sum_of f (firstn n l) <= sum_of f l.
Proof.
  revert l. induction n as [|n IH]; intros [|x l]; cbn; try lia.
  specialize (IH l). lia.
Qed.

Lemma set_size_le ids : set_size ids <= List.length ids.
Proof.
  unfold set_size. induction ids as [|x ids IH]; cbn; [lia|].
  destruct (in_dec string_dec x ids); cbn; lia.
Qed.

Lemma userMessageCounts_group (msgs : list Message.t) :
  fold_left (fun (acc : JSObject.t nat) msg =>
               if truthy_id (Message.userId msg) then
                 JSObject.set acc (Message.userId msg)
                   (S (match JSObject.get acc (Message.userId msg) with
                       | Some n => n | None => 0 end))
               else acc)
            msgs []
  = group author_of 0 (fun n _ => S n) msgs [].
Proof.
  unfold group. generalize (@nil (string * nat)).
  induction msgs as [|msg msgs IH]; intros acc; [reflexivity|].
  cbn [fold_left]. rewrite IH. f_equal.
  unfold author_of. destruct (truthy_id (Message.userId msg)); reflexivity.
Qed.

Lemma count_fold {X} (xs : list X) :
  fold_left (fun n (_ : X) => S n) xs 0 = List.length xs.
Proof.
  assert (H : forall n, fold_left (fun n (_ : X) => S n) xs n = n + List.length xs).
  { induction xs as [|x xs IH]; intros n; cbn; [lia|]. rewrite IH. lia. }
  apply H.
Qed.

(** X23.  The figures of the chat analytics add up. The counts of the peak
    hours, listed by falling count, and the counts of the days both add up
    to the messages of the window. The automatic and the manual flags make
    up the flagged total, of which the deleted and the approved are a part.
    The top users are at most ten, each with the number of their messages in
    the window; the word cloud has at most fifty words, never [__proto__],
    each with the number of its occurrences among the keywords of the
    window, except [constructor], whose frequency is the text of the
    inherited function followed by one digit 1 for each occurrence; and the
    one channel holds all messages and no more users than messages. *)
Theorem generateChatAnalytics_adds_up :
  forall (cal : Calendar) (isoDate : Z -> string) (db : Database) (now days : Z),
    let result := generateChatAnalytics cal isoDate db now days in
    let recent := messages_after db (now - days * 24 * 60 * 60 * 1000)%Z in
    let stats := moderationStats result in
    totalMessages result = List.length recent /\
    activeUsers24h result
      <= List.length (messages_after db (now - 24 * 60 * 60 * 1000)%Z) /\
    sum_of HourCount.messageCount (peakHours result) = totalMessages result /\
    ordered (fun a b => HourCount.messageCount b <= HourCount.messageCount a)
            (peakHours result) /\
    sum_of DaySentiment.messageCount (sentimentOverTime result) = totalMessages result /\
    ModerationStats.autoFlagged stats + ModerationStats.manualFlagged stats
      = ModerationStats.totalFlagged stats /\
    ModerationStats.deletedMessages stats + ModerationStats.approvedMessages stats
      <= ModerationStats.totalFlagged stats /\
    List.length (topUsers result) <= 10 /\
    (forall u, In u (topUsers result) ->
       0 < TopUser.messageCount u /\
       TopUser.messageCount u
       = List.length (filter (written_by (TopUser.userId u)) recent)) /\
    sum_of TopUser.messageCount (topUsers result) <= totalMessages result /\
    List.length (wordCloud result) <= 50 /\
    (forall w, In w (wordCloud result) ->
       WordFrequency.word w <> "__proto__"%string /\
       0 < occurrences (WordFrequency.word w) (keywordsOf recent) /\
       WordFrequency.frequency w
       = if String.eqb (WordFrequency.word w) "constructor"
         then JSObject.Text "constructor"
                (occurrences (WordFrequency.word w) (keywordsOf recent))
         else JSObject.Times (occurrences (WordFrequency.word w) (keywordsOf recent))) /\
    exists userCount,
      channelStats result
      = [("general"%string, ChannelStat.mk (totalMessages result) userCount)] /\
      userCount <= totalMessages result.
Proof.
  intros cal isoDate db now days. cbv zeta. unfold generateChatAnalytics.
  set (recent := messages_after db (now - days * 24 * 60 * 60 * 1000)%Z).
  cbn [totalMessages activeUsers24h peakHours sentimentOverTime moderationStats
       topUsers wordCloud channelStats
       ModerationStats.autoFlagged ModerationStats.manualFlagged
       ModerationStats.totalFlagged ModerationStats.deletedMessages
       ModerationStats.approvedMessages].
  rewrite userMessageCounts_group.
  fold (hourCountsOf cal recent).
  split; [reflexivity|]. split.
  { etransitivity; [apply set_size_le|]. rewrite length_map. lia. }
  split.
  { rewrite sum_of_sort, sum_of_map. cbn [HourCount.messageCount].
    apply sum_hourCounts. }
  split.
  { apply (ordered_impl (fun a b => by_messageCount_desc a b = true)).
    - intros a b H. apply Nat.leb_le. exact H.
    - apply (sort_ordered by_messageCount_desc (fun _ => True)).
      + intros a b _ _ H. unfold by_messageCount_desc in *.
        apply Nat.leb_gt in H. apply Nat.leb_le. lia.
      + intros a b c _ _ _ H1 H2. unfold by_messageCount_desc in *.
        apply Nat.leb_le in H1. apply Nat.leb_le in H2. apply Nat.leb_le. lia.
      + apply Forall_forall. intros; exact I. }
  split.
  { rewrite sum_of_map. cbn [DaySentiment.messageCount].
    rewrite (sum_of_entries (fun e => bucket_count (snd e))).
    change (fold_left _ recent [])
      with (group (fun msg : Message.t => Some (isoDate (Message.timestamp msg)))
              (mkDayBucket [] 0)
              (fun bucket msg =>
                 mkDayBucket
                   (sentiments bucket ++ [comparative (analyzeSentiment (Message.text msg))])
                   (S (bucket_count bucket)))
              recent []).
    rewrite (group_sum
               (fun msg : Message.t => Some (isoDate (Message.timestamp msg)))
               (mkDayBucket [] 0)
               (fun bucket msg =>
                  mkDayBucket
                    (sentiments bucket
                     ++ [comparative (analyzeSentiment (Message.text msg))])
                    (S (bucket_count bucket)))
               bucket_count (fun _ => 1) eq_refl ltac:(intros; cbn; lia)).
    cbn [sum_of]. rewrite Nat.add_0_l.
    exact (EffectivenessFacts.sum_of_ones recent). }
  split.
  { pose proof (ObjectFacts.length_filter_le
                  (fun flag => truthy_bool (FlaggedNode.autoFlagged flag))
                  (filter (flagged_after (now - days * 24 * 60 * 60 * 1000))
                          (Store.values (flaggedMessages db)))). lia. }
  split.
  { apply AnalyticsFacts.actions_le_length. }
  set (counts := JSObject.entries (group author_of 0 (fun n _ => S n) recent [])).
  assert (Hcounts : sum_of snd counts <= List.length recent).
  { unfold counts. rewrite (sum_of_entries (fun e => snd e)).
    rewrite (group_sum author_of 0 (fun n _ => S n) (fun n => n) (fun _ => 1) eq_refl
               ltac:(intros; cbn; lia)).
    cbn [sum_of]. rewrite Nat.add_0_l.
    generalize recent. intros l. induction l as [|m l IH]; cbn [sum_of List.length]; [lia|].
    destruct (author_of m); lia. }
  split.
  { rewrite length_map. unfold JSArray.slice_to. rewrite length_firstn. lia. }
  split.
  { intros u Hu. apply in_map_iff in Hu. destruct Hu as ([k c] & <- & Hin).
    cbn [TopUser.messageCount TopUser.userId fst snd].
    apply firstn_in in Hin. apply in_sort in Hin.
    destruct (group_entry author_of 0 (fun n _ => S n) recent k c Hin) as [Hne ->].
    rewrite count_fold. unfold written_by.
    destruct (filter (has_key author_of k) recent); [contradiction|]. cbn. split; [lia|reflexivity]. }
  split.
  { rewrite sum_of_map. cbn [TopUser.messageCount].
    etransitivity; [apply sum_firstn_le|]. rewrite sum_of_sort. exact Hcounts. }
  fold (keywordsOf recent).
  destruct (top_keywords_spec 50 (keywordsOf recent)) as (H1 & H2 & _).
  split.
  { rewrite length_map. exact H1. }
  split.
  { intros w Hw. apply in_map_iff in Hw. destruct Hw as (e & <- & He).
    cbn [WordFrequency.word WordFrequency.frequency].
    destruct (H2 e He) as (Hproto & Hpos & Hc).
    split; [exact Hproto|]. split; [exact Hpos|]. rewrite Hc.
    destruct (JSObject.inherited (fst e)) eqn:Einh.
    - destruct (keywords_inherited recent (fst e)
                  (proj1 (occurrences_in _ _) Hpos) Einh) as [-> | Hp];
        [reflexivity | contradiction].
    - destruct (String.eqb (fst e) "constructor") eqn:Ec; [|reflexivity].
      apply String.eqb_eq in Ec. rewrite Ec in Einh. discriminate. }
  eexists. split; [reflexivity|].
  etransitivity; [apply set_size_le|]. rewrite length_map. lia.
Qed.

End ChatAnalyticsFacts.

(** ** The cloud function's rate limit *)

Module ServerRateLimitFacts.

Import ServerRateLimit ObjectFacts.
Local Open Scope nat_scope.

(** Within a window that is open, the count only grows with the stored
    messages, and stops them at [maxRequests]. *)
Lemma sent_in_window calls : forall limits userId c r,
  JSObject.get limits userId = Some (mkLimit c r) ->
  Forall (fun call => (fst call <= r)%Z) calls ->
  sent limits userId calls + c <= Nat.max c maxRequests.
Proof.
  induction calls as [|[now delivered] calls IH]; intros limits userId c r Hget Hall.
  - cbn. lia.
  - inversion Hall as [|? ? Hnow Hrest]; subst. cbn [fst] in Hnow.
    cbn [sent]. unfold send, checkRateLimit. rewrite Hget. cbn [resetTime count].
    destruct (r <? now)%Z eqn:E; [apply Z.ltb_lt in E; lia|].
    destruct (maxRequests <=? c) eqn:Ec; cbn [allowed].
    + apply Nat.leb_le in Ec. specialize (IH limits userId c r Hget Hrest). lia.
    + apply Nat.leb_gt in Ec. destruct delivered.
      * unfold updateRateLimit. rewrite Hget. cbn [count resetTime].
        specialize (IH (JSObject.set limits userId (mkLimit (S c) r)) userId (S c) r
                       (get_set_same _ _ _) Hrest).
        unfold maxRequests in *. lia.
      * specialize (IH limits userId c r Hget Hrest). lia.
Qed.

(** X24.  A window admits nine messages, not ten. For a user without an
    entry, of the calls up to sixty seconds after the first one at most nine
    are stored: the first call opens the window with a count of one, its own
    update makes that two, and a count of ten refuses. *)
Theorem server_window_admits_nine :
  forall (limits : State) (userId : string) (first : Z) (delivered : bool)
         (calls : list (Z * bool)),
    JSObject.get limits userId = None ->
    Forall (fun call => (fst call <= first + windowMs)%Z) calls ->
    sent limits userId ((first, delivered) :: calls) <= 9.
Proof.
  intros limits userId first delivered calls Hnone Hall.
  cbn [sent]. unfold send, checkRateLimit. rewrite Hnone. cbn [allowed].
  destruct delivered.
  - unfold updateRateLimit. rewrite get_set_same. cbn [count resetTime].
    pose proof (sent_in_window calls
                  (JSObject.set (JSObject.set limits userId (mkLimit 1 (first + windowMs)))
                                userId (mkLimit 2 (first + windowMs)))
                  userId 2 (first + windowMs) (get_set_same _ _ _) Hall) as H.
    unfold maxRequests in H. lia.
  - pose proof (sent_in_window calls
                  (JSObject.set limits userId (mkLimit 1 (first + windowMs)))
                  userId 1 (first + windowMs) (get_set_same _ _ _) Hall) as H.
    unfold maxRequests in H. lia.
Qed.

Lemma server_window_admits_nine_witness :
  sent [] "u-bob" burst = 9 /\ sent [] "u-bob" burst <= 9.
Proof.
  split; [vm_compute; reflexivity|].
  apply (server_window_admits_nine [] "u-bob" 1000 true (tl burst)).
  - reflexivity.
  - vm_compute. repeat constructor; discriminate.
Defined.

End ServerRateLimitFacts.

(** ** Reports *)

Module ReportFacts.

Import Model Number AnalyticsManager Order SortFacts TopFacts Reports.
Local Open Scope nat_scope.

Lemma push_if_paired c insight advice lists n :
  List.length (fst lists) = List.length (snd lists) /\ List.length (fst lists) <= n ->
  List.length (fst (push_if c insight advice lists))
  = List.length (snd (push_if c insight advice lists)) /\
  List.length (fst (push_if c insight advice lists)) <= S n.
Proof.
  intros [H Hn]. unfold push_if. destruct c; cbn [fst snd].
  - rewrite !length_app, H. cbn. lia.
  - lia.
Qed.

Lemma findings_paired host chat moderation behavior :
  List.length (fst (findings host chat moderation behavior))
  = List.length (snd (findings host chat moderation behavior)) /\
  List.length (fst (findings host chat moderation behavior)) <= 5.
Proof.
  unfold findings. cbv zeta.
  apply (push_if_paired _ _ _ _ 4). apply (push_if_paired _ _ _ _ 3).
  apply (push_if_paired _ _ _ _ 2). apply (push_if_paired _ _ _ _ 1).
  apply (push_if_paired _ _ _ _ 0). cbn. lia.
Qed.

Lemma slice_to_length {A} n (l : list A) : List.length (JSArray.slice_to n l) <= n.
Proof. unfold JSArray.slice_to. rewrite length_firstn. lia. Qed.

Lemma slice_to_in {A} n (l : list A) x : In x (JSArray.slice_to n l) -> In x l.
Proof. apply firstn_in. Qed.

Lemma keep_some_length {A} (l : list (option A)) :
  List.length (keep_some l) <= List.length l.
Proof.
  unfold keep_some. induction l as [|[x|] l IH]; cbn; lia.
Qed.

Lemma keep_some_in {A} (l : list (option A)) x :
  In x (keep_some l) -> In (Some x) l.
Proof.
  unfold keep_some. induction l as [|[y|] l IH]; cbn; [tauto| |].
  - intros [->|H]; [left; reflexivity | right; exact (IH H)].
  - intros H. right. exact (IH H).
Qed.

Lemma ceil_days_covers (ms : Z) :
  (ms <= ceil_days ms * day_ms < ms + day_ms)%Z.
Proof.
  unfold ceil_days, day_ms.
  pose proof (Z.div_mod (- ms) (24 * 60 * 60 * 1000) ltac:(lia)) as Hdm.
  pose proof (Z.mod_pos_bound (- ms) (24 * 60 * 60 * 1000) ltac:(lia)) as Hb.
  lia.
Qed.

Lemma generateReport_made host db reports reportId now type start finish generatedBy
      days actualStart actualEnd :
  period now type start finish = Some (days, actualStart, actualEnd) ->
  let chat :=
    ChatAnalytics.generateChatAnalytics (calendar host) (isoDate host) db now days in
  let moderation := analyzeModerationEffectiveness db now days in
  let metrics := top_metrics host db now days in
  let report :=
    mkReport reportId type actualStart actualEnd now
      (match generatedBy with Some who => who | None => "system"%string end)
      chat metrics moderation
      (fst (findings host chat moderation metrics))
      (snd (findings host chat moderation metrics)) in
  generateReport host db reports reportId now type start finish generatedBy
  = if forallb complete metrics
    then Some (report, Store.write reports reportId (fun _ => report))
    else None.
Proof.
  intros Ep. cbv zeta. unfold generateReport. rewrite Ep.
  fold (top_metrics host db now days).
  destruct (findings _ _ _ _) as [ins recs]. reflexivity.
Qed.

(** X25.  What every report holds. It is stored under the generated key and
    carries the time of its generation; insights and recommendations come in
    pairs, at most five; behaviour metrics are given for at most five users,
    all of them top users of the chat analytics, and each record has an
    email and a display name. A daily, weekly or monthly report ends now and
    spans one, seven or thirty days, whatever dates the caller passed. *)
Theorem generateReport_shape :
  forall (host : Host) (db : Database) (reports : Store.Node AnalyticsReport)
         (reportId : string) (now : Z) (type : ReportType)
         (start finish : option Z) (generatedBy : option string)
         (report : AnalyticsReport) (reports' : Store.Node AnalyticsReport),
    generateReport host db reports reportId now type start finish generatedBy
    = Some (report, reports') ->
    Store.read reports' reportId = Some report /\
    id report = reportId /\ generatedAt report = now /\
    List.length (insights report) = List.length (recommendations report) /\
    List.length (insights report) <= 5 /\
    List.length (userBehaviorMetrics report) <= 5 /\
    (forall m, In m (userBehaviorMetrics report) ->
       (exists user, In user (ChatAnalytics.topUsers (chatAnalytics report)) /\
                     userId m = ChatAnalytics.TopUser.userId user) /\
       email m <> None /\ displayName m <> None) /\
    (type <> Custom ->
     endDate report = now /\
     (endDate report - startDate report)%Z
     = (match type with Daily => 1 | Weekly => 7 | _ => 30 end * day_ms)%Z).
Proof.
  intros host db reports reportId now type start finish generatedBy report reports'.
  unfold generateReport.
  destruct (period now type start finish) as [[[days actualStart] actualEnd]|] eqn:Ep;
    [|discriminate].
  set (chat := ChatAnalytics.generateChatAnalytics (calendar host) (isoDate host) db now
                 days).
  set (moderation := analyzeModerationEffectiveness db now days).
  set (metrics := keep_some _).
  assert (Hmetrics : List.length metrics <= 5).
  { unfold metrics. etransitivity; [apply keep_some_length|]. rewrite length_map.
    apply slice_to_length. }
  assert (Husers : forall m, In m metrics ->
            exists user, In user (ChatAnalytics.topUsers chat) /\
                         userId m = ChatAnalytics.TopUser.userId user).
  { intros m Hm. unfold metrics in Hm. apply keep_some_in in Hm. apply in_map_iff in Hm.
    destruct Hm as (user & Hm & Hin). exists user. split.
    - apply slice_to_in in Hin. exact Hin.
    - exact (BehaviorFacts.analyzeUserBehavior_userId _ _ _ _ _ _ Hm). }
  destruct (findings_paired host chat moderation metrics) as [Hpair Hfive].
  clearbody chat moderation metrics.
  destruct (findings host chat moderation metrics) as [ins recs].
  cbn [fst snd] in Hpair, Hfive.
  unfold storable. cbn [userBehaviorMetrics].
  destruct (forallb complete metrics) eqn:Ecomplete; [|discriminate].
  intros [= <- <-].
  cbn [id generatedAt insights recommendations userBehaviorMetrics chatAnalytics
       endDate startDate].
  split; [apply StoreFacts.read_write_same|].
  split; [reflexivity|]. split; [reflexivity|]. split; [exact Hpair|].
  split; [exact Hfive|]. split; [exact Hmetrics|]. split.
  { intros m Hm. split; [exact (Husers m Hm)|].
    rewrite forallb_forall in Ecomplete. specialize (Ecomplete m Hm).
    unfold complete in Ecomplete.
    destruct (email m), (displayName m); try discriminate. split; discriminate. }
  intros Htype. unfold period in Ep.
  destruct type; try contradiction; injection Ep as <- <- <-; unfold day_ms; split; lia.
Qed.

Lemma generateReport_shape_witness :
  exists report reports',
    generateReport plain_host Peaks.busy_store [] "-r1" 4000000 Weekly None None None
    = Some (report, reports') /\
    (endDate report - startDate report)%Z = (7 * day_ms)%Z.
Proof.
  destruct (generateReport plain_host Peaks.busy_store [] "-r1" 4000000 Weekly None None
              None) as [[report reports']|] eqn:E; [|vm_compute in E; discriminate].
  exists report, reports'. split; [reflexivity|].
  destruct (generateReport_shape _ _ _ _ _ _ _ _ _ _ _ E) as (_ & _ & _ & _ & _ & _ & _ & H).
  apply H. discriminate.
Defined.

(** No report is made of a store in which the author of the messages has
    no display name. *)
Lemma report_needs_display_name :
  generateReport plain_host nameless_store [] "-r1" 4000000 Weekly None None None = None.
Proof. vm_compute. reflexivity. Qed.

(** X26.  A custom report does not look at its period. With both dates
    given, the report is made exactly when every behaviour record of the top
    users has an email and a display name; it then carries the two dates,
    but its analyses are those of the last days before now, as many as the
    period is long (rounded up to whole days). Two periods of the same
    length fare alike wherever they lie: either no report is made of either,
    or both reports have the same analytics, metrics, insights and
    recommendations. Without a start or an end date, or with one that is
    zero, no report is made. *)
Theorem custom_report_ignores_its_dates :
  forall (host : Host) (db : Database) (reports : Store.Node AnalyticsReport)
         (reportId : string) (now : Z) (generatedBy : option string)
         (start finish : Z),
    start <> 0%Z -> finish <> 0%Z ->
    let days := ceil_days (finish - start) in
    let made :=
      generateReport host db reports reportId now Custom (Some start) (Some finish)
        generatedBy in
    (made <> None <-> forallb complete (top_metrics host db now days) = true) /\
    (forall report reports',
        made = Some (report, reports') ->
        reports' = Store.write reports reportId (fun _ => report) /\
        startDate report = start /\ endDate report = finish /\
        chatAnalytics report
        = ChatAnalytics.generateChatAnalytics (calendar host) (isoDate host) db now days /\
        userBehaviorMetrics report = top_metrics host db now days /\
        moderationEffectiveness report = analyzeModerationEffectiveness db now days) /\
    (finish - start <= days * day_ms < finish - start + day_ms)%Z /\
    (forall start' finish',
        start' <> 0%Z -> finish' <> 0%Z ->
        (finish' - start')%Z = (finish - start)%Z ->
        option_map (fun r => analyses (fst r))
          (generateReport host db reports reportId now Custom (Some start')
             (Some finish') generatedBy)
        = option_map (fun r => analyses (fst r)) made) /\
    generateReport host db reports reportId now Custom None (Some finish) generatedBy
    = None /\
    generateReport host db reports reportId now Custom (Some start) None generatedBy
    = None /\
    generateReport host db reports reportId now Custom (Some 0%Z) (Some finish)
      generatedBy
    = None /\
    generateReport host db reports reportId now Custom (Some start) (Some 0%Z)
      generatedBy
    = None.
Proof.
  intros host db reports reportId now generatedBy s e Hs He. cbv zeta.
  assert (Hperiod : forall s' e', s' <> 0%Z -> e' <> 0%Z ->
            period now Custom (Some s') (Some e') = Some (ceil_days (e' - s'), s', e')).
  { intros s' e' Hs' He'. unfold period.
    assert (Hts : truthy_Z (Some s') = true)
      by (cbn; apply negb_true_iff; apply Z.eqb_neq; exact Hs').
    assert (Hte : truthy_Z (Some e') = true)
      by (cbn; apply negb_true_iff; apply Z.eqb_neq; exact He').
    rewrite Hts, Hte. reflexivity. }
  pose proof (generateReport_made host db reports reportId now Custom (Some s) (Some e)
                generatedBy _ _ _ (Hperiod s e Hs He)) as Hmade.
  cbv zeta in Hmade.
  assert (Hts : truthy_Z (Some s) = true)
    by (cbn; apply negb_true_iff; apply Z.eqb_neq; exact Hs).
  split; [|split; [|split; [|split; [|split; [|split; [|split]]]]]].
  - rewrite Hmade. destruct (forallb complete _); split; congruence.
  - intros report reports'. rewrite Hmade.
    destruct (forallb complete _); [|discriminate].
    intros [= <- <-]. cbn [startDate endDate chatAnalytics userBehaviorMetrics
                           moderationEffectiveness].
    repeat split; reflexivity.
  - apply ceil_days_covers.
  - intros s' e' Hs' He' Hlen.
    rewrite Hmade.
    rewrite (generateReport_made host db reports reportId now Custom (Some s') (Some e')
               generatedBy _ _ _ (Hperiod s' e' Hs' He')).
    cbv zeta. rewrite Hlen.
    destruct (forallb complete _); reflexivity.
  - unfold generateReport, period. reflexivity.
  - unfold generateReport, period. rewrite Hts. reflexivity.
  - unfold generateReport, period. reflexivity.
  - unfold generateReport, period. rewrite Hts. reflexivity.
Qed.

Lemma custom_report_ignores_its_dates_witness :
  exists report reports',
    generateReport plain_host Peaks.busy_store [] "-r1" 4000000 Custom (Some 1000%Z)
      (Some 5000%Z) None
    = Some (report, reports') /\
    startDate report = 1000%Z /\ endDate report = 5000%Z /\
    chatAnalytics report
    = ChatAnalytics.generateChatAnalytics Examples.utc (fun _ => "1970-01-01"%string)
        Peaks.busy_store 4000000 1.
Proof.
  destruct (generateReport plain_host Peaks.busy_store [] "-r1" 4000000 Custom
              (Some 1000%Z) (Some 5000%Z) None) as [[report reports']|] eqn:E;
    [|vm_compute in E; discriminate].
  exists report, reports'. split; [reflexivity|].
  destruct (custom_report_ignores_its_dates plain_host Peaks.busy_store [] "-r1" 4000000
              None 1000 5000 ltac:(discriminate) ltac:(discriminate))
    as (_ & H & _).
  destruct (H report reports' E) as (_ & Hstart & Hend & Hchat & _).
  split; [exact Hstart|]. split; [exact Hend|]. exact Hchat.
Defined.

(** *** getReports and cleanupOldReports *)

Lemma read_fold_remove {A} (ids : list string) : forall (n : Store.Node A) key,
  Store.read (fold_left (fun n id => Store.remove n id) ids n) key
  = if existsb (String.eqb key) ids then None else Store.read n key.
Proof.
  induction ids as [|id ids IH]; intros n key; [reflexivity|].
  cbn [fold_left existsb]. rewrite IH.
  destruct (existsb (String.eqb key) ids) eqn:E.
  - rewrite orb_true_r. reflexivity.
  - rewrite orb_false_r. destruct (String.eqb key id) eqn:E'.
    + apply String.eqb_eq in E'. subst. apply StoreFacts.read_remove_same.
    + apply StoreFacts.read_remove_other. intros ->.
      rewrite String.eqb_refl in E'. discriminate.
Qed.

Lemma read_in {A} (n : Store.Node A) key v :
  Store.read n key = Some v -> In (key, v) n.
Proof.
  induction n as [|[k v0] n IH]; cbn; [discriminate|].
  destruct (String.eqb k key) eqn:E.
  - apply String.eqb_eq in E. intros [= ->]. left. congruence.
  - intros H. right. exact (IH H).
Qed.

Lemma in_read {A} (n : Store.Node A) key v :
  NoDup (map fst n) -> In (key, v) n -> Store.read n key = Some v.
Proof.
  induction n as [|[k v0] n IH]; cbn; intros Hnd Hin; [contradiction|].
  inversion Hnd as [|? ? Hnot Hrest]; subst.
  destruct Hin as [[= -> ->]|Hin].
  - rewrite String.eqb_refl. reflexivity.
  - destruct (String.eqb k key) eqn:E.
    + apply String.eqb_eq in E. subst k. exfalso. apply Hnot.
      apply in_map_iff. exists (key, v). auto.
    + apply IH; assumption.
Qed.

(** X27.  The clean-up removes the old reports and no others. In a store
    whose report keys are distinct, a report is there after
    [cleanupOldReports] exactly when it was there before and was generated
    at the cut-off time or later. *)
Theorem cleanupOldReports_keeps_recent :
  forall (reports : Store.Node AnalyticsReport) (now : Z) (daysToKeep : option Z)
         (reportId : string) (report : AnalyticsReport),
    BanHistory.distinct_keys reports ->
    let cutoffTime :=
      (now - match daysToKeep with Some d => d | None => 90 end * 24 * 60 * 60 * 1000)%Z in
    Store.read (cleanupOldReports reports now daysToKeep) reportId = Some report
    <-> Store.read reports reportId = Some report /\
        (cutoffTime <= generatedAt report)%Z.
Proof.
  intros reports now daysToKeep reportId report Hkeys. cbv zeta.
  unfold cleanupOldReports, Store.entries. rewrite read_fold_remove.
  set (cutoff := (now - _ * 24 * 60 * 60 * 1000)%Z).
  destruct (existsb (String.eqb reportId) _) eqn:E.
  - split; [discriminate|]. intros [Hread Hrecent]. exfalso.
    apply existsb_exists in E. destruct E as (k & Hk & Heq).
    apply String.eqb_eq in Heq. subst k.
    apply in_map_iff in Hk. destruct Hk as ([k r] & Hfst & Hin). cbn in Hfst. subst k.
    apply filter_In in Hin. destruct Hin as [Hin Hold]. cbn [snd] in Hold.
    apply (in_read reports reportId r Hkeys) in Hin.
    rewrite Hread in Hin. injection Hin as <-. apply Z.ltb_lt in Hold. lia.
  - split.
    + intros Hread. split; [exact Hread|].
      destruct (Z.lt_ge_cases (generatedAt report) cutoff) as [Hlt|Hge]; [|lia].
      exfalso. assert (Hex : existsb (String.eqb reportId)
                               (map fst (filter (fun entry =>
                                                   (generatedAt (snd entry) <? cutoff)%Z)
                                                reports)) = true).
      { apply existsb_exists. exists reportId. split; [|apply String.eqb_refl].
        apply in_map_iff. exists (reportId, report). split; [reflexivity|].
        apply filter_In. split; [apply read_in; exact Hread|].
        cbn [snd]. apply Z.ltb_lt. exact Hlt. }
      rewrite Hex in E. discriminate.
    + intros [Hread _]. exact Hread.
Qed.

Lemma cleanupOldReports_keeps_recent_witness :
  exists report,
    Store.read (cleanupOldReports weekly_reports 5000000 None) "-r1" = Some report.
Proof.
  assert (E : exists report,
             Store.read weekly_reports "-r1" = Some report /\
             generatedAt report = 4000000%Z)
    by (vm_compute; eexists; split; reflexivity).
  destruct E as (report & Hread & Hat). exists report.
  apply (cleanupOldReports_keeps_recent weekly_reports 5000000 None "-r1" report).
  - unfold BanHistory.distinct_keys. vm_compute. constructor; [intros [] | constructor].
  - split; [exact Hread|]. rewrite Hat. vm_compute. discriminate.
Defined.

(** X28.  The saved reports are listed newest first: [getReports] gives at
    most [limit] of the stored reports (ten when no limit is given), none
    twice over, ordered by falling generation time, and a report that is
    left out is not newer than a listed one. *)
Theorem getReports_newest_first :
  forall (reports : Store.Node AnalyticsReport) (limit : option nat),
    let listed := getReports reports limit in
    List.length listed
    = Nat.min (match limit with Some n => n | None => 10 end) (List.length reports) /\
    (forall report, In report listed -> In report (Store.values reports)) /\
    ordered (fun a b => (generatedAt b <= generatedAt a)%Z) listed /\
    (forall a b, In a listed -> In b (Store.values reports) -> ~ In b listed ->
                 (generatedAt b <= generatedAt a)%Z).
Proof.
  intros reports limit. cbv zeta. unfold getReports, JSArray.slice_to.
  set (n := match limit with Some n => n | None => 10 end).
  assert (Htotal : forall a b : AnalyticsReport,
             True -> True -> newest_first a b = false -> newest_first b a = true).
  { intros a b _ _ H. unfold newest_first in *.
    apply Z.leb_gt in H. apply Z.leb_le. lia. }
  assert (Htrans : forall a b c : AnalyticsReport,
             True -> True -> True ->
             newest_first a b = true -> newest_first b c = true ->
             newest_first a c = true).
  { intros a b c _ _ _ H1 H2. unfold newest_first in *.
    apply Z.leb_le in H1. apply Z.leb_le in H2. apply Z.leb_le. lia. }
  assert (Hall : Forall (fun _ : AnalyticsReport => True) (Store.values reports))
    by (apply Forall_forall; intros; exact I).
  split; [|split; [|split]].
  - rewrite length_firstn, length_sort. unfold Store.values. rewrite length_map.
    reflexivity.
  - intros report H. apply firstn_in in H. apply in_sort in H. exact H.
  - apply firstn_ordered.
    apply (ordered_impl (fun a b => newest_first a b = true)).
    + intros a b H. apply Z.leb_le. exact H.
    + exact (sort_ordered newest_first (fun _ => True) Htotal Htrans _ Hall).
  - intros a b Ha Hb Hnb.
    pose proof (top_largest newest_first (fun _ => True) (Store.values reports) n a b
                  Htotal Htrans Hall Ha Hb Hnb) as H.
    apply Z.leb_le. exact H.
Qed.

End ReportFacts.

(** ** ChatAdmin *)

Module ChatAdminFacts.

Import Model MessageModerator Order SortFacts TopFacts Tally TallyFacts Verdicts ChatAdmin.
Local Open Scope nat_scope.

Lemma includes_any_app s ws1 ws2 :
  includes_any s (ws1 ++ ws2) = (includes_any s ws1 || includes_any s ws2)%bool.
Proof. unfold includes_any. apply existsb_app. Qed.

(** X29.  The keyword search and the classifier agree on the word lists. A
    monitored message with a profanity verdict is found by a search for the
    classifier's words, and a message that this search finds is flagged by
    the classifier, from every state of the pattern tables. *)
Theorem keyword_search_meets_classifier :
  forall (st : PatternState) (messages : list Message.t) (msg : Message.t)
         (userId messageId : string),
    In msg messages ->
    let verdict := fst (moderateMessage st (Message.text msg) userId messageId) in
    (flagReason verdict = Some Profanity ->
     In msg (getMessagesWithKeywords messages lexicon)) /\
    (In msg (getMessagesWithKeywords messages lexicon) -> shouldFlag verdict = true).
Proof.
  intros st messages msg userId messageId Hin. cbv zeta.
  unfold getMessagesWithKeywords. rewrite filter_In.
  change (existsb _ lexicon)
    with (includes_any (JS.toLowerCase (Message.text msg)) lexicon).
  unfold lexicon. rewrite !includes_any_app. unfold moderateMessage.
  destruct (includes_any _ PROFANITY_severe); [cbn; auto|].
  destruct (test_loop HARASSMENT_PATTERNS _ _ _) as [[|] hli];
    [cbn; split; [discriminate | reflexivity]|].
  destruct (includes_any _ PROFANITY_moderate); [cbn; auto|].
  destruct (includes_any _ PROFANITY_mild); [cbn; auto|].
  cbn [orb spamLastIndex harassmentLastIndex].
  destruct (test_loop SPAM_PATTERNS _ _ _) as [[|] sli];
    [cbn; split; [discriminate | reflexivity]|].
  destruct (800 <? String.length (Message.text msg));
    cbn; split; try discriminate; intros [_ H]; discriminate.
Qed.

Lemma keyword_search_meets_classifier_witness :
  shouldFlag
    (fst (moderateMessage initialPatternState "that movie was trash" "u-bob" "-m1"))
  = true.
Proof.
  apply (keyword_search_meets_classifier initialPatternState
           [Message.mk "that movie was trash" "bob" "u-bob" 1000]
           (Message.mk "that movie was trash" "bob" "u-bob" 1000) "u-bob" "-m1").
  - left. reflexivity.
  - vm_compute. auto.
Defined.

Lemma userCounts_group (messages : list Message.t) :
  fold_left (fun (acc : JSObject.t nat) msg =>
               let count := match JSObject.get acc (Message.user msg) with
                            | Some n => n | None => 0 end in
               JSObject.set acc (Message.user msg) (count + 1))
            messages []
  = group (fun msg => Some (Message.user msg)) 0 (fun n _ => n + 1) messages [].
Proof. reflexivity. Qed.

Lemma set_of_spec (values : list string) :
  NoDup (set_of values) /\
  (forall v, In v (set_of values) <-> In v values) /\
  List.length (set_of values) <= List.length values.
Proof.
  unfold set_of.
  assert (H : forall acc,
             NoDup acc ->
             let result := fold_left (fun acc value =>
                                        if JSArray.includes acc value then acc
                                        else acc ++ [value]) values acc in
             NoDup result /\
             (forall v, In v result <-> In v acc \/ In v values) /\
             List.length result <= List.length acc + List.length values).
  { induction values as [|x values IH]; intros acc Hacc; cbn [fold_left].
    - cbn. split; [exact Hacc|]. split; [tauto | lia].
    - destruct (JSArray.includes acc x) eqn:E.
      + destruct (IH acc Hacc) as (H1 & H2 & H3). split; [exact H1|]. split.
        * intros v. rewrite H2. cbn. split; [tauto|].
          intros [Hv|[<-|Hv]]; [tauto| |tauto].
          left. unfold JSArray.includes in E. apply existsb_exists in E.
          destruct E as (y & Hy & Heq). apply String.eqb_eq in Heq. subst y. exact Hy.
        * cbn. lia.
      + assert (Hnew : NoDup (acc ++ [x])).
        { apply NoDup_app; [exact Hacc | constructor; [tauto | constructor] |].
          intros v Hv [<-|[]]. unfold JSArray.includes in E.
          assert (existsb (String.eqb x) acc = true); [|congruence].
          apply existsb_exists. exists x. split; [exact Hv | apply String.eqb_refl]. }
        destruct (IH (acc ++ [x]) Hnew) as (H1 & H2 & H3). split; [exact H1|]. split.
        * intros v. rewrite H2, in_app_iff. cbn. tauto.
        * rewrite length_app in H3. cbn in *. lia. }
  destruct (H [] (NoDup_nil _)) as (H1 & H2 & H3).
  split; [exact H1|]. split; [|exact H3].
  intros v. rewrite H2. cbn. tauto.
Qed.

Lemma count_up {X} (xs : list X) :
  fold_left (fun n (_ : X) => n + 1) xs 0 = List.length xs.
Proof.
  assert (H : forall n, fold_left (fun n (_ : X) => n + 1) xs n = n + List.length xs).
  { induction xs as [|x xs IH]; intros n; cbn; [lia|]. rewrite IH. lia. }
  apply H.
Qed.

(** X30.  The figures of the monitor add up. The active users are the
    different signatures of the messages; the top users are at most ten of
    them, each with the number of the messages under that signature, and
    nobody who is left out has more messages than one who is listed; the
    last hour's messages and the listed counts together are each at most all
    messages. *)
Theorem calculateStats_adds_up :
  forall (messages : list Message.t) (now : Z),
    let stats := calculateStats messages now in
    totalMessages stats = List.length messages /\
    messagesPerHour stats <= totalMessages stats /\
    NoDup (activeUsers stats) /\
    (forall u, In u (activeUsers stats) <-> In u (map Message.user messages)) /\
    List.length (topUsers stats) <= 10 /\
    (forall p, In p (topUsers stats) ->
       In (user p) (activeUsers stats) /\
       0 < count p /\
       count p = List.length (filter (signed_by (user p)) messages)) /\
    (forall p u, In p (topUsers stats) -> ~ In u (map user (topUsers stats)) ->
       List.length (filter (signed_by u) messages) <= count p) /\
    sum_of count (topUsers stats) <= totalMessages stats.
Proof.
  intros messages now. cbv zeta. unfold calculateStats.
  cbn [totalMessages messagesPerHour activeUsers topUsers].
  rewrite userCounts_group.
  set (key := fun msg : Message.t => Some (Message.user msg)).
  set (counts := group key 0 (fun n _ => n + 1) messages []).
  destruct (set_of_spec (map Message.user messages)) as (Hnd & Hset & _).
  assert (Hentry : forall k c, In (k, c) counts ->
             0 < c /\ c = List.length (filter (signed_by k) messages)).
  { intros k c H. apply (proj2 (in_entries counts (k, c))) in H.
    destruct (group_entry key 0 (fun n _ => n + 1) messages k c H) as [Hne ->].
    rewrite count_up.
    change (filter (has_key key k) messages) with (filter (signed_by k) messages) in *.
    destruct (filter (signed_by k) messages); [contradiction | cbn; split; [lia|reflexivity]]. }
  assert (Htotal : forall a b : TopPoster,
             True -> True -> by_count_desc a b = false -> by_count_desc b a = true).
  { intros a b _ _ H. unfold by_count_desc in *.
    apply Nat.leb_gt in H. apply Nat.leb_le. lia. }
  assert (Htrans : forall a b c : TopPoster,
             True -> True -> True ->
             by_count_desc a b = true -> by_count_desc b c = true ->
             by_count_desc a c = true).
  { intros a b c _ _ _ H1 H2. unfold by_count_desc in *.
    apply Nat.leb_le in H1. apply Nat.leb_le in H2. apply Nat.leb_le. lia. }
  set (posters := map (fun entry => mkTopPoster (fst entry) (snd entry)) counts).
  assert (Hposter : forall p, In p posters -> In (user p, count p) counts).
  { intros p Hp. apply in_map_iff in Hp. destruct Hp as ([k c] & <- & H). exact H. }
  split; [reflexivity|]. split; [apply ObjectFacts.length_filter_le|].
  split; [exact Hnd|]. split; [exact Hset|]. split.
  { unfold JSArray.slice_to. rewrite length_firstn. lia. }
  split.
  { intros p Hp. apply firstn_in in Hp. apply in_sort in Hp.
    destruct (Hentry _ _ (Hposter p Hp)) as [Hpos Hc].
    split; [|split; assumption].
    apply Hset. rewrite Hc in Hpos.
    destruct (filter (signed_by (user p)) messages) as [|m ms] eqn:E; [cbn in Hpos; lia|].
    assert (Hm : In m (filter (signed_by (user p)) messages)) by (rewrite E; left; reflexivity).
    apply filter_In in Hm. destruct Hm as [Hm Hs]. apply String.eqb_eq in Hs.
    apply in_map_iff. exists m. auto. }
  split.
  { intros p u Hp Hu.
    destruct (filter (signed_by u) messages) as [|m ms] eqn:E; [cbn; lia|].
    assert (Hm : In m (filter (signed_by u) messages)) by (rewrite E; left; reflexivity).
    apply filter_In in Hm. destruct Hm as [Hm Hs]. apply String.eqb_eq in Hs.
    destruct (group_has_entry key 0 (fun n _ => n + 1) messages m u Hm
                ltac:(unfold key; rewrite Hs; reflexivity)) as [c Hc].
    apply (proj1 (in_entries counts (u, c))) in Hc.
    destruct (Hentry u c Hc) as [_ Hlen]. rewrite <- E, <- Hlen.
    assert (Hq : In (mkTopPoster u c) posters).
    { apply in_map_iff. exists (u, c). auto. }
    pose proof (top_largest by_count_desc (fun _ => True) posters 10 p (mkTopPoster u c)
                  Htotal Htrans ltac:(apply Forall_forall; intros; exact I) Hp Hq) as Hle.
    apply Nat.leb_le. apply Hle. intros Hc'. apply Hu.
    apply in_map_iff. exists (mkTopPoster u c). auto. }
  etransitivity; [apply ChatAnalyticsFacts.sum_firstn_le|].
  rewrite sum_of_sort. unfold posters. rewrite sum_of_map. cbn [count].
  unfold counts.
  rewrite (group_sum key 0 (fun n _ => n + 1) (fun n => n) (fun _ => 1) eq_refl
             ltac:(intros; reflexivity)).
  cbn [sum_of]. rewrite Nat.add_0_l.
  assert (Hs : sum_of (fun x => match key x with Some _ => 1 | None => 0 end) messages
               = List.length messages)
    by exact (EffectivenessFacts.sum_of_ones messages).
  rewrite Hs. lia.
Qed.

End ChatAdminFacts.
